(** * Normalizing-flow builders: masks, gated networks and flow recipes

    A shallow embedding of [tools.py] (mask generators), [nn_layers.py]
    (gated transform networks) and [network.py] (flow recipes and the
    recipe dispatch), with the properties of the specification stated
    over it.

    Conventions.
    - Python integers are [Z]; tensor sizes are [nat].
    - A tensor is its size list together with its row-major storage,
      as in torch, so [view], [reshape] and [flatten] only touch the
      size list.
    - The activations and parameters of the networks are float32
      values ([f32]): a finite number, an infinity or NaN.  Arithmetic
      between finite values is exact (rounding and overflow are not
      modelled); infinities and NaN behave as in IEEE 754.
    - The masks and the sample-shape factors are float32 tensors that
      only ever hold the numbers the code writes into them ([0], [1],
      [8], [1/4], ...): their entries are held as real numbers ([R]).
      The entries of an int32 tensor are held as [Z]; the masks only
      ever store index sums [i + j] with [i < h] and [j < w].
    - A Python exception is the [Raise] branch of [result]. *)

From Stdlib Require Import Ascii String DecimalString.
From Stdlib Require Import List ZArith Lia Bool Reals Lra.
Import ListNotations.

Open Scope string_scope.
Open Scope list_scope.

Set Implicit Arguments.

(* ================================================================== *)
(** ** Exceptions and results *)

Inductive exn : Type :=
| TypeError (msg : string)
| NameError (msg : string)
| SyntaxError (msg : string)
| ValueError (msg : string)
| AttributeError (msg : string)
| IndexError (msg : string)
| RuntimeError (msg : string).

Inductive result (A : Type) : Type :=
| Ok (a : A)
| Raise (e : exn).

Arguments Ok {A} a.
Arguments Raise {A} e.

Definition rbind {A B} (r : result A) (k : A -> result B) : result B :=
  match r with
  | Ok a => k a
  | Raise e => Raise e
  end.

Declare Scope py_scope.
Delimit Scope py_scope with py.
Open Scope py_scope.

Notation "x <- e ;; k" := (rbind e (fun x => k))
  (at level 61, e at next level, right associativity) : py_scope.

(* ================================================================== *)
(** ** Tensors *)

Record Tensor (A : Type) : Type := mkTensor {
  shape : list nat;
  data : list A
}.

Definition numel (s : list nat) : nat := fold_right Nat.mul 1%nat s.

(** Storage and size list agree. *)
Definition wf {A} (t : Tensor A) : Prop :=
  length (data t) = numel (shape t).

(** Row-major offset of a multi-index. *)
Fixpoint offset (s idx : list nat) (acc : nat) : nat :=
  match s, idx with
  | d :: s', i :: idx' => offset s' idx' (acc * d + i)
  | _, _ => acc
  end.

Definition tget {A} (d : A) (t : Tensor A) (idx : list nat) : A :=
  nth (offset (shape t) idx 0) (data t) d.

Definition shape_eq_dec : forall s1 s2 : list nat, {s1 = s2} + {s1 <> s2} :=
  list_eq_dec Nat.eq_dec.

Definition tmap {A B} (f : A -> B) (t : Tensor A) : Tensor B :=
  mkTensor (shape t) (map f (data t)).

(** Elementwise binary operation on operands of one shape.  Broadcasting
    between different shapes is never needed by the modelled modules:
    operands of different shapes raise. *)
Definition ew2 {A} (f : A -> A -> A) (x y : Tensor A) : result (Tensor A) :=
  if shape_eq_dec (shape x) (shape y)
  then Ok (mkTensor (shape x)
             (map (fun p => f (fst p) (snd p)) (combine (data x) (data y))))
  else Raise (RuntimeError "The size of tensor a must match the size of tensor b").

(** [torch.arange(n, dtype=torch.int32)] *)
Definition arange (n : Z) : result (Tensor Z) :=
  if (n <? 0)%Z
  then Raise (RuntimeError "upper bound and lower bound inconsistent with step sign")
  else Ok (mkTensor [Z.to_nat n] (map Z.of_nat (seq 0 (Z.to_nat n)))).

(** [torch.meshgrid(a, b, indexing='ij')] on two one-dimensional tensors:
    the first result repeats each entry of [a] along a row, the second
    repeats [b] on every row. *)
Definition meshgrid_ij {A} (a b : Tensor A) : Tensor A * Tensor A :=
  let h := length (data a) in
  let w := length (data b) in
  (mkTensor [h; w] (flat_map (fun x => repeat x w) (data a)),
   mkTensor [h; w] (flat_map (fun _ => data b) (data a))).

(** [torch.fmod(t, k)] on integers: remainder with the sign of the dividend. *)
Definition fmod (t : Tensor Z) (k : Z) : Tensor Z :=
  tmap (fun x => Z.rem x k) t.

(** [t.to(torch.float32)] *)
Definition to_float32 (t : Tensor Z) : Tensor R := tmap IZR t.

(** [torch.ones(n, dtype=torch.float32)], [torch.zeros(n, ...)] *)
Definition full1 (v : R) (n : Z) : result (Tensor R) :=
  if (n <? 0)%Z
  then Raise (RuntimeError "Trying to create tensor with negative dimension")
  else Ok (mkTensor [Z.to_nat n] (repeat v (Z.to_nat n))).

Definition ones (n : Z) : result (Tensor R) := full1 1%R n.
Definition zeros (n : Z) : result (Tensor R) := full1 0%R n.

(** [torch.cat([a, b])] along dimension 0 of one-dimensional tensors. *)
Definition cat1 {A} (a b : Tensor A) : Tensor A :=
  mkTensor [(length (data a) + length (data b))%nat] (data a ++ data b).

(** [t.view(d1, ..., dk)]: the storage is kept, the sizes must account for
    every entry.  (A size of -1, which torch would infer, is never
    passed by the modelled code: negative sizes raise.) *)
Definition view {A} (t : Tensor A) (dims : list Z) : result (Tensor A) :=
  if forallb (fun d => (0 <=? d)%Z) dims
  then
    let s := map Z.to_nat dims in
    if Nat.eq_dec (numel s) (length (data t))
    then Ok (mkTensor s (data t))
    else Raise (RuntimeError "shape is invalid for input size")
  else Raise (RuntimeError "invalid shape dimension").

(** [1 - t] *)
Definition rsub1 (t : Tensor R) : Tensor R := tmap (fun x => (1 - x)%R) t.

(* ================================================================== *)
(** ** tools.py: masks for the coupling layers *)

Definition create_checkerboard_mask (h w : Z) (invert : bool)
  : result (Tensor R) :=
  h_range <- arange h ;;
  w_range <- arange w ;;
  let '(hh, ww) := meshgrid_ij h_range w_range in
  s <- ew2 Z.add hh ww ;;
  let mask := fmod s 2 in
  mask <- view (to_float32 mask) [1%Z; 1%Z; h; w] ;;
  let mask := if invert then rsub1 mask else mask in
  Ok mask.

Definition create_channel_mask (c_in : Z) (invert : bool)
  : result (Tensor R) :=
  o <- ones (c_in / 2) ;;
  z <- zeros (c_in - c_in / 2) ;;
  let mask := cat1 o z in
  mask <- view mask [1%Z; c_in; 1%Z; 1%Z] ;;
  let mask := if invert then rsub1 mask else mask in
  Ok mask.


(* ================================================================== *)
(** ** Tensor operations used by the gated networks *)

(** Storage filled from a function of the multi-index, in row-major order. *)
Fixpoint tab {A} (s : list nat) (f : list nat -> A) : list A :=
  match s with
  | [] => [f []]
  | d :: s' => flat_map (fun i => tab s' (fun idx => f (i :: idx))) (seq 0 d)
  end.

(* ------------------------------------------------------------------ *)
(** *** float32 values *)

(** What an activation or a parameter of a network can hold: a finite
    number, an infinity, or NaN.  A finite value is held as the real
    number it denotes (the two signed zeros as the one [0]), and
    arithmetic between finite values is taken exact: rounding, and
    overflow to an infinity, are not modelled.  Arithmetic with an
    infinity or with NaN follows IEEE 754: NaN is absorbing, and
    [0 * inf] and [inf - inf] are NaN. *)
Inductive f32 : Type :=
| Fin (r : R)
| PInf
| NInf
| NaN.

Definition is_finite (x : f32) : Prop :=
  match x with Fin _ => True | _ => False end.

Definition Rsign (r : R) : comparison :=
  if Rlt_dec 0 r then Gt else if Rlt_dec r 0 then Lt else Eq.

Definition fopp (x : f32) : f32 :=
  match x with
  | Fin a => Fin (- a)
  | PInf => NInf
  | NInf => PInf
  | NaN => NaN
  end.

Definition fadd (x y : f32) : f32 :=
  match x, y with
  | NaN, _ | _, NaN => NaN
  | Fin a, Fin b => Fin (a + b)
  | PInf, NInf | NInf, PInf => NaN
  | PInf, _ | _, PInf => PInf
  | NInf, _ | _, NInf => NInf
  end.

Definition fsub (x y : f32) : f32 := fadd x (fopp y).

Definition fmul (x y : f32) : f32 :=
  match x, y with
  | NaN, _ | _, NaN => NaN
  | Fin a, Fin b => Fin (a * b)
  | Fin a, PInf | PInf, Fin a =>
      match Rsign a with Gt => PInf | Lt => NInf | Eq => NaN end
  | Fin a, NInf | NInf, Fin a =>
      match Rsign a with Gt => NInf | Lt => PInf | Eq => NaN end
  | PInf, PInf | NInf, NInf => PInf
  | PInf, NInf | NInf, PInf => NInf
  end.

(** A zero denominator is taken as [+0]. *)
Definition fdiv (x y : f32) : f32 :=
  match x, y with
  | NaN, _ | _, NaN => NaN
  | Fin a, Fin b =>
      match Rsign b with
      | Eq => match Rsign a with Gt => PInf | Lt => NInf | Eq => NaN end
      | _ => Fin (a / b)
      end
  | Fin _, PInf | Fin _, NInf => Fin 0
  | PInf, Fin b => match Rsign b with Lt => NInf | _ => PInf end
  | NInf, Fin b => match Rsign b with Lt => PInf | _ => NInf end
  | PInf, PInf | PInf, NInf | NInf, PInf | NInf, NInf => NaN
  end.

Definition fsqrt (x : f32) : f32 :=
  match x with
  | Fin a => match Rsign a with Lt => NaN | _ => Fin (sqrt a) end
  | PInf => PInf
  | NInf => NaN
  | NaN => NaN
  end.

Definition fexp (x : f32) : f32 :=
  match x with
  | Fin a => Fin (exp a)
  | PInf => PInf
  | NInf => Fin 0
  | NaN => NaN
  end.

(** [x > 0]: false for NaN. *)
Definition fgt0 (x : f32) : bool :=
  match x with
  | Fin a => match Rsign a with Gt => true | _ => false end
  | PInf => true
  | NInf => false
  | NaN => false
  end.

Definition Fsum (l : list f32) : f32 := fold_right fadd (Fin 0) l.

(** The [r]-th block of [n] consecutive entries. *)
Definition row {A} (n r : nat) (l : list A) : list A :=
  firstn n (skipn (r * n) l).

(** [F.elu] (alpha = 1) and [torch.sigmoid] on one entry. *)
Definition elu (x : f32) : f32 :=
  if fgt0 x then x else fsub (fexp x) (Fin 1).

Definition sigmoid (x : f32) : f32 :=
  fdiv (Fin 1) (fadd (Fin 1) (fexp (fopp x))).

(** [torch.cat([a, b], dim=1)]: per batch entry, the block of [a]
    followed by the block of [b]. *)
Definition cat_dim1 {A} (a b : Tensor A) : result (Tensor A) :=
  match shape a, shape b with
  | n :: ca :: rest, n' :: cb :: rest' =>
      if shape_eq_dec (n :: rest) (n' :: rest')
      then
        let k := numel rest in
        Ok (mkTensor (n :: (ca + cb) :: rest)
              (flat_map (fun i => row (ca * k) i (data a) ++ row (cb * k) i (data b))
                        (seq 0 n)))
      else Raise (RuntimeError "Sizes of tensors must match except in dimension 1")
  | _, _ => Raise (IndexError "Dimension out of range")
  end.

(** [val, gate = t.chunk(2, dim=1)]: torch cuts dimension 1 into pieces
    of [ceil(c/2)] entries; a single piece cannot be unpacked into two
    names. *)
Definition chunk2_dim1 {A} (t : Tensor A) : result (Tensor A * Tensor A) :=
  match shape t with
  | n :: c :: rest =>
      if Nat.eq_dec c 1
      then Raise (ValueError "not enough values to unpack (expected 2, got 1)")
      else
        let k := numel rest in
        let c1 := ((c + 1) / 2)%nat in
        let c2 := (c - c1)%nat in
        Ok (mkTensor (n :: c1 :: rest)
              (flat_map (fun i => firstn (c1 * k) (row (c * k) i (data t)))
                        (seq 0 n)),
            mkTensor (n :: c2 :: rest)
              (flat_map (fun i => skipn (c1 * k) (row (c * k) i (data t)))
                        (seq 0 n)))
  | _ => Raise (IndexError "Dimension out of range")
  end.

(** Position of [d] in a list of dimensions. *)
Fixpoint index_of (d : nat) (l : list nat) : nat :=
  match l with
  | [] => 0
  | x :: l' => if Nat.eqb x d then 0 else S (index_of d l')
  end.

(** [t.permute(dims)]: entry [idx] of the result is the entry of [t]
    whose index along dimension [dims[k]] is [idx[k]]. *)
Definition permute {A} (d0 : A) (t : Tensor A) (dims : list nat)
  : result (Tensor A) :=
  if Nat.eq_dec (length dims) (length (shape t))
  then
    let s := map (fun d => nth d (shape t) 0%nat) dims in
    Ok (mkTensor s
          (tab s (fun idx =>
             tget d0 t (map (fun d => nth (index_of d dims) idx 0%nat)
                            (seq 0 (length dims))))))
  else Raise (RuntimeError "permute: number of dims don't match in permute").

(** [torch.flatten(t, start_dim=1)] *)
Definition flatten1 {A} (t : Tensor A) : result (Tensor A) :=
  match shape t with
  | n :: rest => Ok (mkTensor [n; numel rest] (data t))
  | [] => Raise (RuntimeError "Dimension out of range")
  end.

(** [torch.reshape(t, s)] *)
Definition reshape {A} (t : Tensor A) (s : list nat) : result (Tensor A) :=
  if Nat.eq_dec (numel s) (length (data t))
  then Ok (mkTensor s (data t))
  else Raise (RuntimeError "shape is invalid for input size").

(** Storage set to zero in place ([t.zero_()]). *)
Definition zero_ (t : Tensor f32) : Tensor f32 := tmap (fun _ => Fin 0) t.

(* ================================================================== *)
(** ** torch.nn leaves: Conv2d, Linear, LayerNorm *)

Record Conv2d : Type := mkConv2d {
  in_channels : nat;
  out_channels : nat;
  kernel_size : nat;
  padding : nat;
  conv_weight : Tensor f32;   (* [out_channels; in_channels; k; k] *)
  conv_bias : Tensor f32      (* [out_channels] *)
}.

Record Linear : Type := mkLinear {
  in_features : nat;
  out_features : nat;
  lin_weight : Tensor f32;    (* [out_features; in_features] *)
  lin_bias : Tensor f32       (* [out_features] *)
}.

Record LayerNorm : Type := mkLayerNorm {
  normalized_shape : nat;
  ln_eps : R;
  ln_weight : Tensor f32;     (* [normalized_shape] *)
  ln_bias : Tensor f32        (* [normalized_shape] *)
}.

(** Entry of the zero-padded input of a convolution. *)
Definition padded (p h w : nat) (x : Tensor f32) (n c y z : nat) : f32 :=
  if (p <=? y)%nat && (y <? h + p)%nat && (p <=? z)%nat && (z <? w + p)%nat
  then tget (Fin 0) x [n; c; (y - p)%nat; (z - p)%nat]
  else Fin 0.

(** Kernel positions [(c, di, dj)]. *)
Definition taps (c k : nat) : list (nat * nat * nat) :=
  flat_map (fun ci => flat_map (fun di => map (fun dj => (ci, di, dj)) (seq 0 k))
                               (seq 0 k))
           (seq 0 c).

(** [Conv2d.forward] with stride 1 on a batched input.  torch refuses
    a weight that has no output channel, and an input that has no
    channel. *)
Definition conv2d (m : Conv2d) (x : Tensor f32) : result (Tensor f32) :=
  match shape x with
  | [b; c; h; w] =>
      if (out_channels m =? 0)%nat
      then Raise (RuntimeError "expected weight to be at least 1 at dimension 0")
      else if negb (c =? in_channels m)%nat
      then Raise (RuntimeError "expected input to have in_channels channels")
      else
        let k := kernel_size m in
        let p := padding m in
        if ((h + 2 * p <? k) || (w + 2 * p <? k))%nat
        then Raise (RuntimeError "Kernel size can't be greater than actual input size")
        else if (c =? 0)%nat
        then Raise (RuntimeError "convolution of an input without channels")
        else
          let s := [b; out_channels m; (h + 2 * p + 1 - k)%nat; (w + 2 * p + 1 - k)%nat] in
          Ok (mkTensor s
                (tab s (fun idx =>
                   match idx with
                   | [n; o; i; j] =>
                       fadd (tget (Fin 0) (conv_bias m) [o])
                            (Fsum (map (fun t : nat * nat * nat =>
                                     let '(ci, di, dj) := t in
                                     fmul (tget (Fin 0) (conv_weight m) [o; ci; di; dj])
                                          (padded p h w x n ci (i + di) (j + dj)))
                                   (taps c k)))
                   | _ => Fin 0
                   end)))
  | _ => Raise (RuntimeError "Expected 4D input to conv2d")
  end.

(** One output row of [Linear.forward]. *)
Definition linear_row (m : Linear) (xs : list f32) : list f32 :=
  map (fun o =>
         fadd (tget (Fin 0) (lin_bias m) [o])
              (Fsum (map (fun k => fmul (nth k xs (Fin 0))
                                        (tget (Fin 0) (lin_weight m) [o; k]))
                         (seq 0 (in_features m)))))
      (seq 0 (out_features m)).

(** [Linear.forward]: acts on the last dimension. *)
Definition linear (m : Linear) (x : Tensor f32) : result (Tensor f32) :=
  match rev (shape x) with
  | n :: rpre =>
      if negb (n =? in_features m)%nat
      then Raise (RuntimeError "mat1 and mat2 shapes cannot be multiplied")
      else
        let pre := rev rpre in
        Ok (mkTensor (pre ++ [out_features m])
              (flat_map (fun r => linear_row m (row n r (data x)))
                        (seq 0 (numel pre))))
  | [] => Raise (RuntimeError "linear: input must have at least one dimension")
  end.

(** One normalized row of [LayerNorm.forward]. *)
Definition layer_norm_row (m : LayerNorm) (xs : list f32) : list f32 :=
  let n := Fin (INR (length xs)) in
  let mean := fdiv (Fsum xs) n in
  let var := fdiv (Fsum (map (fun x => fmul (fsub x mean) (fsub x mean)) xs)) n in
  map (fun k =>
         fadd (fmul (fdiv (fsub (nth k xs (Fin 0)) mean)
                          (fsqrt (fadd var (Fin (ln_eps m)))))
                    (tget (Fin 0) (ln_weight m) [k]))
              (tget (Fin 0) (ln_bias m) [k]))
      (seq 0 (length xs)).

(** [LayerNorm.forward]: normalizes over the last dimension. *)
Definition layer_norm (m : LayerNorm) (x : Tensor f32) : result (Tensor f32) :=
  match rev (shape x) with
  | n :: rpre =>
      if negb (n =? normalized_shape m)%nat
      then Raise (RuntimeError "Given normalized_shape, expected input with matching last dimension")
      else
        Ok (mkTensor (shape x)
              (flat_map (fun r => layer_norm_row m (row n r (data x)))
                        (seq 0 (numel (rev rpre)))))
  | [] => Raise (RuntimeError "layer_norm: input must have at least one dimension")
  end.

(* ================================================================== *)
(** ** Interpreter state: the random generator and standard output *)

Record PyState : Type := mkPyState {
  gen : nat -> R;            (* the draws the generator will produce *)
  stdout : list string
}.

Definition M (A : Type) : Type := PyState -> result (A * PyState).

Definition ret {A} (a : A) : M A := fun st => Ok (a, st).

Definition bind {A B} (m : M A) (k : A -> M B) : M B :=
  fun st =>
    match m st with
    | Ok (a, st') => k a st'
    | Raise e => Raise e
    end.

Definition liftR {A} (r : result A) : M A :=
  fun st =>
    match r with
    | Ok a => Ok (a, st)
    | Raise e => Raise e
    end.

Definition raise {A} (e : exn) : M A := fun _ => Raise e.

Notation "x <~ e ;; k" := (bind e (fun x => k))
  (at level 61, e at next level, right associativity) : py_scope.

(** A freshly initialized parameter: its entries are the next draws,
    which are finite. *)
Definition fresh (s : list nat) : M (Tensor f32) :=
  fun st =>
    let n := numel s in
    Ok (mkTensor s (map (fun k => Fin (gen st k)) (seq 0 n)),
        mkPyState (fun k => gen st (k + n)%nat) (stdout st)).

(** [print(line)] *)
Definition print (line : string) : M unit :=
  fun st => Ok (tt, mkPyState (gen st) (stdout st ++ [line])).

(** [for _ in range(n): acc += body] *)
Fixpoint for_extend {A} (n : nat) (body : M (list A)) : M (list A) :=
  match n with
  | O => ret []
  | S n' => xs <~ body ;; ys <~ for_extend n' body ;; ret (xs ++ ys)
  end.

(** [[f(i) for i in l]] *)
Fixpoint comprehension {A B} (f : A -> M B) (l : list A) : M (list B) :=
  match l with
  | [] => ret []
  | a :: l' => b <~ f a ;; bs <~ comprehension f l' ;; ret (b :: bs)
  end.

(** [range(n)] *)
Definition range (n : Z) : list Z := map Z.of_nat (seq 0 (Z.to_nat n)).

(** [nn.Conv2d(c_in, c_out, kernel_size=k, padding=p)] *)
Definition nn_Conv2d (c_in c_out : Z) (k p : nat) : M Conv2d :=
  if ((c_in <? 0) || (c_out <? 0))%Z
  then raise (RuntimeError "Trying to create tensor with negative dimension")
  else
    let ci := Z.to_nat c_in in
    let co := Z.to_nat c_out in
    w <~ fresh [co; ci; k; k] ;;
    b <~ fresh [co] ;;
    ret (mkConv2d ci co k p w b).

(** [nn.Linear(in_features=i, out_features=o)] *)
Definition nn_Linear (i o : Z) : M Linear :=
  if ((i <? 0) || (o <? 0))%Z
  then raise (RuntimeError "Trying to create tensor with negative dimension")
  else
    let ni := Z.to_nat i in
    let no := Z.to_nat o in
    w <~ fresh [no; ni] ;;
    b <~ fresh [no] ;;
    ret (mkLinear ni no w b).

(** [nn.LayerNorm(n)]: weight ones, bias zeros, eps = 1e-5. *)
Definition nn_LayerNorm (n : Z) : M LayerNorm :=
  w <~ liftR (ones n) ;;
  b <~ liftR (zeros n) ;;
  ret (mkLayerNorm (Z.to_nat n) (1 / 100000)%R (tmap Fin w) (tmap Fin b)).

(* ================================================================== *)
(** ** nn_layers.py *)

(** The modules an inner [nn.Sequential] is made of. *)
Inductive Leaf : Type :=
| Conv2dL (m : Conv2d)
| LinearL (m : Linear)
| LayerNormL (m : LayerNorm)
| ConcatELU.

(** [ConcatELU.forward]: [torch.cat([F.elu(x), F.elu(-x)], dim=1)] *)
Definition ConcatELU_forward (x : Tensor f32) : result (Tensor f32) :=
  cat_dim1 (tmap elu x) (tmap elu (tmap fopp x)).

Definition Leaf_forward (l : Leaf) (x : Tensor f32) : result (Tensor f32) :=
  match l with
  | Conv2dL m => conv2d m x
  | LinearL m => linear m x
  | LayerNormL m => layer_norm m x
  | ConcatELU => ConcatELU_forward x
  end.

(** [nn.Sequential.forward] *)
Fixpoint Sequential_forward {L} (fwd : L -> Tensor f32 -> result (Tensor f32))
    (layers : list L) (x : Tensor f32) : result (Tensor f32) :=
  match layers with
  | [] => Ok x
  | l :: rest => y <- fwd l x ;; Sequential_forward fwd rest y
  end.

Record LayerNormChannels : Type := mkLayerNormChannels {
  lnc_layer_norm : LayerNorm
}.

Definition LayerNormChannels__init__ (c_in : Z) : M LayerNormChannels :=
  ln <~ nn_LayerNorm c_in ;;
  ret (mkLayerNormChannels ln).

Definition LayerNormChannels_forward (m : LayerNormChannels) (x : Tensor f32)
  : result (Tensor f32) :=
  x <- permute (Fin 0) x [0; 2; 3; 1]%nat ;;
  x <- layer_norm (lnc_layer_norm m) x ;;
  x <- permute (Fin 0) x [0; 3; 1; 2]%nat ;;
  Ok x.

Record GatedConv : Type := mkGatedConv {
  gc_net : list Leaf
}.

Definition GatedConv__init__ (c_in c_hidden : Z) : M GatedConv :=
  c1 <~ nn_Conv2d c_in c_hidden 3 1 ;;
  c2 <~ nn_Conv2d (2 * c_hidden) (2 * c_in) 1 0 ;;
  ret (mkGatedConv [Conv2dL c1; ConcatELU; Conv2dL c2]).

(** [x + val * torch.sigmoid(gate)] *)
Definition gated_update (x out : Tensor f32) : result (Tensor f32) :=
  vg <- chunk2_dim1 out ;;
  let '(val, gate) := vg in
  p <- ew2 fmul val (tmap sigmoid gate) ;;
  ew2 fadd x p.

Definition GatedConv_forward (m : GatedConv) (x : Tensor f32)
  : result (Tensor f32) :=
  out <- Sequential_forward Leaf_forward (gc_net m) x ;;
  gated_update x out.

Record GatedLinear : Type := mkGatedLinear {
  gl_net : list Leaf
}.

Definition GatedLinear__init__ (in_features : Z) : M GatedLinear :=
  l1 <~ nn_Linear in_features in_features ;;
  l2 <~ nn_Linear (2 * in_features) (2 * in_features) ;;
  ret (mkGatedLinear [LinearL l1; ConcatELU; LinearL l2]).

Definition GatedLinear_forward (m : GatedLinear) (x : Tensor f32)
  : result (Tensor f32) :=
  out <- Sequential_forward Leaf_forward (gl_net m) x ;;
  gated_update x out.

(** The modules the outer [nn.Sequential] of a gated network is made of. *)
Inductive Layer : Type :=
| LeafL (l : Leaf)
| GatedConvL (m : GatedConv)
| LayerNormChannelsL (m : LayerNormChannels)
| GatedLinearL (m : GatedLinear).

Definition Layer_forward (l : Layer) (x : Tensor f32) : result (Tensor f32) :=
  match l with
  | LeafL l => Leaf_forward l x
  | GatedConvL m => GatedConv_forward m x
  | LayerNormChannelsL m => LayerNormChannels_forward m x
  | GatedLinearL m => GatedLinear_forward m x
  end.

(** [layer.weight.data.zero_()] and [layer.bias.data.zero_()] *)
Definition weight_zero_ (l : Layer) : result Layer :=
  match l with
  | LeafL (Conv2dL m) =>
      Ok (LeafL (Conv2dL (mkConv2d (in_channels m) (out_channels m)
                            (kernel_size m) (padding m)
                            (zero_ (conv_weight m)) (conv_bias m))))
  | LeafL (LinearL m) =>
      Ok (LeafL (LinearL (mkLinear (in_features m) (out_features m)
                            (zero_ (lin_weight m)) (lin_bias m))))
  | LeafL (LayerNormL m) =>
      Ok (LeafL (LayerNormL (mkLayerNorm (normalized_shape m) (ln_eps m)
                               (zero_ (ln_weight m)) (ln_bias m))))
  | _ => Raise (AttributeError "object has no attribute 'weight'")
  end.

Definition bias_zero_ (l : Layer) : result Layer :=
  match l with
  | LeafL (Conv2dL m) =>
      Ok (LeafL (Conv2dL (mkConv2d (in_channels m) (out_channels m)
                            (kernel_size m) (padding m)
                            (conv_weight m) (zero_ (conv_bias m)))))
  | LeafL (LinearL m) =>
      Ok (LeafL (LinearL (mkLinear (in_features m) (out_features m)
                            (lin_weight m) (zero_ (lin_bias m)))))
  | LeafL (LayerNormL m) =>
      Ok (LeafL (LayerNormL (mkLayerNorm (normalized_shape m) (ln_eps m)
                               (ln_weight m) (zero_ (ln_bias m)))))
  | _ => Raise (AttributeError "object has no attribute 'bias'")
  end.

(** An in-place update of [seq[-1]]. *)
Definition update_last {A} (f : A -> result A) (l : list A) : result (list A) :=
  match rev l with
  | [] => Raise (IndexError "index -1 is out of range")
  | x :: r => y <- f x ;; Ok (rev r ++ [y])
  end.

Record GatedConvNet : Type := mkGatedConvNet {
  gcn_nn : list Layer
}.

Definition GatedConvNet__init__ (c_in c_hidden c_out num_layers : Z)
  : M GatedConvNet :=
  let c_out := if (c_out >? 0)%Z then c_out else (2 * c_in)%Z in
  first <~ nn_Conv2d c_in c_hidden 3 1 ;;
  blocks <~ for_extend (Z.to_nat num_layers)
              (g <~ GatedConv__init__ c_hidden c_hidden ;;
               n <~ LayerNormChannels__init__ c_hidden ;;
               ret [GatedConvL g; LayerNormChannelsL n]) ;;
  final <~ nn_Conv2d (2 * c_hidden) c_out 3 1 ;;
  let layers := [LeafL (Conv2dL first)] ++ blocks
                ++ [LeafL ConcatELU; LeafL (Conv2dL final)] in
  layers <~ liftR (update_last weight_zero_ layers) ;;
  layers <~ liftR (update_last bias_zero_ layers) ;;
  ret (mkGatedConvNet layers).

Definition GatedConvNet_forward (m : GatedConvNet) (x : Tensor f32)
  : result (Tensor f32) :=
  Sequential_forward Layer_forward (gcn_nn m) x.

Record GatedLinearNet : Type := mkGatedLinearNet {
  gln_nn : list Layer
}.

Definition GatedLinearNet__init__ (in_features num_layers : Z)
  : M GatedLinearNet :=
  first <~ nn_Linear in_features in_features ;;
  blocks <~ for_extend (Z.to_nat num_layers)
              (g <~ GatedLinear__init__ in_features ;;
               n <~ nn_LayerNorm in_features ;;
               ret [GatedLinearL g; LeafL (LayerNormL n)]) ;;
  final <~ nn_Linear (2 * in_features) (2 * in_features) ;;
  let layers := [LeafL (LinearL first)] ++ blocks
                ++ [LeafL ConcatELU; LeafL (LinearL final)] in
  layers <~ liftR (update_last weight_zero_ layers) ;;
  layers <~ liftR (update_last bias_zero_ layers) ;;
  ret (mkGatedLinearNet layers).

Definition GatedLinearNet_forward (m : GatedLinearNet) (x : Tensor f32)
  : result (Tensor f32) :=
  match shape x with
  | [b; c; h; w] =>
      out <- flatten1 x ;;
      out <- Sequential_forward Layer_forward (gln_nn m) out ;;
      out <- reshape out [b; (2 * c)%nat; h; w] ;;
      Ok out
  | _ => Raise (ValueError "wrong number of values to unpack (expected 4)")
  end.

(* ================================================================== *)
(** ** Keyword calls *)

Inductive pyval : Type :=
| PInt (z : Z)
| PBool (b : bool).

(** [bool] is a subclass of [int]. *)
Definition as_int (v : pyval) : Z :=
  match v with
  | PInt z => z
  | PBool b => if b then 1%Z else 0%Z
  end.

Definition kwargs : Type := list (string * pyval).

Fixpoint lookup_kw (k : string) (kw : kwargs) : option pyval :=
  match kw with
  | [] => None
  | (k', v) :: kw' => if String.eqb k k' then Some v else lookup_kw k kw'
  end.

Fixpoint collect {A} (l : list (result A)) : result (list A) :=
  match l with
  | [] => Ok []
  | r :: l' => a <- r ;; l'' <- collect l' ;; Ok (a :: l'')
  end.

(** Binding of a keyword-only call against a signature: each parameter
    comes with its default, if it has one.  A keyword that names no
    parameter is a [TypeError], and so is a parameter left without a
    value. *)
Definition bind_args (fname : string)
    (params : list (string * option pyval)) (kw : kwargs)
  : result (list pyval) :=
  match find (fun kv => negb (existsb (String.eqb (fst kv)) (map fst params))) kw with
  | Some (k, _) =>
      Raise (TypeError
               (fname ++ "() got an unexpected keyword argument '" ++ k ++ "'")%string)
  | None =>
      collect
        (map (fun pd : string * option pyval =>
                match lookup_kw (fst pd) kw, snd pd with
                | Some v, _ => Ok v
                | None, Some v => Ok v
                | None, None =>
                    Raise (TypeError
                             (fname ++ "() missing 1 required positional argument: '"
                              ++ fst pd ++ "'")%string)
                end)
             params)
  end.

(** [def __init__(self, c_in, c_hidden=32, c_out=-1, num_layers=3)] *)
Definition GatedConvNet_signature : list (string * option pyval) :=
  [("c_in", None); ("c_hidden", Some (PInt 32));
   ("c_out", Some (PInt (-1))); ("num_layers", Some (PInt 3))].

(** The call [GatedConvNet(k1=v1, ...)]. *)
Definition GatedConvNet_call (kw : kwargs) : M GatedConvNet :=
  args <~ liftR (bind_args "GatedConvNet.__init__" GatedConvNet_signature kw) ;;
  match args with
  | [c_in; c_hidden; c_out; num_layers] =>
      GatedConvNet__init__ (as_int c_in) (as_int c_hidden)
                           (as_int c_out) (as_int num_layers)
  | _ => raise (TypeError "GatedConvNet.__init__()")
  end.

(** [def __init__(self, in_features, num_layers=3)] *)
Definition GatedLinearNet_signature : list (string * option pyval) :=
  [("in_features", None); ("num_layers", Some (PInt 3))].

(** The call [GatedLinearNet(k1=v1, ...)]. *)
Definition GatedLinearNet_call (kw : kwargs) : M GatedLinearNet :=
  args <~ liftR (bind_args "GatedLinearNet.__init__" GatedLinearNet_signature kw) ;;
  match args with
  | [in_features; num_layers] =>
      GatedLinearNet__init__ (as_int in_features) (as_int num_layers)
  | _ => raise (TypeError "GatedLinearNet.__init__()")
  end.

(* ================================================================== *)
(** ** network.py *)

Record Config : Type := mkConfig {
  size : Z;
  c : Z;
  model_name : string;
  device : string
}.

(** A number in a Python list literal, and [torch.tensor(literal)]:
    an integer tensor when every entry is an [int], a float tensor
    otherwise. *)
Inductive pynum : Type :=
| NInt (z : Z)
| NFloat (r : R).

Inductive AnyTensor : Type :=
| IntTensor (t : Tensor Z)
| FloatTensor (t : Tensor R).

Definition is_int (n : pynum) : bool :=
  match n with NInt _ => true | NFloat _ => false end.

Definition torch_tensor (l : list pynum) : AnyTensor :=
  if forallb is_int l
  then IntTensor (mkTensor [length l]
                    (map (fun n => match n with NInt z => z | NFloat _ => 0%Z end) l))
  else FloatTensor (mkTensor [length l]
                      (map (fun n => match n with NInt z => IZR z | NFloat r => r end) l)).

(** The network handed to a coupling layer. *)
Inductive Network : Type :=
| ConvNet (n : GatedConvNet)
| LinearNet (n : GatedLinearNet).

(** [for i in l: acc += body(i)] *)
Fixpoint for_each {A B} (l : list A) (body : A -> M (list B)) : M (list B) :=
  match l with
  | [] => ret []
  | a :: l' => xs <~ body a ;; ys <~ for_each l' body ;; ret (xs ++ ys)
  end.

(** [i % 2 == 1] *)
Definition is_odd (i : Z) : bool := (i mod 2 =? 1)%Z.

(** *** Identifiers and the expressions [eval] is given *)

Definition is_ident_start (a : ascii) : bool :=
  let n := nat_of_ascii a in
  ((65 <=? n) && (n <=? 90) || (97 <=? n) && (n <=? 122) || (n =? 95))%nat.

Definition is_ident_char (a : ascii) : bool :=
  let n := nat_of_ascii a in
  (is_ident_start a || (48 <=? n) && (n <=? 57))%nat.

Fixpoint all_chars (p : ascii -> bool) (s : string) : bool :=
  match s with
  | EmptyString => true
  | String a s' => p a && all_chars p s'
  end.

Definition python_keywords : list string :=
  ["False"; "None"; "True"; "and"; "as"; "assert"; "async"; "await";
   "break"; "class"; "continue"; "def"; "del"; "elif"; "else"; "except";
   "finally"; "for"; "from"; "global"; "if"; "import"; "in"; "is";
   "lambda"; "nonlocal"; "not"; "or"; "pass"; "raise"; "return"; "try";
   "while"; "with"; "yield"].

(** A name token (ASCII) that is not a keyword. *)
Definition is_identifier (s : string) : bool :=
  match s with
  | EmptyString => false
  | String a s' => is_ident_start a && all_chars is_ident_char s'
  end
  && negb (existsb (String.eqb s) python_keywords).

(** The pieces of a string between spaces. *)
Fixpoint words_aux (cur : string) (s : string) : list string :=
  match s with
  | EmptyString =>
      match cur with EmptyString => [] | _ => [cur] end
  | String a s' =>
      if Ascii.eqb a " "%char
      then match cur with
           | EmptyString => words_aux EmptyString s'
           | _ => cur :: words_aux EmptyString s'
           end
      else words_aux (cur ++ String a EmptyString)%string s'
  end.

Definition words (s : string) : list string := words_aux EmptyString s.

Fixpoint lookup_name {A} (k : string) (env : list (string * A)) : option A :=
  match env with
  | [] => None
  | (k', v) :: env' => if String.eqb k k' then Some v else lookup_name k env'
  end.

Section Network.

(** The flow transforms and the composed flow live in [flow_models.py],
    [flow_dequantization.py] and [flow_template.py]; the recipes only
    call their constructors.  They are taken as they come: any types,
    any constructors, which may raise. *)
Variable Flow : Type.
Variable FlowModel : Type.
Variable CouplingLayer : Network -> Tensor R -> Z -> M Flow.
Variable Dequantization : M Flow.
Variable VariationalDequantization : list Flow -> M Flow.
Variable SqueezeFlow : M Flow.
Variable SplitFlow : Config -> M Flow.
Variable ImageFlow : list Flow -> Config -> M FlowModel.
(** [net.to(device=...)] *)
Variable Module_to : FlowModel -> string -> M FlowModel.

Definition get_flow_layers (size c : Z) (vardeq : bool) (num_layers : Z)
    (linear partial_conv : bool) : M (list Flow) :=
  (* Dequantization *)
  flow_layers <~
    (if vardeq
     then
       vardeq_layers <~
         comprehension
           (fun i =>
              network <~ GatedConvNet_call
                           [("c_in", PInt (2 * c)); ("c_out", PInt (2 * c));
                            ("c_hidden", PInt 16);
                            ("partial_conv", PBool partial_conv)] ;;
              mask <~ liftR (create_checkerboard_mask size size (is_odd i)) ;;
              CouplingLayer (ConvNet network) mask (1 * c))
           (range 4) ;;
       vd <~ VariationalDequantization vardeq_layers ;;
       ret [vd]
     else
       d <~ Dequantization ;;
       ret [d]) ;;
  (* Main Flow *)
  main <~
    for_each (range num_layers)
      (fun i =>
         if negb linear
         then
           network <~ GatedConvNet_call
                        [("c_in", PInt (1 * c)); ("c_hidden", PInt 32);
                         ("partial_conv", PBool partial_conv)] ;;
           mask <~ liftR (create_checkerboard_mask size size (is_odd i)) ;;
           l <~ CouplingLayer (ConvNet network) mask (1 * c) ;;
           ret [l]
         else
           let num_features := (c * size * size)%Z in
           network <~ GatedLinearNet_call [("in_features", PInt num_features)] ;;
           mask <~ liftR (create_checkerboard_mask size size (is_odd i)) ;;
           l <~ CouplingLayer (LinearNet network) mask (1 * c) ;;
           ret [l]) ;;
  ret (flow_layers ++ main).

Definition recipe : Type := Config -> M (FlowModel * AnyTensor).

(** Dequantization + 8 * CouplingLayer(GatedConvNet) *)
Definition create_simple_flow : recipe := fun config =>
  flow_layers <~ get_flow_layers (size config) (c config) false 8 false false ;;
  flow_model <~ ImageFlow flow_layers config ;;
  let sample_shape_factor := torch_tensor [NInt 1; NInt 1; NInt 1; NInt 1] in
  ret (flow_model, sample_shape_factor).

(** Variational Dequantization + 8 * CouplingLayer(GatedConvNet) *)
Definition create_vardeq_flow : recipe := fun config =>
  flow_layers <~ get_flow_layers (size config) (c config) true 8 false false ;;
  flow_model <~ ImageFlow flow_layers config ;;
  let sample_shape_factor := torch_tensor [NInt 1; NInt 1; NInt 1; NInt 1] in
  ret (flow_model, sample_shape_factor).

(** Variational Dequantization + 15 * CouplingLayer(GatedConvNet) *)
Definition create_long_flow : recipe := fun config =>
  flow_layers <~ get_flow_layers (size config) (c config) true 15 false false ;;
  flow_model <~ ImageFlow flow_layers config ;;
  let sample_shape_factor := torch_tensor [NInt 1; NInt 1; NInt 1; NInt 1] in
  ret (flow_model, sample_shape_factor).

(** Variational Dequantization + 8 * CouplingLayer(GatedLinearNet) *)
Definition create_linear_flow : recipe := fun config =>
  flow_layers <~ get_flow_layers (size config) (c config) true 8 true false ;;
  flow_model <~ ImageFlow flow_layers config ;;
  let sample_shape_factor := torch_tensor [NInt 1; NInt 1; NInt 1; NInt 1] in
  ret (flow_model, sample_shape_factor).

Definition create_partial_conv_flow : recipe := fun config =>
  flow_layers <~ get_flow_layers (size config) (c config) true 8 false true ;;
  flow_model <~ ImageFlow flow_layers config ;;
  let sample_shape_factor := torch_tensor [NInt 1; NInt 1; NInt 1; NInt 1] in
  ret (flow_model, sample_shape_factor).

(** [(config.size % 4 == 0) and (config.size >= 20)] *)
Definition squeeze_twice (config : Config) : bool :=
  if ((size config mod 4 =? 0) && (size config >=? 20))%Z then true else false.

Definition create_multiscale_flow : recipe := fun config =>
  (* Vardeq, 2 Coupling *)
  vardeq_layers <~
    comprehension
      (fun i =>
         network <~ GatedConvNet_call
                      [("c_in", PInt (2 * c config)); ("c_out", PInt (2 * c config));
                       ("c_hidden", PInt 16)] ;;
         mask <~ liftR (create_checkerboard_mask (size config) (size config) (is_odd i)) ;;
         CouplingLayer (ConvNet network) mask (1 * c config))
      (range 4) ;;
  vd <~ VariationalDequantization vardeq_layers ;;
  let flow_layers := [vd] in
  ls <~
    comprehension
      (fun i =>
         network <~ GatedConvNet_call
                      [("c_in", PInt (1 * c config)); ("c_hidden", PInt 32)] ;;
         mask <~ liftR (create_checkerboard_mask (size config) (size config) (is_odd i)) ;;
         CouplingLayer (ConvNet network) mask (1 * c config))
      (range 2) ;;
  let flow_layers := flow_layers ++ ls in
  (* Squeeze, 2 Coupling *)
  sq <~ SqueezeFlow ;;
  let flow_layers := flow_layers ++ [sq] in
  ls <~
    for_each (range 2)
      (fun i =>
         network <~ GatedConvNet_call
                      [("c_in", PInt (4 * c config)); ("c_hidden", PInt 48)] ;;
         mask <~ liftR (create_channel_mask (4 * c config) (is_odd i)) ;;
         l <~ CouplingLayer (ConvNet network) mask (4 * c config) ;;
         ret [l]) ;;
  let flow_layers := flow_layers ++ ls in
  (* Split (,Squeeze?), 4 Coupling *)
  sp <~ SplitFlow config ;;
  let flow_layers := flow_layers ++ [sp] in
  r <~
    (if squeeze_twice config
     then
       sq <~ SqueezeFlow ;;
       let flow_layers := flow_layers ++ [sq] in
       ls <~
         comprehension
           (fun i =>
              network <~ GatedConvNet_call
                           [("c_in", PInt (8 * c config)); ("c_hidden", PInt 64)] ;;
              mask <~ liftR (create_channel_mask (8 * c config) (is_odd i)) ;;
              CouplingLayer (ConvNet network) mask (8 * c config))
           (range 4) ;;
       ret (flow_layers ++ ls,
            torch_tensor [NInt 1; NInt 8; NFloat (1 / 4); NFloat (1 / 4)])
     else
       ls <~
         comprehension
           (fun i =>
              network <~ GatedConvNet_call
                           [("c_in", PInt (2 * c config)); ("c_hidden", PInt 64)] ;;
              mask <~ liftR (create_channel_mask (2 * c config) (is_odd i)) ;;
              CouplingLayer (ConvNet network) mask (2 * c config))
           (range 4) ;;
       ret (flow_layers ++ ls,
            torch_tensor [NInt 1; NInt 2; NFloat (1 / 2); NFloat (1 / 2)])) ;;
  let '(flow_layers, sample_shape_factor) := r in
  flow_model <~ ImageFlow flow_layers config ;;
  ret (flow_model, sample_shape_factor).

(** *** The recipe dispatch *)

(** What a name of the module is bound to: one of the recipes, or
    something else (a class, a module, a helper). *)
Inductive pyobj : Type :=
| Recipe (f : recipe)
| Other (name : string).

(** The names [eval] can see from inside [create_flow]: its local
    [config], then the module's globals.  (The builtins come last; none
    of their names starts with [create_].) *)
Definition namespace : list (string * pyobj) :=
  [("config", Other "config");
   ("torch", Other "torch");
   ("ImageFlow", Other "ImageFlow");
   ("Dequantization", Other "Dequantization");
   ("VariationalDequantization", Other "VariationalDequantization");
   ("CouplingLayer", Other "CouplingLayer");
   ("SqueezeFlow", Other "SqueezeFlow");
   ("SplitFlow", Other "SplitFlow");
   ("GatedConvNet", Other "GatedConvNet");
   ("GatedLinearNet", Other "GatedLinearNet");
   ("create_checkerboard_mask", Other "create_checkerboard_mask");
   ("create_channel_mask", Other "create_channel_mask");
   ("get_flow_layers", Other "get_flow_layers");
   ("create_simple_flow", Recipe create_simple_flow);
   ("create_vardeq_flow", Recipe create_vardeq_flow);
   ("create_long_flow", Recipe create_long_flow);
   ("create_linear_flow", Recipe create_linear_flow);
   ("create_partial_conv_flow", Recipe create_partial_conv_flow);
   ("create_multiscale_flow", Recipe create_multiscale_flow);
   ("create_flow", Other "create_flow")].

(** Python's evaluator on expressions that are more than names, and
    the call [obj(config=config)] of an object that is not a recipe,
    are the interpreter's. *)
Variable eval_expr : string -> M pyobj.
Variable call_other : string -> Config -> M (FlowModel * AnyTensor).

(** [eval(src)]: a single name is looked up; names that merely follow
    one another are not an expression; anything else is left to the
    interpreter. *)
Definition py_eval (src : string) : M pyobj :=
  match words src with
  | [] => raise (SyntaxError "invalid syntax")
  | [w] =>
      if is_identifier w
      then match lookup_name w namespace with
           | Some o => ret o
           | None => raise (NameError ("name '" ++ w ++ "' is not defined")%string)
           end
      else eval_expr src
  | ws =>
      if forallb is_identifier ws
      then raise (SyntaxError "invalid syntax")
      else eval_expr src
  end.

Definition call (o : pyobj) (config : Config) : M (FlowModel * AnyTensor) :=
  match o with
  | Recipe f => f config
  | Other name => call_other name config
  end.

(** [try: body except NameError: raise NameError(msg)] *)
Definition try_except_NameError {A} (body : M A) (msg : string) : M A :=
  fun st =>
    match body st with
    | Raise (NameError _) => Raise (NameError msg)
    | r => r
    end.

Definition create_flow (config : Config) : M (FlowModel * AnyTensor) :=
  create_flow_func <~ py_eval ("create_" ++ model_name config ++ "_flow")%string ;;
  r <~ try_except_NameError
         (call create_flow_func config)
         ("Unknown model: " ++ model_name config)%string ;;
  let '(net, sample_shape_factor) := r in
  net <~ Module_to net (device config) ;;
  _ <~ print ("Done Creating Network! (model: " ++ model_name config ++ ")")%string ;;
  ret (net, sample_shape_factor).

End Network.

(* ================================================================== *)
(** ** Vocabulary of the statements *)

(** A tensor of the given shape whose storage has the matching length. *)
Definition has_shape {A} (t : Tensor A) (s : list nat) : Prop :=
  shape t = s /\ length (data t) = numel s.

(** Every entry of the storage is zero. *)
Definition all_zero (t : Tensor f32) : Prop :=
  Forall (fun x => x = Fin 0) (data t).

(** No entry of the storage is an infinity or NaN. *)
Definition all_finite (t : Tensor f32) : Prop :=
  Forall is_finite (data t).

(** The all-zero tensor of a shape. *)
Definition zeros_of (s : list nat) : Tensor f32 :=
  mkTensor s (repeat (Fin 0) (numel s)).

(** A forward function that accepts every tensor of shape [s] and
    returns one of shape [s']. *)
Definition maps_shape (fwd : Tensor f32 -> result (Tensor f32)) (s s' : list nat)
  : Prop :=
  forall x, has_shape x s -> exists y, fwd x = Ok y /\ has_shape y s'.

(** The recipe names of [network.py]. *)
Definition known_recipes : list string :=
  ["simple"; "vardeq"; "long"; "linear"; "partial_conv"; "multiscale"].

(** An interpreter state to run examples from. *)
Definition initial_state : PyState := mkPyState (fun _ => 0%R) [].

(** A state whose generator draws [1/2, 1/3, 1/4, ...]: no parameter
    starts at zero. *)
Definition drawing_state : PyState :=
  mkPyState (fun k => (1 / INR (k + 2))%R) [].

(** Stand-ins for the classes that are not part of the modelled files:
    a flow transform is remembered by its kind only, every constructor
    succeeds, and the composed flow is the list of its transforms. *)
Inductive FlowKind : Type :=
| KDequantization
| KVariationalDequantization (var_flows : nat)
| KCouplingConv
| KCouplingLinear
| KSqueeze
| KSplit.

Definition kind_CouplingLayer (network : Network) (mask : Tensor R) (c_in : Z)
  : M FlowKind :=
  ret (match network with ConvNet _ => KCouplingConv | LinearNet _ => KCouplingLinear end).

Definition kind_Dequantization : M FlowKind := ret KDequantization.

Definition kind_VariationalDequantization (var_flows : list FlowKind) : M FlowKind :=
  ret (KVariationalDequantization (length var_flows)).

Definition kind_SqueezeFlow : M FlowKind := ret KSqueeze.

Definition kind_SplitFlow (config : Config) : M FlowKind := ret KSplit.

Definition kind_ImageFlow (flows : list FlowKind) (config : Config)
  : M (list FlowKind) := ret flows.

Definition kind_to (net : list FlowKind) (device : string) : M (list FlowKind) :=
  ret net.

Definition no_eval_expr (src : string) : M (pyobj (list FlowKind)) :=
  raise (RuntimeError "expression outside the modelled fragment").

Definition no_call_other (name : string) (config : Config)
  : M (list FlowKind * AnyTensor) :=
  raise (TypeError "object is not callable").

(** A computation that returns, whatever the interpreter state. *)
Definition returns {A} (m : M A) : Prop :=
  forall st, exists a st', m st = Ok (a, st').

(** A multi-index that lies inside a shape. *)
Definition in_range (idx s : list nat) : Prop := Forall2 lt idx s.

(** A computation that returns, whatever the interpreter state, a value
    with a given property. *)
Definition returns_with {A} (P : A -> Prop) (m : M A) : Prop :=
  forall st, exists a st', m st = Ok (a, st') /\ P a.

(** Stand-ins that remember what each constructor was given: a coupling
    layer keeps the kind of its network, its mask and its [c_in]; the
    composed flow is the list of its transforms. *)
Unset Elimination Schemes.
Inductive Traced : Type :=
| TDequantization
| TVariationalDequantization (var_flows : list Traced)
| TCoupling (linear : bool) (mask : Tensor R) (c_in : Z)
| TSqueeze
| TSplit.
Set Elimination Schemes.

Definition traced_CouplingLayer (network : Network) (mask : Tensor R) (c_in : Z)
  : M Traced :=
  ret (TCoupling (match network with ConvNet _ => false | LinearNet _ => true end)
         mask c_in).

Definition traced_Dequantization : M Traced := ret TDequantization.

Definition traced_VariationalDequantization (var_flows : list Traced) : M Traced :=
  ret (TVariationalDequantization var_flows).

Definition traced_SqueezeFlow : M Traced := ret TSqueeze.

Definition traced_SplitFlow (config : Config) : M Traced := ret TSplit.

Definition traced_ImageFlow (flows : list Traced) (config : Config)
  : M (list Traced) := ret flows.

(* ================================================================== *)
(** ** tools.py: plotting, sampling, parameters and the environment *)

(** The exceptions of [tools.py] that [network.py] and [nn_layers.py]
    do not meet. *)
Inductive exc : Type :=
| Builtin (e : exn)
| ZeroDivisionError (msg : string)
| KeyError (key : string).

Inductive outcome (A : Type) : Type :=
| Returns (a : A)
| Raises (e : exc).

Arguments Returns {A} a.
Arguments Raises {A} e.

Definition obind {A B} (r : outcome A) (k : A -> outcome B) : outcome B :=
  match r with
  | Returns a => k a
  | Raises e => Raises e
  end.

Notation "x <-? e ;; k" := (obind e (fun x => k))
  (at level 61, e at next level, right associativity) : py_scope.

(** The calls [tools.py] makes into torchvision, matplotlib and the flow
    model, with the arguments it computes for them, and the lines it
    prints.  The libraries are taken to return. *)
Inductive Call : Type :=
| make_grid (nrow : Z) (pad_value : R)
| plt_figure (width height : R)
| plt_imshow
| plt_axis (arg : string)
| plt_title (title : string)
| flow_sample (sample_shape : list Z)
| plt_savefig (path : string)
| print_line (text : string)
| plt_show
| plt_close.

Inductive dtype : Type := int32 | int64 | float32.

Definition is_int32 (dt : dtype) : bool :=
  match dt with int32 => true | _ => false end.

(** What [imgs_to_plt] reads of its argument: the dtype and the sizes of
    a tensor, or of each tensor of a list. *)
Inductive Imgs : Type :=
| ImgsTensor (dt : dtype) (sizes : list Z)
| ImgsList (items : list (dtype * list Z)).

(** [int(math.ceil(a / b))] for [b <> 0], the quotient taken exact. *)
Definition ceil_div (a b : Z) : Z := (- ((- a) / b))%Z.

Definition imgs_to_plt (imgs : Imgs) (title : option string) (row_size : Z)
  : outcome (list Call) :=
  num_imgs <-? match imgs with
               | ImgsTensor _ (n :: _) => Returns n
               | ImgsTensor _ [] =>
                   Raises (Builtin (IndexError "tuple index out of range"))
               | ImgsList l => Returns (Z.of_nat (length l))
               end ;;
  is_int <-? match imgs with
             | ImgsTensor dt _ => Returns (is_int32 dt)
             | ImgsList ((dt, _) :: _) => Returns (is_int32 dt)
             | ImgsList [] =>
                 Raises (Builtin (IndexError "list index out of range"))
             end ;;
  let nrow := Z.min num_imgs row_size in
  if (nrow =? 0)%Z
  then Raises (ZeroDivisionError "division by zero")
  else
    let ncol := ceil_div num_imgs nrow in
    Returns ([make_grid nrow (if is_int then 128%R else (1 / 2)%R);
              plt_figure (15 / 10 * IZR nrow) (15 / 10 * IZR ncol);
              plt_imshow;
              plt_axis "off"]
             ++ match title with
                | Some t => [plt_title t]
                | None => []
                end).

(** Two's complement wrap-around to [bits] bits. *)
Definition wrap (bits z : Z) : Z :=
  ((z + 2 ^ (bits - 1)) mod 2 ^ bits - 2 ^ (bits - 1))%Z.

(** Conversion of a float to an integer: towards zero. *)
Definition Rtrunc (r : R) : Z :=
  if Rle_dec 0 r then Int_part r else (- Int_part (- r))%Z.

(** Elementwise operation on one-dimensional operands, a single entry
    being broadcast. *)
Definition broadcast2 {A B C} (f : A -> B -> C) (a : list A) (b : list B)
  : outcome (list C) :=
  match a, b with
  | [x], _ => Returns (map (f x) b)
  | _, [y] => Returns (map (fun x => f x y) a)
  | _, _ =>
      if (length a =? length b)%nat
      then Returns (map (fun p => f (fst p) (snd p)) (combine a b))
      else Raises (Builtin (RuntimeError
             "The size of tensor a must match the size of tensor b"))
  end.

(** The first two statements of [sample_save_show]:
    [torch.Size((torch.cat(([num_samples], img_shape)) * factor).int())],
    for the one-dimensional factor a recipe returns.  An integer product
    is an int64 cast to int32; a float product is taken exact and
    truncated, which is what float32 computes for sizes in
    [[0, 2^24)]: above that range float32 rounds the sizes, and sizes
    outside the int64 range are refused by [torch.tensor]; neither is
    modelled. *)
Definition sample_shape (num_samples : Z) (img_shape : list Z)
    (sample_shape_factor : AnyTensor) : outcome (list Z) :=
  let batched_img_shape := num_samples :: img_shape in
  match sample_shape_factor with
  | IntTensor t =>
      p <-? broadcast2 (fun x y => wrap 64 (x * y)) batched_img_shape (data t) ;;
      Returns (map (wrap 32) p)
  | FloatTensor t =>
      p <-? broadcast2 (fun x y => (IZR x * y)%R) batched_img_shape (data t) ;;
      Returns (map Rtrunc p)
  end.

(** [math.ceil(math.sqrt(n))], the root taken exact. *)
Definition ceil_sqrt (n : Z) : outcome Z :=
  if (n <? 0)%Z
  then Raises (Builtin (ValueError "math domain error"))
  else
    let s := Z.sqrt n in
    Returns (if (s * s =? n)%Z then s else (s + 1)%Z).

Record SampleConfig : Type := mkSampleConfig {
  num_samples : Z;
  save_samples : bool;
  show_samples : bool;
  results_filepath : string
}.

(** [sample_save_show]; [sample] stands for [flow.sample(...).cpu()] and
    gives the dtype and sizes of the samples drawn for a shape. *)
Definition sample_save_show (sample : list Z -> Imgs) (img_shape : list Z)
    (sample_shape_factor : AnyTensor) (config : SampleConfig)
  : outcome (list Call) :=
  shape <-? sample_shape (num_samples config) img_shape sample_shape_factor ;;
  let samples := sample shape in
  row_size <-? ceil_sqrt (num_samples config) ;;
  plotted <-? imgs_to_plt samples None row_size ;;
  Returns ([flow_sample shape] ++ plotted
           ++ (if save_samples config
               then [plt_savefig (results_filepath config);
                     print_line ("Figure saved to " ++ results_filepath config)]
               else [])
           ++ (if show_samples config then [plt_show] else [])
           ++ [plt_close]).

(** *** The environment *)

Definition environ : Type := list (string * string).

(** [os.environ[k] = v] *)
Fixpoint setenv (k v : string) (env : environ) : environ :=
  match env with
  | [] => [(k, v)]
  | (k', v') :: rest =>
      if String.eqb k k' then (k, v) :: rest else (k', v') :: setenv k v rest
  end.

(** [str(z)] for an [int]. *)
Definition str_int (z : Z) : string := NilZero.string_of_int (Z.to_int z).

Definition newline : string := String (ascii_of_nat 10) EmptyString.

(** [make_cuda_visible]: the environment it leaves and the text it
    writes to standard output. *)
Definition make_cuda_visible (gpu_num : Z) (env : environ)
  : outcome (environ * string) :=
  match lookup_name "CUDA_VISIBLE_DEVICES" env with
  | None => Raises (KeyError "CUDA_VISIBLE_DEVICES")
  | Some v =>
      let '(env, out) :=
        if String.eqb v ""
        then (setenv "CUDA_VISIBLE_DEVICES" (str_int gpu_num) env,
              "Running from pycharm... ")
        else (env, "Running from shell... ") in
      match lookup_name "CUDA_VISIBLE_DEVICES" env with
      | None => Raises (KeyError "CUDA_VISIBLE_DEVICES")
      | Some v' => Returns (env, (out ++ "GPU #" ++ v' ++ newline)%string)
      end
  end.

(* ================================================================== *)
(** ** tools.py: parameters and masks on display *)

(** [module.parameters()], in the order the modules register them.
    [ConcatELU] has none. *)
Definition Leaf_parameters (l : Leaf) : list (Tensor f32) :=
  match l with
  | Conv2dL m => [conv_weight m; conv_bias m]
  | LinearL m => [lin_weight m; lin_bias m]
  | LayerNormL m => [ln_weight m; ln_bias m]
  | ConcatELU => []
  end.

Definition Layer_parameters (l : Layer) : list (Tensor f32) :=
  match l with
  | LeafL l => Leaf_parameters l
  | GatedConvL m => flat_map Leaf_parameters (gc_net m)
  | LayerNormChannelsL m => Leaf_parameters (LayerNormL (lnc_layer_norm m))
  | GatedLinearL m => flat_map Leaf_parameters (gl_net m)
  end.

Definition GatedConvNet_parameters (m : GatedConvNet) : list (Tensor f32) :=
  flat_map Layer_parameters (gcn_nn m).

Definition GatedLinearNet_parameters (m : GatedLinearNet) : list (Tensor f32) :=
  flat_map Layer_parameters (gln_nn m).

(** [sum(l)] *)
Definition py_sum (l : list Z) : Z := fold_left Z.add l 0%Z.

(** [np.prod(p.shape)] *)
Definition np_prod (s : list nat) : Z := Z.of_nat (numel s).

(** The digits of ["{:,}".format(n)], from the last one backwards: a
    comma goes in front of every full group of three that has a digit
    before it. *)
Fixpoint commas_aux (n : nat) (rev_digits : list ascii) (acc : string) : string :=
  match rev_digits with
  | [] => acc
  | d :: rest =>
      if (n =? 3)%nat
      then commas_aux 1 rest (String d (String "," acc))
      else commas_aux (S n) rest (String d acc)
  end.

(** ["{:,}".format(z)] *)
Definition format_commas (z : Z) : string :=
  ((if (z <? 0)%Z then "-" else "")
   ++ commas_aux 0 (rev (list_ascii_of_string (str_int (Z.abs z)))) "")%string.

(** [print_num_params(model)], from the parameters of the model.  The
    sum is a 64-bit integer. *)
Definition num_params (parameters : list (Tensor f32)) : Z :=
  wrap 64 (py_sum (map (fun p => np_prod (shape p)) parameters)).

Definition print_num_params (parameters : list (Tensor f32)) : M unit :=
  print ("Number of parameters: " ++ format_commas (num_params parameters)).

(** [t.expand] on a list of sizes: [-1] keeps a dimension, a dimension of size 1 is
    repeated, any other must be given as it is; sizes in excess of the
    dimensions of [t] add leading dimensions. *)
Fixpoint expand_sizes (pad : nat) (sizes : list Z) (s : list nat)
  : result (list nat) :=
  match pad, sizes, s with
  | O, [], [] => Ok []
  | S pad', z :: sizes', _ =>
      if (z <? 0)%Z
      then Raise (RuntimeError
             "expand: the expanded size is not allowed in a leading, non-existing dimension")
      else rest <- expand_sizes pad' sizes' s ;; Ok (Z.to_nat z :: rest)
  | O, z :: sizes', d :: s' =>
      if (z =? -1)%Z
      then rest <- expand_sizes O sizes' s' ;; Ok (d :: rest)
      else if (z <? 0)%Z
      then Raise (RuntimeError "expand: invalid size")
      else if ((d =? 1)%nat || (Z.to_nat z =? d)%nat)%bool
      then rest <- expand_sizes O sizes' s' ;; Ok (Z.to_nat z :: rest)
      else Raise (RuntimeError
             "The expanded size of the tensor must match the existing size")
  | _, _, _ =>
      Raise (RuntimeError
        "expand: the number of sizes provided must be greater or equal to the number of dimensions in the tensor")
  end.

Fixpoint expand_index (idx s : list nat) : list nat :=
  match idx, s with
  | i :: idx', d :: s' => (if (d =? 1)%nat then 0%nat else i) :: expand_index idx' s'
  | _, _ => []
  end.

Definition expand {A} (d0 : A) (t : Tensor A) (sizes : list Z)
  : result (Tensor A) :=
  let pad := (length sizes - length (shape t))%nat in
  s <- expand_sizes pad sizes (shape t) ;;
  Ok (mkTensor s
        (tab s (fun idx => tget d0 t (expand_index (skipn pad idx) (shape t))))).

(** [t.transpose(0, 1)] of a tensor of four dimensions. *)
Definition transpose01 {A} (d0 : A) (t : Tensor A) : result (Tensor A) :=
  permute d0 t [1; 0; 2; 3]%nat.

(** [visualize_masks()].  [show_imgs] is a global name: it is looked up
    in the namespace of the module when the call is reached, before the
    arguments of the call are evaluated. *)
Definition visualize_masks
    (globals : list (string * (Tensor R -> string -> M unit))) : M unit :=
  m <~ liftR (create_checkerboard_mask 8 8 false) ;;
  checkerboard_mask <~ liftR (expand 0%R m [-1; 2; -1; -1]%Z) ;;
  m <~ liftR (create_channel_mask 2 false) ;;
  channel_mask <~ liftR (expand 0%R m [-1; -1; 8; 8]%Z) ;;
  show_imgs <~ match lookup_name "show_imgs" globals with
               | Some f => ret f
               | None => raise (NameError "name 'show_imgs' is not defined")
               end ;;
  t <~ liftR (transpose01 0%R checkerboard_mask) ;;
  _ <~ show_imgs t "Checkerboard mask" ;;
  show_imgs <~ match lookup_name "show_imgs" globals with
               | Some f => ret f
               | None => raise (NameError "name 'show_imgs' is not defined")
               end ;;
  t <~ liftR (transpose01 0%R channel_mask) ;;
  show_imgs t "Channel mask".

(* ================================================================== *)
(** * Small runs of the definitions *)

Example checkerboard_2x3 :
  create_checkerboard_mask 2 3 false
  = Ok (mkTensor [1; 1; 2; 3]%nat [0; 1; 0; 1; 0; 1]%R).
Proof. reflexivity. Qed.

Example channel_5 :
  create_channel_mask 5 false
  = Ok (mkTensor [1; 5; 1; 1]%nat [1; 1; 0; 0; 0]%R).
Proof. reflexivity. Qed.

Example checkerboard_negative :
  create_checkerboard_mask (-1) 3 false
  = Raise (RuntimeError "upper bound and lower bound inconsistent with step sign").
Proof. reflexivity. Qed.

(** Two batch entries with three channels of two values each. *)
Example cat_dim1_2x3x2 :
  cat_dim1 (mkTensor [2; 1; 2]%nat [1; 2; 3; 4]%Z)
           (mkTensor [2; 2; 2]%nat [5; 6; 7; 8; 9; 10; 11; 12]%Z)
  = Ok (mkTensor [2; 3; 2]%nat [1; 2; 5; 6; 7; 8; 3; 4; 9; 10; 11; 12]%Z).
Proof. reflexivity. Qed.

Example chunk2_2x4 :
  chunk2_dim1 (mkTensor [2; 4]%nat [1; 2; 3; 4; 5; 6; 7; 8]%Z)
  = Ok (mkTensor [2; 2]%nat [1; 2; 5; 6]%Z, mkTensor [2; 2]%nat [3; 4; 7; 8]%Z).
Proof. reflexivity. Qed.

Example chunk2_single_channel :
  chunk2_dim1 (mkTensor [2; 1]%nat [1; 2]%Z)
  = Raise (ValueError "not enough values to unpack (expected 2, got 1)").
Proof. reflexivity. Qed.

(** Channels last: entry [(0, i, j, c)] of the result is entry
    [(0, c, i, j)] of the argument. *)
Example permute_channels_last :
  permute 0%Z (mkTensor [1; 2; 1; 3]%nat [1; 2; 3; 4; 5; 6]%Z) [0; 2; 3; 1]%nat
  = Ok (mkTensor [1; 1; 3; 2]%nat [1; 4; 2; 5; 3; 6]%Z).
Proof. reflexivity. Qed.

Example permute_round_trip :
  (y <- permute 0%Z (mkTensor [1; 2; 1; 3]%nat [1; 2; 3; 4; 5; 6]%Z) [0; 2; 3; 1]%nat ;;
   permute 0%Z y [0; 3; 1; 2]%nat)
  = Ok (mkTensor [1; 2; 1; 3]%nat [1; 2; 3; 4; 5; 6]%Z).
Proof. reflexivity. Qed.

Example taps_2_2 :
  taps 2 2 = [(0, 0, 0); (0, 0, 1); (0, 1, 0); (0, 1, 1);
              (1, 0, 0); (1, 0, 1); (1, 1, 0); (1, 1, 1)]%nat.
Proof. reflexivity. Qed.

Example bind_args_defaults :
  bind_args "GatedConvNet.__init__" GatedConvNet_signature
    [("c_in", PInt 2); ("c_hidden", PInt 16)]
  = Ok [PInt 2; PInt 16; PInt (-1); PInt 3].
Proof. reflexivity. Qed.

Example bind_args_partial_conv :
  bind_args "GatedConvNet.__init__" GatedConvNet_signature
    [("c_in", PInt 1); ("c_hidden", PInt 32); ("partial_conv", PBool false)]
  = Raise (TypeError
      "GatedConvNet.__init__() got an unexpected keyword argument 'partial_conv'").
Proof. reflexivity. Qed.

Example bind_args_missing :
  bind_args "GatedConvNet.__init__" GatedConvNet_signature [("c_hidden", PInt 16)]
  = Raise (TypeError
      "GatedConvNet.__init__() missing 1 required positional argument: 'c_in'").
Proof. reflexivity. Qed.

Example torch_tensor_ints :
  torch_tensor [NInt 1; NInt 1; NInt 1; NInt 1]
  = IntTensor (mkTensor [4%nat] [1; 1; 1; 1]%Z).
Proof. reflexivity. Qed.

Example torch_tensor_floats :
  torch_tensor [NInt 1; NInt 2; NFloat (1 / 2); NFloat (1 / 2)]
  = FloatTensor (mkTensor [4%nat] [1; 2; 1 / 2; 1 / 2]%R).
Proof. reflexivity. Qed.

Example words_two_names : words "create_a b_flow" = ["create_a"; "b_flow"].
Proof. reflexivity. Qed.

Example identifier_examples :
  is_identifier "create_simple_flow" = true /\
  is_identifier "lambda" = false /\
  is_identifier "2fast" = false /\
  is_identifier "a-b" = false.
Proof. repeat split. Qed.

Example squeeze_twice_examples :
  squeeze_twice (mkConfig 28 1 "multiscale" "cpu") = true /\
  squeeze_twice (mkConfig 16 1 "multiscale" "cpu") = false /\
  squeeze_twice (mkConfig 30 1 "multiscale" "cpu") = false /\
  squeeze_twice (mkConfig 32 3 "multiscale" "cpu") = true.
Proof. repeat split. Qed.

(** [torch.cat] along dimension 1 of tensors that have one dimension. *)
Example cat_dim1_one_dimension :
  cat_dim1 (mkTensor [2%nat] [1; 2]%Z) (mkTensor [2%nat] [3; 4]%Z)
  = Raise (IndexError "Dimension out of range").
Proof. reflexivity. Qed.

(** NaN goes through every operation, a zero weight included. *)
Example nan_is_absorbing :
  fmul (Fin 0) NaN = NaN /\ fadd (Fin 1) NaN = NaN /\
  elu NaN = NaN /\ sigmoid NaN = NaN /\ fadd PInf NInf = NaN.
Proof. repeat split. Qed.

(** A convolution without output channels is refused. *)
Example conv2d_no_output_channel :
  conv2d (mkConv2d 1 0 3 1 (mkTensor [0; 1; 3; 3]%nat []) (mkTensor [0%nat] []))
         (mkTensor [1; 1; 1; 1]%nat [Fin 1])
  = Raise (RuntimeError "expected weight to be at least 1 at dimension 0").
Proof. reflexivity. Qed.

(* ================================================================== *)
(** * Properties *)

(** ** Lists laid out in rows *)

Lemma length_flat_map_rows {A B} (f : A -> list B) (l : list A) (m : nat) :
  (forall a, In a l -> length (f a) = m) ->
  length (flat_map f l) = (length l * m)%nat.
Proof.
  induction l as [|a l IH]; intros Hf; simpl.
  - reflexivity.
  - rewrite length_app, Hf by (left; reflexivity).
    rewrite IH by (intros b Hb; apply Hf; right; exact Hb).
    reflexivity.
Qed.

Lemma nth_flat_map_rows {A B} (f : A -> list B) (l : list A) (m i j : nat)
    (a0 : A) (d : B) :
  (forall a, In a l -> length (f a) = m) ->
  (i < length l)%nat -> (j < m)%nat ->
  nth (i * m + j) (flat_map f l) d = nth j (f (nth i l a0)) d.
Proof.
  revert i.
  induction l as [|a l IH]; intros i Hf Hi Hj; simpl in Hi.
  - lia.
  - simpl flat_map.
    destruct i as [|i].
    + simpl. rewrite app_nth1; [reflexivity|].
      rewrite Hf by (left; reflexivity). exact Hj.
    + rewrite app_nth2 by (rewrite Hf by (left; reflexivity); simpl; lia).
      rewrite Hf by (left; reflexivity).
      replace (S i * m + j - m)%nat with (i * m + j)%nat by (simpl; lia).
      simpl nth at 2.
      apply IH; [intros b Hb; apply Hf; right; exact Hb | lia | exact Hj].
Qed.

Lemma nth_map_in {A B} (f : A -> B) (l : list A) (k : nat) (d : B) (d' : A) :
  (k < length l)%nat -> nth k (map f l) d = f (nth k l d').
Proof.
  intros H. rewrite nth_indep with (d' := f d') by (rewrite length_map; exact H).
  apply map_nth.
Qed.

Lemma Forall_flat_map {A B} (P : B -> Prop) (f : A -> list B) (l : list A) :
  (forall a, In a l -> Forall P (f a)) -> Forall P (flat_map f l).
Proof.
  induction l as [|a l IH]; intros H; simpl.
  - constructor.
  - apply Forall_app. split.
    + apply H. left. reflexivity.
    + apply IH. intros b Hb. apply H. right. exact Hb.
Qed.

Lemma length_tab {A} (s : list nat) (f : list nat -> A) :
  length (tab s f) = numel s.
Proof.
  revert f. induction s as [|d s IH]; intros f; simpl.
  - reflexivity.
  - rewrite length_flat_map_rows with (m := numel s).
    + rewrite length_seq. reflexivity.
    + intros. apply IH.
Qed.

Lemma Forall_tab {A} (P : A -> Prop) (s : list nat) (f : list nat -> A) :
  (forall idx, P (f idx)) -> Forall P (tab s f).
Proof.
  revert f. induction s as [|d s IH]; intros f H; simpl.
  - constructor; [apply H | constructor].
  - apply Forall_flat_map. intros i _. apply IH. intros idx. apply H.
Qed.

Lemma length_row {A} (n r : nat) (l : list A) :
  (r * n + n <= length l)%nat -> length (row n r l) = n.
Proof.
  intros H. unfold row. rewrite length_firstn, length_skipn. lia.
Qed.

Lemma numel_app (s1 s2 : list nat) :
  numel (s1 ++ s2) = (numel s1 * numel s2)%nat.
Proof.
  induction s1 as [|d s1 IH]; simpl.
  - lia.
  - rewrite IH. lia.
Qed.

Lemma Fsum_zero (l : list f32) :
  Forall (fun x => x = Fin 0) l -> Fsum l = Fin 0.
Proof.
  induction 1 as [|x l Hx _ IH]; simpl.
  - reflexivity.
  - rewrite Hx, IH. cbn [fadd]. f_equal. lra.
Qed.

Lemma nth_all_zero (l : list f32) (k : nat) :
  Forall (fun x => x = Fin 0) l -> nth k l (Fin 0) = Fin 0.
Proof.
  intros H. revert k.
  induction H as [|x l Hx _ IH]; intros [|k]; simpl; auto.
Qed.

(** A zero weight annihilates a finite value, and only a finite one. *)
Lemma fmul_zero_finite (x : f32) : is_finite x -> fmul (Fin 0) x = Fin 0.
Proof.
  destruct x; cbn; try contradiction. intros _. f_equal. lra.
Qed.

Lemma fmul_finite_zero (x : f32) : is_finite x -> fmul x (Fin 0) = Fin 0.
Proof.
  destruct x; cbn; try contradiction. intros _. f_equal. lra.
Qed.

Lemma Rsign_0 : Rsign 0 = Eq.
Proof.
  unfold Rsign. destruct (Rlt_dec 0 0) as [H|_]; [lra|].
  destruct (Rlt_dec 0 0) as [H|_]; [lra | reflexivity].
Qed.

Lemma fmul_zero_not_finite (x : f32) : ~ is_finite x -> fmul (Fin 0) x = NaN.
Proof.
  destruct x; cbn; intros H; try reflexivity.
  - exfalso. apply H. exact I.
  - rewrite Rsign_0. reflexivity.
  - rewrite Rsign_0. reflexivity.
Qed.

Lemma fadd_NaN_r (x : f32) : fadd x NaN = NaN.
Proof. destruct x; reflexivity. Qed.

Lemma nth_finite (l : list f32) (k : nat) :
  Forall is_finite l -> is_finite (nth k l (Fin 0)).
Proof.
  intros H. revert k.
  induction H as [|x l Hx _ IH]; intros [|k]; simpl; auto.
Qed.


Lemma firstn_In_aux {A} (n : nat) (l : list A) (a : A) :
  In a (firstn n l) -> In a l.
Proof.
  revert l. induction n as [|n IH]; intros [|x l] H; simpl in H; try contradiction.
  destruct H as [-> | H]; [left; reflexivity | right; apply IH; exact H].
Qed.

Lemma In_firstn_skipn_aux {A} (n k : nat) (l : list A) (a : A) :
  In a (firstn n (skipn k l)) -> In a l.
Proof.
  intros H. apply firstn_In_aux in H. revert l H.
  induction k as [|k IH]; intros l H; [exact H|].
  destruct l as [|x l]; [exact H|]. right. apply IH. exact H.
Qed.

Lemma Forall_row {A} (P : A -> Prop) (n r : nat) (l : list A) :
  Forall P l -> Forall P (row n r l).
Proof.
  intros H. apply Forall_forall. intros a Ha.
  unfold row in Ha. apply In_firstn_skipn_aux in Ha.
  rewrite Forall_forall in H. apply H. exact Ha.
Qed.

(** ** tools.py: the masks *)

Lemma arange_ok (n : Z) :
  (0 <= n)%Z ->
  arange n = Ok (mkTensor [Z.to_nat n] (map Z.of_nat (seq 0 (Z.to_nat n)))).
Proof.
  intros H. unfold arange.
  destruct (Z.ltb_spec n 0); [lia | reflexivity].
Qed.

Lemma view_ok {A} (t : Tensor A) (dims : list Z) :
  Forall (fun d => (0 <= d)%Z) dims ->
  numel (map Z.to_nat dims) = length (data t) ->
  view t dims = Ok (mkTensor (map Z.to_nat dims) (data t)).
Proof.
  intros Hd Hn. unfold view.
  replace (forallb (fun d => (0 <=? d)%Z) dims) with true.
  - destruct (Nat.eq_dec _ _) as [_|Hne]; [reflexivity | contradiction].
  - symmetry. apply forallb_forall. intros d Hin.
    rewrite Forall_forall in Hd. apply Z.leb_le. apply Hd. exact Hin.
Qed.

Lemma ew2_ok {A} (f : A -> A -> A) (x y : Tensor A) :
  shape x = shape y ->
  ew2 f x y = Ok (mkTensor (shape x)
                    (map (fun p => f (fst p) (snd p)) (combine (data x) (data y)))).
Proof.
  intros H. unfold ew2.
  destruct (shape_eq_dec (shape x) (shape y)); [reflexivity | contradiction].
Qed.

(** The checkerboard without inversion, entry by entry; the inverted mask
    is [1 -] it. *)
Lemma checkerboard_mask_spec (h w : Z) :
  (0 <= h)%Z -> (0 <= w)%Z ->
  exists m,
    create_checkerboard_mask h w false = Ok m /\
    create_checkerboard_mask h w true = Ok (rsub1 m) /\
    shape m = [1; 1; Z.to_nat h; Z.to_nat w]%nat /\
    length (data m) = (Z.to_nat h * Z.to_nat w)%nat /\
    forall i j, (i < Z.to_nat h)%nat -> (j < Z.to_nat w)%nat ->
      nth (i * Z.to_nat w + j) (data m) 0%R
      = IZR ((Z.of_nat i + Z.of_nat j) mod 2).
Proof.
  intros Hh Hw.
  set (H := Z.to_nat h). set (W := Z.to_nat w).
  set (hs := map Z.of_nat (seq 0 H)).
  set (ws := map Z.of_nat (seq 0 W)).
  set (hh := flat_map (fun x => repeat x W) hs).
  set (ww := flat_map (fun _ : Z => ws) hs).
  assert (Lhs : length hs = H) by (unfold hs; rewrite length_map, length_seq; reflexivity).
  assert (Lws : length ws = W) by (unfold ws; rewrite length_map, length_seq; reflexivity).
  assert (Lhh : length hh = (H * W)%nat).
  { unfold hh. rewrite length_flat_map_rows with (m := W), Lhs; [reflexivity|].
    intros. apply repeat_length. }
  assert (Lww : length ww = (H * W)%nat).
  { unfold ww. rewrite length_flat_map_rows with (m := W), Lhs; [reflexivity|].
    intros. exact Lws. }
  set (d := map IZR (map (fun x => Z.rem x 2)
              (map (fun p => (fst p + snd p)%Z) (combine hh ww)))).
  assert (Ld : length d = (H * W)%nat).
  { unfold d. rewrite !length_map, length_combine, Lhh, Lww. lia. }
  assert (Hview : view (mkTensor [H; W] d) [1%Z; 1%Z; h; w]
                  = Ok (mkTensor [1; 1; H; W]%nat d)).
  { rewrite view_ok.
    - reflexivity.
    - repeat constructor; lia.
    - simpl. fold H W. rewrite Ld. lia. }
  assert (Hrun : forall inv, create_checkerboard_mask h w inv
                 = Ok (if inv then rsub1 (mkTensor [1; 1; H; W]%nat d)
                       else mkTensor [1; 1; H; W]%nat d)).
  { intros inv. unfold create_checkerboard_mask.
    rewrite (arange_ok Hh), (arange_ok Hw). simpl rbind.
    unfold meshgrid_ij. simpl data. fold H W hs ws. rewrite Lhs, Lws.
    fold hh ww. rewrite ew2_ok by reflexivity. simpl rbind.
    unfold to_float32, fmod, tmap. simpl shape. simpl data. fold d.
    rewrite Hview. reflexivity. }
  exists (mkTensor [1; 1; H; W]%nat d).
  split; [apply (Hrun false)|].
  split; [apply (Hrun true)|].
  split; [reflexivity|].
  split; [exact Ld|].
  intros i j Hi Hj. simpl data. unfold d.
  assert (Hk : (i * W + j < H * W)%nat) by nia.
  assert (Lc : length (combine hh ww) = (H * W)%nat)
    by (rewrite length_combine, Lhh, Lww; lia).
  rewrite nth_map_in with (d' := 0%Z) by (rewrite !length_map, Lc; exact Hk).
  rewrite nth_map_in with (d' := 0%Z) by (rewrite length_map, Lc; exact Hk).
  rewrite nth_map_in with (d' := (0%Z, 0%Z)) by (rewrite Lc; exact Hk).
  rewrite combine_nth by (rewrite Lhh, Lww; reflexivity).
  simpl fst. simpl snd.
  unfold hh, ww.
  rewrite nth_flat_map_rows with (a0 := 0%Z)
    by (first [intros; apply repeat_length | rewrite Lhs; exact Hi | exact Hj]).
  rewrite nth_flat_map_rows with (a0 := 0%Z)
    by (first [intros; exact Lws | rewrite Lhs; exact Hi | exact Hj]).
  assert (Hi' : nth i hs 0%Z = Z.of_nat i).
  { unfold hs. change 0%Z with (Z.of_nat 0).
    rewrite map_nth, seq_nth by exact Hi. reflexivity. }
  assert (Hj' : nth j ws 0%Z = Z.of_nat j).
  { unfold ws. change 0%Z with (Z.of_nat 0).
    rewrite map_nth, seq_nth by exact Hj. reflexivity. }
  rewrite Hi', Hj'.
  rewrite nth_repeat_lt by exact Hj.
  rewrite Z.rem_mod_nonneg by lia. reflexivity.
Qed.

Lemma full1_ok (v : R) (n : Z) :
  (0 <= n)%Z ->
  full1 v n = Ok (mkTensor [Z.to_nat n] (repeat v (Z.to_nat n))).
Proof.
  intros H. unfold full1.
  destruct (Z.ltb_spec n 0); [lia | reflexivity].
Qed.

(** The channel mask without inversion: ones, then zeros. *)
Lemma channel_mask_spec (c_in : Z) :
  (0 <= c_in)%Z ->
  exists m,
    create_channel_mask c_in false = Ok m /\
    create_channel_mask c_in true = Ok (rsub1 m) /\
    shape m = [1; Z.to_nat c_in; 1; 1]%nat /\
    data m = repeat 1%R (Z.to_nat (c_in / 2))
             ++ repeat 0%R (Z.to_nat (c_in - c_in / 2)).
Proof.
  intros Hc.
  assert (H2 : (0 <= c_in / 2 <= c_in)%Z).
  { split; [apply Z.div_pos; lia|].
    apply Z.div_le_upper_bound; lia. }
  set (d := repeat 1%R (Z.to_nat (c_in / 2))
            ++ repeat 0%R (Z.to_nat (c_in - c_in / 2))).
  assert (Ld : length d = Z.to_nat c_in).
  { unfold d. rewrite length_app, !repeat_length. lia. }
  assert (Hrun : forall inv, create_channel_mask c_in inv
                 = Ok (if inv then rsub1 (mkTensor [1; Z.to_nat c_in; 1; 1]%nat d)
                       else mkTensor [1; Z.to_nat c_in; 1; 1]%nat d)).
  { intros inv. unfold create_channel_mask, ones, zeros.
    rewrite !full1_ok by lia. simpl rbind.
    unfold cat1. simpl data. fold d.
    rewrite view_ok.
    - reflexivity.
    - repeat constructor; lia.
    - simpl. rewrite Ld. lia. }
  exists (mkTensor [1; Z.to_nat c_in; 1; 1]%nat d).
  split; [apply (Hrun false)|].
  split; [apply (Hrun true)|].
  split; reflexivity.
Qed.







(** C5: for [c >= 1], odd or even, [create_channel_mask(c, invert)] does
    not raise and returns a tensor of shape [[1, c, 1, 1]] that is 1 on
    the first [c // 2] channels and 0 on the other [c - c // 2]
    (complemented when [invert] is set). *)
Theorem channel_mask_split (c_in : Z) (invert : bool) :
  (1 <= c_in)%Z ->
  exists m,
    create_channel_mask c_in invert = Ok m /\
    shape m = [1; Z.to_nat c_in; 1; 1]%nat /\
    wf m /\
    forall k, (k < Z.to_nat c_in)%nat ->
      tget 0%R m [0; k; 0; 0]%nat
      = let v := if (Z.of_nat k <? c_in / 2)%Z then 1%R else 0%R in
        if invert then (1 - v)%R else v.
Proof.
  intros Hc.
  destruct (@channel_mask_spec c_in) as (m & H0 & H1 & Hs & Hd); try lia.
  assert (H2 : (0 <= c_in / 2 <= c_in)%Z).
  { split; [apply Z.div_pos; lia|].
    apply Z.div_le_upper_bound; lia. }
  assert (Hl : length (data m) = Z.to_nat c_in).
  { rewrite Hd, length_app, !repeat_length. lia. }
  assert (Hoff : forall k,
             offset [1; Z.to_nat c_in; 1; 1] [0; k; 0; 0] 0 = k)
    by (intros; simpl; lia).
  assert (He : forall k, (k < Z.to_nat c_in)%nat ->
             nth k (data m) 0%R
             = if (Z.of_nat k <? c_in / 2)%Z then 1%R else 0%R).
  { intros k Hk. rewrite Hd.
    destruct (Z.ltb_spec (Z.of_nat k) (c_in / 2)).
    - rewrite app_nth1 by (rewrite repeat_length; lia).
      apply nth_repeat_lt. lia.
    - rewrite app_nth2 by (rewrite repeat_length; lia).
      rewrite repeat_length. apply nth_repeat_lt. lia. }
  destruct invert.
  - exists (rsub1 m). split; [exact H1|]. split; [exact Hs|].
    split.
    + unfold wf, rsub1, tmap. simpl. rewrite length_map, Hl, Hs. simpl. lia.
    + intros k Hk. unfold tget. simpl shape. rewrite Hs, Hoff.
      simpl data.
      rewrite nth_map_in with (d' := 0%R) by (rewrite Hl; lia).
      rewrite He by assumption. reflexivity.
  - exists m. split; [exact H0|]. split; [exact Hs|].
    split.
    + unfold wf. rewrite Hl, Hs. simpl. lia.
    + intros k Hk. unfold tget. rewrite Hs, Hoff.
      apply He; assumption.
Qed.

Lemma channel_mask_split_witness :
  exists m,
    create_channel_mask 5 false = Ok m /\
    shape m = [1; 5; 1; 1]%nat /\
    wf m /\
    forall k, (k < 5)%nat ->
      tget 0%R m [0; k; 0; 0]%nat
      = if (Z.of_nat k <? 2)%Z then 1%R else 0%R.
Proof.
  apply (@channel_mask_split 5 false); lia.
Defined.

(** ** Shapes through the tensor operations *)

Lemma all_zero_eq (t : Tensor f32) (s : list nat) :
  has_shape t s -> all_zero t -> t = zeros_of s.
Proof.
  destruct t as [sh d]. unfold has_shape, all_zero, zeros_of. simpl.
  intros [-> Hl] Hz. f_equal. rewrite <- Hl. clear Hl.
  induction Hz as [|x l Hx _ IH]; simpl; [reflexivity|].
  rewrite Hx, <- IH. reflexivity.
Qed.

Lemma has_shape_tmap {A B} (f : A -> B) (t : Tensor A) (s : list nat) :
  has_shape t s -> has_shape (tmap f t) s.
Proof.
  intros [Hs Hl]. split; simpl; [exact Hs | rewrite length_map; exact Hl].
Qed.

Lemma padded_finite (p h w : nat) (x : Tensor f32) (n c y z : nat) :
  all_finite x -> is_finite (padded p h w x n c y z).
Proof.
  intros Hx. unfold padded.
  destruct (_ && _); [|exact I].
  unfold tget. apply nth_finite. exact Hx.
Qed.

Lemma conv2d_shape (m : Conv2d) (x : Tensor f32) (b h w : nat) :
  has_shape x [b; in_channels m; h; w] ->
  (1 <= in_channels m)%nat -> (1 <= out_channels m)%nat ->
  (kernel_size m <= h + 2 * padding m)%nat ->
  (kernel_size m <= w + 2 * padding m)%nat ->
  exists y,
    conv2d m x = Ok y /\
    has_shape y [b; out_channels m;
                 (h + 2 * padding m + 1 - kernel_size m)%nat;
                 (w + 2 * padding m + 1 - kernel_size m)%nat] /\
    (all_zero (conv_weight m) -> all_zero (conv_bias m) -> all_finite x ->
     all_zero y).
Proof.
  intros [Hs Hl] Hci Hco Hh Hw. unfold conv2d. rewrite Hs.
  destruct (Nat.eqb_spec (out_channels m) 0); [lia|].
  rewrite Nat.eqb_refl. cbn [negb]. cbv iota.
  destruct (Nat.ltb_spec (h + 2 * padding m) (kernel_size m)); [lia|].
  destruct (Nat.ltb_spec (w + 2 * padding m) (kernel_size m)); [lia|].
  cbn [orb]. cbv iota.
  destruct (Nat.eqb_spec (in_channels m) 0); [lia|].
  eexists. split; [reflexivity|]. split.
  - split; [reflexivity|]. cbn [data]. apply length_tab.
  - intros Hw0 Hb0 Hfin. unfold all_zero. cbn [data].
    apply Forall_tab.
    intros [|n' [|o [|i [|j [|? ?]]]]]; try reflexivity.
    unfold tget at 1. rewrite (nth_all_zero _ Hb0).
    rewrite Fsum_zero; [cbn [fadd]; f_equal; lra|].
    apply Forall_forall. intros v Hv.
    apply in_map_iff in Hv. destruct Hv as [[[ci di] dj] [<- _]].
    unfold tget at 1. rewrite (nth_all_zero _ Hw0).
    apply fmul_zero_finite. apply padded_finite. exact Hfin.
Qed.

Lemma length_linear_row (m : Linear) (xs : list f32) :
  length (linear_row m xs) = out_features m.
Proof.
  unfold linear_row. rewrite length_map, length_seq. reflexivity.
Qed.

Lemma linear_shape (m : Linear) (x : Tensor f32) (pre : list nat) :
  has_shape x (pre ++ [in_features m]) ->
  exists y,
    linear m x = Ok y /\
    has_shape y (pre ++ [out_features m]) /\
    (all_zero (lin_weight m) -> all_zero (lin_bias m) -> all_finite x ->
     all_zero y).
Proof.
  intros [Hs Hl]. unfold linear. rewrite Hs, rev_app_distr. simpl rev.
  simpl app. cbv iota beta. rewrite Nat.eqb_refl. cbn [negb]. cbv iota.
  rewrite rev_involutive.
  eexists. split; [reflexivity|]. split.
  - split; [reflexivity|]. cbn [data].
    rewrite length_flat_map_rows with (m := out_features m)
      by (intros; apply length_linear_row).
    rewrite length_seq, numel_app. simpl. lia.
  - intros Hw0 Hb0 Hfin. unfold all_zero. cbn [data].
    apply Forall_flat_map. intros r _. unfold linear_row.
    apply Forall_forall. intros v Hv.
    apply in_map_iff in Hv. destruct Hv as [o [<- _]].
    unfold tget at 1. rewrite (nth_all_zero _ Hb0).
    rewrite Fsum_zero; [cbn [fadd]; f_equal; lra|].
    apply Forall_forall. intros u Hu.
    apply in_map_iff in Hu. destruct Hu as [k [<- _]].
    unfold tget. rewrite (nth_all_zero _ Hw0).
    apply fmul_finite_zero. apply nth_finite.
    apply Forall_row. exact Hfin.
Qed.

Lemma length_layer_norm_row (m : LayerNorm) (xs : list f32) :
  length (layer_norm_row m xs) = length xs.
Proof.
  unfold layer_norm_row. rewrite length_map, length_seq. reflexivity.
Qed.

Lemma layer_norm_shape (m : LayerNorm) (x : Tensor f32) (pre : list nat) :
  has_shape x (pre ++ [normalized_shape m]) ->
  exists y,
    layer_norm m x = Ok y /\ has_shape y (pre ++ [normalized_shape m]).
Proof.
  intros [Hs Hl]. unfold layer_norm. rewrite Hs, rev_app_distr. simpl rev.
  simpl app. cbv iota beta. rewrite Nat.eqb_refl. cbn [negb]. cbv iota.
  rewrite rev_involutive.
  eexists. split; [reflexivity|].
  split; [reflexivity|]. cbn [data].
  rewrite numel_app in Hl. simpl in Hl.
  rewrite length_flat_map_rows with (m := normalized_shape m).
  - rewrite length_seq, numel_app. simpl. lia.
  - intros r Hr. apply in_seq in Hr.
    rewrite length_layer_norm_row. apply length_row. nia.
Qed.

Lemma cat_dim1_shape {A} (a b : Tensor A) (n ca cb : nat) (rest : list nat) :
  has_shape a (n :: ca :: rest) -> has_shape b (n :: cb :: rest) ->
  exists y,
    cat_dim1 a b = Ok y /\ has_shape y (n :: (ca + cb)%nat :: rest).
Proof.
  intros [Hsa Hla] [Hsb Hlb]. unfold cat_dim1. rewrite Hsa, Hsb.
  destruct (shape_eq_dec (n :: rest) (n :: rest)) as [_|Hne]; [|contradiction].
  eexists. split; [reflexivity|].
  split; [reflexivity|]. cbn [data]. simpl in Hla, Hlb |- *.
  rewrite length_flat_map_rows with (m := ((ca + cb) * numel rest)%nat).
  - rewrite length_seq. reflexivity.
  - intros i Hi. apply in_seq in Hi.
    rewrite length_app, !length_row by nia. lia.
Qed.

Lemma ConcatELU_shape (x : Tensor f32) (n ch : nat) (rest : list nat) :
  has_shape x (n :: ch :: rest) ->
  exists y,
    ConcatELU_forward x = Ok y /\ has_shape y (n :: (2 * ch)%nat :: rest).
Proof.
  intros Hx. unfold ConcatELU_forward.
  replace (2 * ch)%nat with (ch + ch)%nat by lia.
  apply cat_dim1_shape; repeat apply has_shape_tmap; exact Hx.
Qed.

Lemma chunk2_shape {A} (t : Tensor A) (n ch : nat) (rest : list nat) :
  has_shape t (n :: (2 * ch)%nat :: rest) ->
  exists v g,
    chunk2_dim1 t = Ok (v, g) /\
    has_shape v (n :: ch :: rest) /\ has_shape g (n :: ch :: rest).
Proof.
  intros [Hs Hl]. unfold chunk2_dim1. rewrite Hs.
  destruct (Nat.eq_dec (2 * ch) 1) as [Hbad|_]; [lia|].
  assert (H1 : ((2 * ch + 1) / 2 = ch)%nat).
  { symmetry. apply Nat.div_unique with (r := 1%nat); lia. }
  rewrite H1.
  replace (2 * ch - ch)%nat with ch by lia.
  eexists. eexists. split; [reflexivity|].
  simpl in Hl.
  split; (split; [reflexivity|]); cbn [data]; simpl numel;
    rewrite length_flat_map_rows with (m := (ch * numel rest)%nat);
    try (rewrite length_seq; reflexivity);
    intros i Hi; apply in_seq in Hi.
  - rewrite length_firstn, length_row by nia. nia.
  - rewrite length_skipn, length_row by nia. nia.
Qed.

Lemma ew2_shape {A} (f : A -> A -> A) (x y : Tensor A) (s : list nat) :
  has_shape x s -> has_shape y s ->
  exists z, ew2 f x y = Ok z /\ has_shape z s.
Proof.
  intros [Hsx Hlx] [Hsy Hly].
  rewrite ew2_ok by congruence.
  eexists. split; [reflexivity|].
  split; [exact Hsx|]. cbn [data].
  rewrite length_map, length_combine. lia.
Qed.

Lemma gated_update_shape (x out : Tensor f32) (n ch : nat) (rest : list nat) :
  has_shape x (n :: ch :: rest) ->
  has_shape out (n :: (2 * ch)%nat :: rest) ->
  exists y, gated_update x out = Ok y /\ has_shape y (n :: ch :: rest).
Proof.
  intros Hx Hout. unfold gated_update.
  destruct (chunk2_shape _ Hout) as (v & g & -> & Hv & Hg). cbn [rbind].
  destruct (@ew2_shape _ fmul v (tmap sigmoid g) _ Hv (has_shape_tmap _ Hg))
    as (p & -> & Hp). cbn [rbind].
  apply ew2_shape; assumption.
Qed.

Lemma permute_shape {A} (d0 : A) (t : Tensor A) (dims : list nat) :
  length dims = length (shape t) ->
  exists y,
    permute d0 t dims = Ok y /\
    has_shape y (map (fun d => nth d (shape t) 0%nat) dims).
Proof.
  intros H. unfold permute.
  destruct (Nat.eq_dec (length dims) (length (shape t))); [|contradiction].
  eexists. split; [reflexivity|].
  split; [reflexivity|]. apply length_tab.
Qed.

Lemma LayerNormChannels_shape (m : LayerNormChannels) (b ch h w : nat) :
  normalized_shape (lnc_layer_norm m) = ch ->
  maps_shape (LayerNormChannels_forward m) [b; ch; h; w] [b; ch; h; w].
Proof.
  intros Hn x [Hs Hl]. unfold LayerNormChannels_forward.
  destruct (@permute_shape _ (Fin 0) x [0; 2; 3; 1]%nat) as (y & -> & Hy);
    [rewrite Hs; reflexivity|].
  rewrite Hs in Hy. simpl in Hy. cbn [rbind].
  destruct (@layer_norm_shape (lnc_layer_norm m) y [b; h; w]) as (z & -> & Hz);
    [rewrite Hn; exact Hy|].
  cbn [rbind].
  destruct (@permute_shape _ (Fin 0) z [0; 3; 1; 2]%nat) as (u & -> & Hu);
    [rewrite (proj1 Hz); reflexivity|].
  rewrite (proj1 Hz), Hn in Hu. simpl in Hu. cbn [rbind].
  exists u. split; [reflexivity | exact Hu].
Qed.

(** ** Row-major storage: indexing and reassembly *)

Lemma firstn_plus {A} (a b : nat) (l : list A) :
  firstn (a + b) l = firstn a l ++ firstn b (skipn a l).
Proof.
  revert l. induction a as [|a IH]; intros l; simpl.
  - reflexivity.
  - destruct l as [|x l]; simpl; [rewrite ?firstn_nil; reflexivity|].
    rewrite IH. reflexivity.
Qed.

Lemma flat_map_ext_in {A B} (f g : A -> list B) (l : list A) :
  (forall a, In a l -> f a = g a) -> flat_map f l = flat_map g l.
Proof.
  induction l as [|a l IH]; intros H; simpl.
  - reflexivity.
  - rewrite H by (left; reflexivity).
    rewrite IH by (intros b Hb; apply H; right; exact Hb).
    reflexivity.
Qed.

(** Consecutive rows, put end to end, are a slice of the list. *)
Lemma flat_map_rows_slice {A} (m n a : nat) (l : list A) :
  flat_map (fun i => row m i l) (seq a n)
  = firstn (n * m) (skipn (a * m) l).
Proof.
  revert a. induction n as [|n IH]; intros a; simpl.
  - reflexivity.
  - rewrite IH. unfold row. rewrite firstn_plus. f_equal.
    rewrite skipn_skipn. f_equal; simpl; lia.
Qed.

Lemma flat_map_rows_id {A} (m n : nat) (l : list A) :
  length l = (n * m)%nat ->
  flat_map (fun i => row m i l) (seq 0 n) = l.
Proof.
  intros H. rewrite flat_map_rows_slice. simpl.
  rewrite <- H. apply firstn_all.
Qed.

Lemma offset_acc (s idx : list nat) (acc : nat) :
  in_range idx s ->
  offset s idx acc = (acc * numel s + offset s idx 0)%nat.
Proof.
  intros H. revert acc.
  induction H as [|i d idx s Hi _ IH]; intros acc; simpl.
  - lia.
  - rewrite (IH (acc * d + i)%nat), (IH i). ring.
Qed.

Lemma offset_lt (s idx : list nat) :
  in_range idx s -> (offset s idx 0 < numel s)%nat.
Proof.
  induction 1 as [|i d idx s Hi H IH]; simpl.
  - lia.
  - rewrite (offset_acc _ H). nia.
Qed.

(** Reading the storage built by [tab] at the offset of a multi-index
    gives the function's value there. *)
Lemma nth_tab {A} (s idx : list nat) (f : list nat -> A) (d : A) :
  in_range idx s ->
  nth (offset s idx 0) (tab s f) d = f idx.
Proof.
  intros H. revert f.
  induction H as [|i d0 idx s Hi H IH]; intros f.
  - reflexivity.
  - cbn [offset tab]. rewrite (offset_acc _ H).
    replace (0 * d0 + i)%nat with i by lia.
    rewrite nth_flat_map_rows with (a0 := 0%nat).
    + rewrite seq_nth by exact Hi. apply IH.
    + intros. apply length_tab.
    + rewrite length_seq. exact Hi.
    + apply offset_lt. exact H.
Qed.

Lemma tab_ext {A} (s : list nat) (f g : list nat -> A) :
  (forall idx, in_range idx s -> f idx = g idx) -> tab s f = tab s g.
Proof.
  revert f g. induction s as [|d s IH]; intros f g H; simpl.
  - rewrite H by constructor. reflexivity.
  - apply flat_map_ext_in. intros i Hi. apply in_seq in Hi.
    apply IH. intros idx Hidx. apply H. constructor; [lia | exact Hidx].
Qed.

(** Tabulating the entries of a list by their offsets gives a slice of
    the list back. *)
Lemma tab_nth_slice {A} (s : list nat) (l : list A) (d : A) (acc : nat) :
  ((acc + 1) * numel s <= length l)%nat ->
  tab s (fun idx => nth (offset s idx acc) l d)
  = firstn (numel s) (skipn (acc * numel s) l).
Proof.
  revert acc. induction s as [|d0 s IH]; intros acc Hl.
  - simpl in *. rewrite Nat.mul_1_r.
    assert (Hacc : (acc < length l)%nat) by lia.
    clear Hl. revert acc Hacc.
    induction l as [|x l IHl]; intros [|acc] Hacc; simpl in *; try lia.
    + reflexivity.
    + apply IHl. lia.
  - assert (Hn : numel (d0 :: s) = (d0 * numel s)%nat) by reflexivity.
    rewrite Hn in Hl |- *. cbn [tab offset].
    rewrite flat_map_ext_in
      with (g := fun i => row (numel s) i (skipn (acc * (d0 * numel s)) l)).
    + rewrite flat_map_rows_slice. simpl skipn. reflexivity.
    + intros i Hi. apply in_seq in Hi.
      assert (Hb : ((acc * d0 + i + 1) * numel s <= (acc + 1) * (d0 * numel s))%nat)
        by nia.
      rewrite IH by lia.
      unfold row. rewrite skipn_skipn. f_equal. f_equal. lia.
Qed.

Lemma tab_tget_id {A} (x : Tensor A) (d : A) :
  wf x -> tab (shape x) (fun idx => tget d x idx) = data x.
Proof.
  intros H. unfold tget. rewrite tab_nth_slice by (rewrite H; lia).
  simpl. rewrite <- H. apply firstn_all.
Qed.

(* ================================================================== *)
(** ** A projection with zero weight and zero bias *)

Lemma Ok_inj {A} (a b : A) : Ok a = Ok b -> a = b.
Proof. intros H. injection H. auto. Qed.

Lemma Forall_tab_in_range {A} (P : A -> Prop) (s : list nat) (f : list nat -> A) :
  (forall idx, in_range idx s -> P (f idx)) -> Forall P (tab s f).
Proof.
  revert f. induction s as [|d s IH]; intros f H; simpl.
  - constructor; [apply H; constructor | constructor].
  - apply Forall_flat_map. intros i Hi. apply in_seq in Hi.
    apply IH. intros idx Hidx. apply H. constructor; [lia | exact Hidx].
Qed.

Lemma tab_entry {A} (P : A -> Prop) (s idx : list nat) (f : list nat -> A) :
  Forall P (tab s f) -> in_range idx s -> P (f idx).
Proof.
  intros H Hidx.
  rewrite <- (@nth_tab _ s idx f (f idx) Hidx).
  rewrite Forall_forall in H. apply H. apply nth_In.
  rewrite length_tab. apply offset_lt. exact Hidx.
Qed.

Lemma fadd_NaN_l (x : f32) : fadd NaN x = NaN.
Proof. reflexivity. Qed.

Lemma Fsum_NaN (l : list f32) : In NaN l -> Fsum l = NaN.
Proof.
  induction l as [|x l IH]; intros H; simpl in H; [contradiction|].
  cbn [Fsum fold_right]. destruct H as [-> | H].
  - reflexivity.
  - fold (Fsum l). rewrite (IH H). apply fadd_NaN_r.
Qed.

Lemma In_taps (c k ci di dj : nat) :
  (ci < c)%nat -> (di < k)%nat -> (dj < k)%nat -> In (ci, di, dj) (taps c k).
Proof.
  intros Hc Hi Hj. unfold taps.
  apply in_flat_map. exists ci. split; [apply in_seq; lia|].
  apply in_flat_map. exists di. split; [apply in_seq; lia|].
  apply in_map_iff. exists dj. split; [reflexivity | apply in_seq; lia].
Qed.

(** With zero weight, every output entry of a 3x3 convolution multiplies
    the input entry under the centre of the kernel by zero: the output
    is zero only if the input is finite. *)
Lemma conv2d_zero_only_finite (m : Conv2d) (x y : Tensor f32) (b h w : nat) :
  has_shape x [b; in_channels m; h; w] ->
  kernel_size m = 3%nat -> padding m = 1%nat ->
  (1 <= out_channels m)%nat ->
  all_zero (conv_weight m) ->
  conv2d m x = Ok y -> all_zero y -> all_finite x.
Proof.
  intros [Hs Hl] K P Hco Hw0 Hy Hz.
  unfold conv2d in Hy. rewrite Hs, K, P in Hy.
  destruct (Nat.eqb_spec (out_channels m) 0); [lia|].
  rewrite Nat.eqb_refl in Hy. cbn [negb] in Hy.
  destruct ((h + 2 * 1 <? 3) || (w + 2 * 1 <? 3))%nat; [discriminate|].
  destruct (Nat.eqb_spec (in_channels m) 0); [discriminate|].
  apply Ok_inj in Hy. subst y. unfold all_zero in Hz. cbn [data] in Hz.
  unfold all_finite.
  rewrite <- (@tab_tget_id _ x (Fin 0)) by (unfold wf; rewrite Hs; exact Hl).
  apply Forall_tab_in_range. rewrite Hs. intros idx Hidx.
  inversion Hidx as [|qn d0 idx1 s1 Hn H1]; subst.
  inversion H1 as [|qc d1 idx2 s2 Hc H2]; subst.
  inversion H2 as [|qi d2 idx3 s3 Hi H3]; subst.
  inversion H3 as [|qj d3 idx4 s4 Hj H4]; subst.
  inversion H4; subst.
  destruct (tget (Fin 0) x [qn; qc; qi; qj]) eqn:E; try exact I; exfalso.
  all: assert (Hidx' : in_range [qn; 0%nat; qi; qj]
                         [b; out_channels m; (h + 2 * 1 + 1 - 3)%nat;
                          (w + 2 * 1 + 1 - 3)%nat])
         by (repeat constructor; lia).
  all: pose proof (@tab_entry _ _ _ _ _ Hz Hidx') as Hent; cbv beta iota in Hent.
  all: rewrite Fsum_NaN in Hent; [rewrite fadd_NaN_r in Hent; discriminate|].
  all: apply in_map_iff; exists (qc, 1%nat, 1%nat);
       split; [|apply In_taps; lia].
  all: unfold tget at 1; rewrite (nth_all_zero _ Hw0).
  all: unfold padded.
  all: destruct (Nat.leb_spec 1 (qi + 1)); [|lia].
  all: destruct (Nat.ltb_spec (qi + 1) (h + 1)); [|lia].
  all: destruct (Nat.leb_spec 1 (qj + 1)); [|lia].
  all: destruct (Nat.ltb_spec (qj + 1) (w + 1)); [|lia].
  all: cbn [andb].
  all: replace (qi + 1 - 1)%nat with qi by lia.
  all: replace (qj + 1 - 1)%nat with qj by lia.
  all: rewrite E; cbn [fmul]; rewrite ?Rsign_0; reflexivity.
Qed.

Lemma linear_row_zero_only_finite (m : Linear) (xs : list f32) :
  length xs = in_features m ->
  (1 <= out_features m)%nat ->
  all_zero (lin_weight m) ->
  Forall (fun v => v = Fin 0) (linear_row m xs) ->
  Forall is_finite xs.
Proof.
  intros Hlen Ho Hw0 Hz.
  apply Forall_forall. intros v Hv.
  destruct (In_nth _ _ (Fin 0) Hv) as (k & Hk & <-).
  destruct (nth k xs (Fin 0)) eqn:E; try exact I; exfalso.
  all: assert (H0 : In 0%nat (seq 0 (out_features m))) by (apply in_seq; lia).
  all: unfold linear_row in Hz; rewrite Forall_map, Forall_forall in Hz.
  all: specialize (Hz 0%nat H0); cbv beta in Hz.
  all: rewrite Fsum_NaN in Hz; [rewrite fadd_NaN_r in Hz; discriminate|].
  all: apply in_map_iff; exists k; split; [|apply in_seq; lia].
  all: rewrite E; unfold tget; rewrite (nth_all_zero _ Hw0).
  all: cbn [fmul]; rewrite ?Rsign_0; reflexivity.
Qed.

Lemma linear_zero_only_finite (m : Linear) (x y : Tensor f32) (pre : list nat) :
  has_shape x (pre ++ [in_features m]) ->
  (1 <= out_features m)%nat ->
  all_zero (lin_weight m) ->
  linear m x = Ok y -> all_zero y -> all_finite x.
Proof.
  intros [Hs Hl] Ho Hw0 Hy Hz.
  unfold linear in Hy. rewrite Hs, rev_app_distr in Hy. simpl rev in Hy.
  simpl app in Hy. cbv iota beta in Hy. rewrite Nat.eqb_refl in Hy.
  cbn [negb] in Hy. rewrite rev_involutive in Hy.
  apply Ok_inj in Hy. subst y. unfold all_zero in Hz. cbn [data] in Hz.
  rewrite numel_app in Hl. simpl in Hl.
  unfold all_finite.
  rewrite <- (@flat_map_rows_id _ (in_features m) (numel pre) (data x)) by lia.
  apply Forall_flat_map. intros r Hr. apply in_seq in Hr.
  apply (@linear_row_zero_only_finite m); auto.
  - apply length_row. nia.
  - rewrite Forall_forall in Hz. apply Forall_forall. intros v Hv.
    apply Hz. apply in_flat_map. exists r. split; [apply in_seq; lia | exact Hv].
Qed.

(** ** nn_layers.py: construction and forward pass *)

Lemma Sequential_forward_app {L} (fwd : L -> Tensor f32 -> result (Tensor f32))
    (l1 l2 : list L) (x : Tensor f32) :
  Sequential_forward fwd (l1 ++ l2) x
  = (y <- Sequential_forward fwd l1 x ;; Sequential_forward fwd l2 y).
Proof.
  revert x. induction l1 as [|l l1 IH]; intros x; simpl.
  - reflexivity.
  - destruct (fwd l x); simpl; [apply IH | reflexivity].
Qed.

Lemma maps_shape_nil {L} (fwd : L -> Tensor f32 -> result (Tensor f32)) (s : list nat) :
  maps_shape (Sequential_forward fwd []) s s.
Proof.
  intros x Hx. exists x. split; [reflexivity | exact Hx].
Qed.

Lemma maps_shape_cons {L} (fwd : L -> Tensor f32 -> result (Tensor f32))
    (l : L) (rest : list L) (s1 s2 s3 : list nat) :
  maps_shape (fwd l) s1 s2 ->
  maps_shape (Sequential_forward fwd rest) s2 s3 ->
  maps_shape (Sequential_forward fwd (l :: rest)) s1 s3.
Proof.
  intros H1 H2 x Hx. simpl.
  destruct (H1 x Hx) as (y & -> & Hy). cbn [rbind]. apply H2. exact Hy.
Qed.

Lemma maps_shape_app {L} (fwd : L -> Tensor f32 -> result (Tensor f32))
    (l1 l2 : list L) (s1 s2 s3 : list nat) :
  maps_shape (Sequential_forward fwd l1) s1 s2 ->
  maps_shape (Sequential_forward fwd l2) s2 s3 ->
  maps_shape (Sequential_forward fwd (l1 ++ l2)) s1 s3.
Proof.
  intros H1 H2 x Hx. rewrite Sequential_forward_app.
  destruct (H1 x Hx) as (y & -> & Hy). cbn [rbind]. apply H2. exact Hy.
Qed.

Lemma maps_shape_same {L} (fwd : L -> Tensor f32 -> result (Tensor f32))
    (ls : list L) (s : list nat) :
  Forall (fun l => maps_shape (fwd l) s s) ls ->
  maps_shape (Sequential_forward fwd ls) s s.
Proof.
  induction 1 as [|l ls Hl _ IH].
  - apply maps_shape_nil.
  - eapply maps_shape_cons; eassumption.
Qed.

Lemma conv2d_maps (m : Conv2d) (ci co b h w : nat) :
  in_channels m = ci -> out_channels m = co ->
  (1 <= ci)%nat -> (1 <= co)%nat ->
  (kernel_size m = 3 /\ padding m = 1 \/ kernel_size m = 1 /\ padding m = 0)%nat ->
  (1 <= h)%nat -> (1 <= w)%nat ->
  maps_shape (conv2d m) [b; ci; h; w] [b; co; h; w].
Proof.
  intros Hi Ho Hci Hco Hk H1 H2 x Hx. subst ci co.
  assert (Kh : (kernel_size m <= h + 2 * padding m)%nat) by lia.
  assert (Kw : (kernel_size m <= w + 2 * padding m)%nat) by lia.
  destruct (@conv2d_shape m x b h w Hx Hci Hco Kh Kw) as (y & Hy & Hs & _).
  exists y. split; [exact Hy|].
  replace (h + 2 * padding m + 1 - kernel_size m)%nat with h in Hs by lia.
  replace (w + 2 * padding m + 1 - kernel_size m)%nat with w in Hs by lia.
  exact Hs.
Qed.

Lemma update_last_snoc {A} (f : A -> result A) (l : list A) (x : A) :
  update_last f (l ++ [x]) = (y <- f x ;; Ok (l ++ [y])).
Proof.
  unfold update_last. rewrite rev_app_distr. simpl.
  rewrite rev_involutive. reflexivity.
Qed.

Lemma all_zero_zero_ (t : Tensor f32) : all_zero (zero_ t).
Proof.
  unfold all_zero, zero_, tmap. simpl.
  apply Forall_forall. intros x Hx.
  apply in_map_iff in Hx. destruct Hx as [? [<- _]]. reflexivity.
Qed.

(** *** Constructors *)

Lemma nn_Conv2d_spec (c_in c_out : Z) (k p : nat) (st : PyState) :
  (0 <= c_in)%Z -> (0 <= c_out)%Z ->
  exists m st',
    nn_Conv2d c_in c_out k p st = Ok (m, st') /\
    in_channels m = Z.to_nat c_in /\ out_channels m = Z.to_nat c_out /\
    kernel_size m = k /\ padding m = p.
Proof.
  intros Hi Ho. unfold nn_Conv2d.
  destruct (Z.ltb_spec c_in 0); [lia|].
  destruct (Z.ltb_spec c_out 0); [lia|].
  cbn [orb]. unfold bind, fresh, ret.
  eexists. eexists. split; [reflexivity|]. repeat split.
Qed.

Lemma nn_Linear_spec (i o : Z) (st : PyState) :
  (0 <= i)%Z -> (0 <= o)%Z ->
  exists m st',
    nn_Linear i o st = Ok (m, st') /\
    in_features m = Z.to_nat i /\ out_features m = Z.to_nat o.
Proof.
  intros Hi Ho. unfold nn_Linear.
  destruct (Z.ltb_spec i 0); [lia|].
  destruct (Z.ltb_spec o 0); [lia|].
  cbn [orb]. unfold bind, fresh, ret.
  eexists. eexists. split; [reflexivity|]. repeat split.
Qed.

Lemma nn_LayerNorm_spec (n : Z) (st : PyState) :
  (0 <= n)%Z ->
  exists m,
    nn_LayerNorm n st = Ok (m, st) /\ normalized_shape m = Z.to_nat n.
Proof.
  intros Hn. unfold nn_LayerNorm, ones, zeros, bind, liftR, ret.
  rewrite !full1_ok by exact Hn.
  eexists. split; reflexivity.
Qed.

Lemma for_extend_spec {A} (P : A -> Prop) (n : nat) (body : M (list A)) :
  (forall st, exists xs st', body st = Ok (xs, st') /\ Forall P xs) ->
  forall st, exists xs st', for_extend n body st = Ok (xs, st') /\ Forall P xs.
Proof.
  intros Hbody. induction n as [|n IH]; intros st; simpl.
  - exists [], st. split; [reflexivity | constructor].
  - unfold bind.
    destruct (Hbody st) as (xs & st1 & -> & Hxs).
    destruct (IH st1) as (ys & st2 & -> & Hys).
    exists (xs ++ ys), st2. split; [reflexivity|].
    apply Forall_app. split; assumption.
Qed.

Lemma GatedConv__init__spec (c_in c_hidden : Z) (st : PyState) :
  (1 <= c_in)%Z -> (1 <= c_hidden)%Z ->
  exists g st',
    GatedConv__init__ c_in c_hidden st = Ok (g, st') /\
    forall b h w, (1 <= h)%nat -> (1 <= w)%nat ->
      maps_shape (GatedConv_forward g)
        [b; Z.to_nat c_in; h; w] [b; Z.to_nat c_in; h; w].
Proof.
  intros Hc Hh. unfold GatedConv__init__, bind.
  destruct (@nn_Conv2d_spec c_in c_hidden 3 1 st) as (m1 & st1 & -> & A1 & B1 & K1 & P1);
    try lia.
  destruct (@nn_Conv2d_spec (2 * c_hidden) (2 * c_in) 1 0 st1)
    as (m2 & st2 & -> & A2 & B2 & K2 & P2); try lia.
  eexists. eexists. split; [reflexivity|].
  intros b h w H1 H2 x Hx. unfold GatedConv_forward. cbn [gc_net].
  assert (Hnet : maps_shape
            (Sequential_forward Leaf_forward [Conv2dL m1; ConcatELU; Conv2dL m2])
            [b; Z.to_nat c_in; h; w] [b; (2 * Z.to_nat c_in)%nat; h; w]).
  { eapply maps_shape_cons with (s2 := [b; Z.to_nat c_hidden; h; w]).
    { apply conv2d_maps; auto; lia. }
    eapply maps_shape_cons with (s2 := [b; (2 * Z.to_nat c_hidden)%nat; h; w]).
    { intros y Hy. apply ConcatELU_shape. exact Hy. }
    eapply maps_shape_cons; [|apply maps_shape_nil].
    apply conv2d_maps; auto; lia. }
  destruct (Hnet x Hx) as (out & -> & Hout). cbn [rbind].
  apply gated_update_shape; assumption.
Qed.

Lemma GatedLinear__init__spec (f : Z) (st : PyState) :
  (0 <= f)%Z ->
  exists g st',
    GatedLinear__init__ f st = Ok (g, st') /\
    forall b,
      maps_shape (GatedLinear_forward g) [b; Z.to_nat f] [b; Z.to_nat f].
Proof.
  intros Hf. unfold GatedLinear__init__, bind.
  destruct (@nn_Linear_spec f f st) as (m1 & st1 & -> & A1 & B1); try lia.
  destruct (@nn_Linear_spec (2 * f) (2 * f) st1) as (m2 & st2 & -> & A2 & B2);
    try lia.
  eexists. eexists. split; [reflexivity|].
  intros b x Hx. unfold GatedLinear_forward. cbn [gl_net].
  assert (Hnet : maps_shape
            (Sequential_forward Leaf_forward [LinearL m1; ConcatELU; LinearL m2])
            [b; Z.to_nat f] [b; (2 * Z.to_nat f)%nat]).
  { eapply maps_shape_cons with (s2 := [b; Z.to_nat f]).
    { intros y Hy. cbn [Leaf_forward].
      destruct (@linear_shape m1 y [b]) as (z & Hz & Hs & _).
      - rewrite A1. exact Hy.
      - exists z. split; [exact Hz|]. rewrite B1 in Hs. exact Hs. }
    eapply maps_shape_cons with (s2 := [b; (2 * Z.to_nat f)%nat]).
    { intros y Hy. apply ConcatELU_shape. exact Hy. }
    eapply maps_shape_cons; [|apply maps_shape_nil].
    intros y Hy. cbn [Leaf_forward].
    destruct (@linear_shape m2 y [b]) as (z & Hz & Hs & _).
    - rewrite A2. replace (Z.to_nat (2 * f)) with (2 * Z.to_nat f)%nat by lia.
      exact Hy.
    - exists z. split; [exact Hz|]. rewrite B2 in Hs.
      replace (Z.to_nat (2 * f)) with (2 * Z.to_nat f)%nat in Hs by lia.
      exact Hs. }
  destruct (Hnet x Hx) as (out & -> & Hout). cbn [rbind].
  apply gated_update_shape; assumption.
Qed.

Lemma LayerNormChannels__init__spec (ch : Z) (st : PyState) :
  (0 <= ch)%Z ->
  exists n,
    LayerNormChannels__init__ ch st = Ok (n, st) /\
    forall b h w,
      maps_shape (LayerNormChannels_forward n)
        [b; Z.to_nat ch; h; w] [b; Z.to_nat ch; h; w].
Proof.
  intros Hc. unfold LayerNormChannels__init__, bind.
  destruct (@nn_LayerNorm_spec ch st Hc) as (ln & -> & Hn).
  eexists. split; [reflexivity|].
  intros b h w. apply LayerNormChannels_shape. exact Hn.
Qed.

(** What the constructor of the convolutional network returns: layers
    that carry [[b, c_in, h, w]] to [[b, 2 * c_hidden, h, w]], and then
    the final 3x3 convolution, whose weight and bias are zero. *)
Lemma GatedConvNet__init__spec (c_in c_hidden c_out num_layers : Z) (st : PyState) :
  (1 <= c_in)%Z -> (1 <= c_hidden)%Z ->
  exists prefix final st',
    GatedConvNet__init__ c_in c_hidden c_out num_layers st
    = Ok (mkGatedConvNet (prefix ++ [LeafL (Conv2dL final)]), st') /\
    all_zero (conv_weight final) /\ all_zero (conv_bias final) /\
    in_channels final = (2 * Z.to_nat c_hidden)%nat /\
    out_channels final
    = Z.to_nat (if (c_out >? 0)%Z then c_out else (2 * c_in)%Z) /\
    kernel_size final = 3%nat /\ padding final = 1%nat /\
    forall b h w, (1 <= h)%nat -> (1 <= w)%nat ->
      maps_shape (Sequential_forward Layer_forward prefix)
        [b; Z.to_nat c_in; h; w] [b; (2 * Z.to_nat c_hidden)%nat; h; w].
Proof.
  intros Hc Hh. unfold GatedConvNet__init__.
  set (co := if (c_out >? 0)%Z then c_out else (2 * c_in)%Z).
  assert (Hco : (1 <= co)%Z).
  { unfold co. destruct (Z.gtb_spec c_out 0); lia. }
  unfold bind at 1.
  destruct (@nn_Conv2d_spec c_in c_hidden 3 1 st)
    as (first & st1 & -> & A1 & B1 & K1 & P1); try lia.
  unfold bind at 1.
  set (P := fun l : Layer =>
              forall b h w, (1 <= h)%nat -> (1 <= w)%nat ->
                maps_shape (Layer_forward l)
                  [b; Z.to_nat c_hidden; h; w] [b; Z.to_nat c_hidden; h; w]).
  match goal with
  | |- context [for_extend ?n ?body st1] =>
      destruct (@for_extend_spec _ P n body) with (st := st1)
        as (blocks & st2 & -> & Hblocks)
  end.
  { intros s. unfold bind.
    destruct (@GatedConv__init__spec c_hidden c_hidden s) as (g & s1 & -> & Hg);
      try lia.
    destruct (@LayerNormChannels__init__spec c_hidden s1 ltac:(lia)) as (n & -> & Hn).
    eexists. eexists. split; [reflexivity|].
    constructor; [|constructor; [|constructor]]; intros b h w H1 H2.
    - apply Hg; assumption.
    - apply Hn. }
  unfold bind at 1.
  destruct (@nn_Conv2d_spec (2 * c_hidden) co 3 1 st2)
    as (final & st3 & -> & A3 & B3 & K3 & P3); try lia.
  replace ([LeafL (Conv2dL first)] ++ blocks
           ++ [LeafL ConcatELU; LeafL (Conv2dL final)])
    with (([LeafL (Conv2dL first)] ++ blocks ++ [LeafL ConcatELU])
          ++ [LeafL (Conv2dL final)])
    by (rewrite <- !app_assoc; reflexivity).
  unfold bind, liftR, ret.
  rewrite update_last_snoc. cbn [weight_zero_ rbind].
  rewrite update_last_snoc. cbn [bias_zero_ rbind].
  eexists. eexists. eexists. split; [reflexivity|].
  cbn [conv_weight conv_bias in_channels out_channels kernel_size padding].
  split; [apply all_zero_zero_|].
  split; [apply all_zero_zero_|].
  split; [lia|]. split; [exact B3|]. split; [exact K3|]. split; [exact P3|].
  intros b h w H1 H2.
  eapply maps_shape_cons with (s2 := [b; Z.to_nat c_hidden; h; w]).
  { apply conv2d_maps; auto; lia. }
  eapply maps_shape_app with (s2 := [b; Z.to_nat c_hidden; h; w]).
  { apply maps_shape_same.
    eapply Forall_impl; [|exact Hblocks].
    intros l Hl. apply Hl; assumption. }
  eapply maps_shape_cons; [|apply maps_shape_nil].
  intros y Hy. apply ConcatELU_shape. exact Hy.
Qed.

(** What the constructor of the fully-connected network returns: layers
    that carry [[b, f]] to [[b, 2 * f]], and then the final linear layer,
    whose weight and bias are zero. *)
Lemma GatedLinearNet__init__spec (f num_layers : Z) (st : PyState) :
  (0 <= f)%Z ->
  exists prefix final st',
    GatedLinearNet__init__ f num_layers st
    = Ok (mkGatedLinearNet (prefix ++ [LeafL (LinearL final)]), st') /\
    all_zero (lin_weight final) /\ all_zero (lin_bias final) /\
    in_features final = (2 * Z.to_nat f)%nat /\
    out_features final = (2 * Z.to_nat f)%nat /\
    forall b,
      maps_shape (Sequential_forward Layer_forward prefix)
        [b; Z.to_nat f] [b; (2 * Z.to_nat f)%nat].
Proof.
  intros Hf. unfold GatedLinearNet__init__.
  unfold bind at 1.
  destruct (@nn_Linear_spec f f st) as (first & st1 & -> & A1 & B1); try lia.
  unfold bind at 1.
  set (P := fun l : Layer =>
              forall b, maps_shape (Layer_forward l) [b; Z.to_nat f] [b; Z.to_nat f]).
  match goal with
  | |- context [for_extend ?n ?body st1] =>
      destruct (@for_extend_spec _ P n body) with (st := st1)
        as (blocks & st2 & -> & Hblocks)
  end.
  { intros s. unfold bind.
    destruct (@GatedLinear__init__spec f s Hf) as (g & s1 & -> & Hg).
    destruct (@nn_LayerNorm_spec f s1 Hf) as (n & -> & Hn).
    eexists. eexists. split; [reflexivity|].
    constructor; [|constructor; [|constructor]]; intros b.
    - apply Hg.
    - intros y Hy. cbn [Layer_forward Leaf_forward].
      rewrite <- Hn in Hy |- *.
      apply (@layer_norm_shape n y [b]). exact Hy. }
  unfold bind at 1.
  destruct (@nn_Linear_spec (2 * f) (2 * f) st2)
    as (final & st3 & -> & A3 & B3); try lia.
  replace ([LeafL (LinearL first)] ++ blocks
           ++ [LeafL ConcatELU; LeafL (LinearL final)])
    with (([LeafL (LinearL first)] ++ blocks ++ [LeafL ConcatELU])
          ++ [LeafL (LinearL final)])
    by (rewrite <- !app_assoc; reflexivity).
  unfold bind, liftR, ret.
  rewrite update_last_snoc. cbn [weight_zero_ rbind].
  rewrite update_last_snoc. cbn [bias_zero_ rbind].
  eexists. eexists. eexists. split; [reflexivity|].
  cbn [lin_weight lin_bias in_features out_features].
  split; [apply all_zero_zero_|].
  split; [apply all_zero_zero_|].
  split; [lia|]. split; [lia|].
  intros b.
  eapply maps_shape_cons with (s2 := [b; Z.to_nat f]).
  { intros y Hy. cbn [Layer_forward Leaf_forward].
    destruct (@linear_shape first y [b]) as (z & Hz & Hs & _).
    - rewrite A1. exact Hy.
    - exists z. split; [exact Hz|]. rewrite B1 in Hs. exact Hs. }
  eapply maps_shape_app with (s2 := [b; Z.to_nat f]).
  { apply maps_shape_same.
    eapply Forall_impl; [|exact Hblocks].
    intros l Hl. apply Hl. }
  eapply maps_shape_cons; [|apply maps_shape_nil].
  intros y Hy. apply ConcatELU_shape. exact Hy.
Qed.


Lemma all_zero_zeros_of (s : list nat) : all_zero (zeros_of s).
Proof.
  unfold all_zero, zeros_of. cbn [data].
  apply Forall_forall. intros v Hv. apply repeat_spec in Hv. exact Hv.
Qed.

(** A freshly constructed convolutional network: it is built without an
    exception, its last layer is a convolution with zero weight and
    bias, every image batch [[b, c_in, h, w]] reaches that layer as an
    activation [a] and leaves it with [c_out] channels (twice the input
    channels when [c_out <= 0]), and what leaves it is all zero exactly
    when [a] is finite. *)
Lemma GatedConvNet_fresh (c_in c_hidden c_out num_layers : Z) (st : PyState) :
  (1 <= c_in)%Z -> (1 <= c_hidden)%Z ->
  exists net st' prefix final,
    GatedConvNet__init__ c_in c_hidden c_out num_layers st = Ok (net, st') /\
    gcn_nn net = prefix ++ [LeafL (Conv2dL final)] /\
    all_zero (conv_weight final) /\ all_zero (conv_bias final) /\
    forall x b h w,
      has_shape x [b; Z.to_nat c_in; h; w] -> (1 <= h)%nat -> (1 <= w)%nat ->
      exists a y,
        Sequential_forward Layer_forward prefix x = Ok a /\
        has_shape a [b; (2 * Z.to_nat c_hidden)%nat; h; w] /\
        GatedConvNet_forward net x = Ok y /\
        has_shape y [b; Z.to_nat (if (c_out >? 0)%Z then c_out else (2 * c_in)%Z);
                     h; w] /\
        (all_zero y <-> all_finite a).
Proof.
  intros Hc Hh.
  destruct (@GatedConvNet__init__spec c_in c_hidden c_out num_layers st Hc Hh)
    as (prefix & final & st' & Hinit & Hw0 & Hb0 & A & B & K & P & Hpre).
  exists (mkGatedConvNet (prefix ++ [LeafL (Conv2dL final)])), st', prefix, final.
  split; [exact Hinit|]. split; [reflexivity|].
  split; [exact Hw0|]. split; [exact Hb0|].
  intros x b h w Hx H1 H2.
  destruct (Hpre b h w H1 H2 x Hx) as (a & Ha & Has).
  assert (Hco : (1 <= out_channels final)%nat).
  { rewrite B. destruct (Z.gtb_spec c_out 0); lia. }
  assert (Has' : has_shape a [b; in_channels final; h; w]) by (rewrite A; exact Has).
  destruct (@conv2d_shape final a b h w Has') as (y & Hy & Hys & Hzero); try lia.
  rewrite K, P, B in Hys.
  replace (h + 2 * 1 + 1 - 3)%nat with h in Hys by lia.
  replace (w + 2 * 1 + 1 - 3)%nat with w in Hys by lia.
  exists a, y. split; [exact Ha|]. split; [exact Has|].
  split.
  { unfold GatedConvNet_forward. cbn [gcn_nn].
    rewrite Sequential_forward_app, Ha. cbn [rbind].
    cbn [Sequential_forward Layer_forward Leaf_forward]. rewrite Hy. reflexivity. }
  split; [exact Hys|].
  split.
  - intros Hz. eapply conv2d_zero_only_finite; eauto.
  - intros Hfin. apply Hzero; assumption.
Qed.

(** The same for the fully-connected network, on image batches with
    [c * h * w = in_features]: the flattened batch reaches the final
    linear layer as [a], and the result, of shape [[b, 2 * c, h, w]], is
    all zero exactly when [a] is finite. *)
Lemma GatedLinearNet_fresh (f num_layers : Z) (st : PyState) :
  (0 <= f)%Z ->
  exists net st' prefix final,
    GatedLinearNet__init__ f num_layers st = Ok (net, st') /\
    gln_nn net = prefix ++ [LeafL (LinearL final)] /\
    all_zero (lin_weight final) /\ all_zero (lin_bias final) /\
    forall x b c h w,
      has_shape x [b; c; h; w] -> (c * h * w)%nat = Z.to_nat f ->
      exists x1 a y,
        flatten1 x = Ok x1 /\
        Sequential_forward Layer_forward prefix x1 = Ok a /\
        has_shape a [b; (2 * Z.to_nat f)%nat] /\
        GatedLinearNet_forward net x = Ok y /\
        has_shape y [b; (2 * c)%nat; h; w] /\
        (all_zero y <-> all_finite a).
Proof.
  intros Hf.
  destruct (@GatedLinearNet__init__spec f num_layers st Hf)
    as (prefix & final & st' & Hinit & Hw0 & Hb0 & A & B & Hpre).
  exists (mkGatedLinearNet (prefix ++ [LeafL (LinearL final)])), st', prefix, final.
  split; [exact Hinit|]. split; [reflexivity|].
  split; [exact Hw0|]. split; [exact Hb0|].
  intros x b c h w [Hs Hl] Hn.
  assert (Hflat : has_shape (mkTensor [b; numel [c; h; w]] (data x)) [b; Z.to_nat f]).
  { split.
    - cbn [shape]. f_equal. f_equal. simpl. lia.
    - cbn [data]. rewrite Hl. simpl. nia. }
  destruct (Hpre b _ Hflat) as (a & Ha & Has).
  assert (Has' : has_shape a ([b] ++ [in_features final])) by (rewrite A; exact Has).
  destruct (@linear_shape final a [b] Has') as (z & Hz & Hzs & Hzero).
  rewrite B in Hzs. cbn [app] in Hzs.
  assert (Hnum : numel [b; (2 * c)%nat; h; w] = length (data z)).
  { rewrite (proj2 Hzs). simpl. nia. }
  exists (mkTensor [b; numel [c; h; w]] (data x)), a, (mkTensor [b; (2 * c)%nat; h; w] (data z)).
  split; [unfold flatten1; rewrite Hs; reflexivity|].
  split; [exact Ha|]. split; [exact Has|].
  split.
  { unfold GatedLinearNet_forward. rewrite Hs. cbn [gln_nn].
    unfold flatten1. rewrite Hs. cbn [rbind].
    rewrite Sequential_forward_app, Ha. cbn [rbind].
    cbn [Sequential_forward Layer_forward Leaf_forward]. rewrite Hz. cbn [rbind].
    unfold reshape.
    destruct (Nat.eq_dec _ _) as [_|Hne]; [reflexivity | contradiction]. }
  split; [split; [reflexivity | cbn [data]; symmetry; exact Hnum]|].
  unfold all_zero at 1. cbn [data]. fold (all_zero z).
  split.
  - intros Hz0. destruct (Z.eq_dec f 0) as [-> | Hf0].
    + unfold all_finite. destruct Has as [_ Hla]. simpl in Hla.
      destruct (data a); [constructor | simpl in Hla; lia].
    + eapply linear_zero_only_finite; eauto. rewrite B. lia.
  - intros Hfin. apply Hzero; assumption.
Qed.

(** C6, amended: right after construction the last layer of
    [GatedConvNet] and of [GatedLinearNet] -- the final projection -- has
    zero weight and zero bias.  The forward pass of the fresh network
    returns the all-zero tensor on every image batch it accepts whose
    activation [a] at the final projection is finite; where [a] holds an
    infinity or NaN the result is not all zero. *)
Theorem final_projection_zero_init
    (c_in c_hidden c_out num_layers in_features num_layers' : Z) (st : PyState) :
  (1 <= c_in)%Z -> (1 <= c_hidden)%Z -> (1 <= in_features)%Z ->
  (exists net st' prefix final,
     GatedConvNet__init__ c_in c_hidden c_out num_layers st = Ok (net, st') /\
     gcn_nn net = prefix ++ [LeafL (Conv2dL final)] /\
     all_zero (conv_weight final) /\ all_zero (conv_bias final) /\
     forall x b h w,
       has_shape x [b; Z.to_nat c_in; h; w] -> (1 <= h)%nat -> (1 <= w)%nat ->
       exists a y,
         Sequential_forward Layer_forward prefix x = Ok a /\
         GatedConvNet_forward net x = Ok y /\
         (all_finite a ->
          y = zeros_of [b; Z.to_nat (if (c_out >? 0)%Z then c_out else (2 * c_in)%Z);
                        h; w]) /\
         (~ all_finite a -> ~ all_zero y)) /\
  (exists net st' prefix final,
     GatedLinearNet__init__ in_features num_layers' st = Ok (net, st') /\
     gln_nn net = prefix ++ [LeafL (LinearL final)] /\
     all_zero (lin_weight final) /\ all_zero (lin_bias final) /\
     forall x b c h w,
       has_shape x [b; c; h; w] -> (c * h * w)%nat = Z.to_nat in_features ->
       exists x1 a y,
         flatten1 x = Ok x1 /\
         Sequential_forward Layer_forward prefix x1 = Ok a /\
         GatedLinearNet_forward net x = Ok y /\
         (all_finite a -> y = zeros_of [b; (2 * c)%nat; h; w]) /\
         (~ all_finite a -> ~ all_zero y)).
Proof.
  intros Hc Hh Hf. split.
  - destruct (@GatedConvNet_fresh c_in c_hidden c_out num_layers st Hc Hh)
      as (net & st' & prefix & final & H1 & H2 & H3 & H4 & H5).
    exists net, st', prefix, final. repeat (split; [assumption|]).
    intros x b h w Hx Hh1 Hw1.
    destruct (H5 x b h w Hx Hh1 Hw1) as (a & y & Ha & _ & Hy & Hys & Hiff).
    exists a, y. split; [exact Ha|]. split; [exact Hy|]. split.
    + intros Hfin. apply all_zero_eq; [exact Hys | apply Hiff; exact Hfin].
    + intros Hn Hz. apply Hn, Hiff, Hz.
  - destruct (@GatedLinearNet_fresh in_features num_layers' st ltac:(lia))
      as (net & st' & prefix & final & H1 & H2 & H3 & H4 & H5).
    exists net, st', prefix, final. repeat (split; [assumption|]).
    intros x b c h w Hx Hn.
    destruct (H5 x b c h w Hx Hn) as (x1 & a & y & Hx1 & Ha & _ & Hy & Hys & Hiff).
    exists x1, a, y. split; [exact Hx1|]. split; [exact Ha|]. split; [exact Hy|].
    split.
    + intros Hfin. apply all_zero_eq; [exact Hys | apply Hiff; exact Hfin].
    + intros Hnf Hz. apply Hnf, Hiff, Hz.
Qed.

Lemma final_projection_zero_init_witness :
  (exists net st' prefix final,
     GatedConvNet__init__ 1 32 (-1) 3 drawing_state = Ok (net, st') /\
     gcn_nn net = prefix ++ [LeafL (Conv2dL final)] /\
     all_zero (conv_weight final) /\ all_zero (conv_bias final) /\
     forall x b h w,
       has_shape x [b; 1; h; w]%nat -> (1 <= h)%nat -> (1 <= w)%nat ->
       exists a y,
         Sequential_forward Layer_forward prefix x = Ok a /\
         GatedConvNet_forward net x = Ok y /\
         (all_finite a -> y = zeros_of [b; 2; h; w]%nat) /\
         (~ all_finite a -> ~ all_zero y)) /\
  (exists net st' prefix final,
     GatedLinearNet__init__ 4 3 drawing_state = Ok (net, st') /\
     gln_nn net = prefix ++ [LeafL (LinearL final)] /\
     all_zero (lin_weight final) /\ all_zero (lin_bias final) /\
     forall x b c h w,
       has_shape x [b; c; h; w] -> (c * h * w)%nat = 4%nat ->
       exists x1 a y,
         flatten1 x = Ok x1 /\
         Sequential_forward Layer_forward prefix x1 = Ok a /\
         GatedLinearNet_forward net x = Ok y /\
         (all_finite a -> y = zeros_of [b; (2 * c)%nat; h; w]) /\
         (~ all_finite a -> ~ all_zero y)).
Proof.
  apply (@final_projection_zero_init 1 32 (-1) 3 4 3 drawing_state); lia.
Defined.

(** C6, as the specification words it, fails: a fresh
    [GatedConvNet(c_in=1, c_hidden=1)], whose parameters are drawn
    non-zero except for the final projection, sends the one-pixel image
    holding NaN to NaN in both output channels, not to zero. *)
Lemma final_projection_zero_init_counterexample :
  exists net st' y,
    GatedConvNet__init__ 1 1 (-1) 3 drawing_state = Ok (net, st') /\
    GatedConvNet_forward net (mkTensor [1; 1; 1; 1]%nat [NaN]) = Ok y /\
    y = mkTensor [1; 2; 1; 1]%nat [NaN; NaN] /\
    ~ all_zero y.
Proof.
  eexists. eexists. eexists. split.
  { lazy -[Rplus Rmult Ropp Rminus Rdiv Rinv exp sqrt INR IZR Rlt_dec Rsign].
    reflexivity. }
  split.
  { lazy -[Rplus Rmult Ropp Rminus Rdiv Rinv exp sqrt INR IZR Rlt_dec Rsign].
    reflexivity. }
  split; [reflexivity|].
  intros Hz. inversion Hz as [|v l Hv _]. discriminate Hv.
Qed.

(** C7: with no output channel count ([c_out] left at its default -1, or
    any [c_out <= 0]) the convolutional network returns a tensor of
    shape [[b, 2c, h, w]] on every input of shape [[b, c, h, w]] with
    [c = c_in]; the fully-connected network, which has no such
    parameter, returns shape [[b, 2c, h, w]] on every input of shape
    [[b, c, h, w]] with [c * h * w = in_features]. *)
Theorem default_output_doubles_channels
    (c_in c_hidden c_out num_layers in_features num_layers' : Z) (st : PyState) :
  (1 <= c_in)%Z -> (1 <= c_hidden)%Z -> (c_out <= 0)%Z -> (1 <= in_features)%Z ->
  GatedConvNet_call [("c_in", PInt c_in)] = GatedConvNet__init__ c_in 32 (-1) 3 /\
  (exists net st',
     GatedConvNet__init__ c_in c_hidden c_out num_layers st = Ok (net, st') /\
     forall x b h w,
       has_shape x [b; Z.to_nat c_in; h; w] -> (1 <= h)%nat -> (1 <= w)%nat ->
       exists y, GatedConvNet_forward net x = Ok y /\
                 has_shape y [b; (2 * Z.to_nat c_in)%nat; h; w]) /\
  (exists net st',
     GatedLinearNet__init__ in_features num_layers' st = Ok (net, st') /\
     forall x b c h w,
       has_shape x [b; c; h; w] -> (c * h * w)%nat = Z.to_nat in_features ->
       exists y, GatedLinearNet_forward net x = Ok y /\
                 has_shape y [b; (2 * c)%nat; h; w]).
Proof.
  intros Hc Hh Hco Hf. split; [reflexivity|]. split.
  - destruct (@GatedConvNet_fresh c_in c_hidden c_out num_layers st)
      as (net & st' & prefix & final & H1 & _ & _ & _ & H5); try lia.
    exists net, st'. split; [exact H1|].
    intros x b h w Hx Hh1 Hw1.
    destruct (H5 x b h w Hx Hh1 Hw1) as (a & y & _ & _ & Hy & Hys & _).
    exists y. split; [exact Hy|].
    destruct (Z.gtb_spec c_out 0); [lia|].
    replace (Z.to_nat (2 * c_in)) with (2 * Z.to_nat c_in)%nat in Hys by lia.
    exact Hys.
  - destruct (@GatedLinearNet_fresh in_features num_layers' st)
      as (net & st' & prefix & final & H1 & _ & _ & _ & H5); try lia.
    exists net, st'. split; [exact H1|].
    intros x b c h w Hx Hn.
    destruct (H5 x b c h w Hx Hn) as (x1 & a & y & _ & _ & _ & Hy & Hys & _).
    exists y. split; [exact Hy | exact Hys].
Qed.

Lemma default_output_doubles_channels_witness :
  GatedConvNet_call [("c_in", PInt 1)] = GatedConvNet__init__ 1 32 (-1) 3 /\
  (exists net st',
     GatedConvNet__init__ 1 32 (-1) 3 initial_state = Ok (net, st') /\
     forall x b h w,
       has_shape x [b; 1; h; w]%nat -> (1 <= h)%nat -> (1 <= w)%nat ->
       exists y, GatedConvNet_forward net x = Ok y /\
                 has_shape y [b; 2; h; w]%nat) /\
  (exists net st',
     GatedLinearNet__init__ 784 3 initial_state = Ok (net, st') /\
     forall x b c h w,
       has_shape x [b; c; h; w] -> (c * h * w)%nat = 784%nat ->
       exists y, GatedLinearNet_forward net x = Ok y /\
                 has_shape y [b; (2 * c)%nat; h; w]).
Proof.
  apply (@default_output_doubles_channels 1 32 (-1) 3 784 3 initial_state); lia.
Defined.

(** C8, as the specification words it, fails: the network built for one
    feature, run on an input of shape [[1, 1, 1, 1]], returns a tensor
    of shape [[1, 2, 1, 1]]. *)
Lemma GatedLinearNet_forward_shape_counterexample :
  exists net st' y,
    GatedLinearNet__init__ 1 3 initial_state = Ok (net, st') /\
    GatedLinearNet_forward net (mkTensor [1; 1; 1; 1]%nat [Fin 5]) = Ok y /\
    shape y = [1; 2; 1; 1]%nat /\
    shape y <> shape (mkTensor [1; 1; 1; 1]%nat [Fin 5]).
Proof.
  destruct (@GatedLinearNet_fresh 1 3 initial_state)
    as (net & st' & prefix & final & H1 & _ & _ & _ & H5); [lia|].
  destruct (H5 (mkTensor [1; 1; 1; 1]%nat [Fin 5]) 1%nat 1%nat 1%nat 1%nat)
    as (x1 & a & y & _ & _ & _ & Hy & Hys & _);
    [split; reflexivity | reflexivity |].
  exists net, st', y. split; [exact H1|].
  split; [exact Hy|].
  rewrite (proj1 Hys). split; [reflexivity | discriminate].
Qed.

(** C8, amended: on every input of shape [[b, c, h, w]] with
    [c * h * w = in_features], [GatedLinearNet.forward] reshapes the
    output of the final projection to the four-dimensional shape
    [[b, 2 * c, h, w]]: the batch and spatial sizes of the input and twice
    its channels, which is not the input's shape as soon as [c >= 1]. *)
Theorem GatedLinearNet_forward_shape (in_features num_layers : Z) (st : PyState) :
  (1 <= in_features)%Z ->
  exists net st',
    GatedLinearNet__init__ in_features num_layers st = Ok (net, st') /\
    forall x b c h w,
      has_shape x [b; c; h; w] -> (c * h * w)%nat = Z.to_nat in_features ->
      exists y,
        GatedLinearNet_forward net x = Ok y /\
        shape y = [b; (2 * c)%nat; h; w] /\
        wf y /\
        ((1 <= c)%nat -> shape y <> shape x).
Proof.
  intros Hf.
  destruct (@GatedLinearNet_fresh in_features num_layers st)
    as (net & st' & prefix & final & H1 & _ & _ & _ & H5); [lia|].
  exists net, st'. split; [exact H1|].
  intros x b c h w Hx Hn.
  destruct (H5 x b c h w Hx Hn) as (x1 & a & y & _ & _ & _ & Hy & Hys & _).
  exists y. split; [exact Hy|].
  split; [exact (proj1 Hys)|].
  split; [unfold wf; rewrite (proj1 Hys); exact (proj2 Hys)|].
  intros Hc. rewrite (proj1 Hys), (proj1 Hx).
  intros E. injection E. lia.
Qed.

Lemma GatedLinearNet_forward_shape_witness :
  exists net st',
    GatedLinearNet__init__ 784 3 initial_state = Ok (net, st') /\
    forall x b c h w,
      has_shape x [b; c; h; w] -> (c * h * w)%nat = 784%nat ->
      exists y,
        GatedLinearNet_forward net x = Ok y /\
        shape y = [b; (2 * c)%nat; h; w] /\
        wf y /\
        ((1 <= c)%nat -> shape y <> shape x).
Proof.
  apply (@GatedLinearNet_forward_shape 784 3 initial_state). lia.
Defined.

(** ** network.py: the recipes *)

Lemma bind_Ok {A B} (m : M A) (k : A -> M B) (st : PyState) (r : B * PyState) :
  bind m k st = Ok r ->
  exists a st1, m st = Ok (a, st1) /\ k a st1 = Ok r.
Proof.
  unfold bind. destruct (m st) as [[a st1]|e]; intros H.
  - exists a, st1. split; [reflexivity | exact H].
  - discriminate.
Qed.

Lemma ret_Ok {A} (a : A) (st : PyState) (r : A * PyState) :
  ret a st = Ok r -> r = (a, st).
Proof.
  unfold ret. intros H. injection H. auto.
Qed.

(** The keyword [partial_conv] names no parameter of
    [GatedConvNet.__init__]: the call raises before anything is built. *)
Lemma GatedConvNet_call_partial_conv (kw : kwargs) (v : pyval) (st : PyState) :
  (forall k, In k (map fst kw) ->
             In k ["c_in"; "c_hidden"; "c_out"; "num_layers"]) ->
  GatedConvNet_call (kw ++ [("partial_conv", v)]) st
  = Raise (TypeError
      "GatedConvNet.__init__() got an unexpected keyword argument 'partial_conv'").
Proof.
  intros Hkw. unfold GatedConvNet_call, bind, liftR, bind_args.
  set (unexpected := fun kv : string * pyval =>
         negb (existsb (String.eqb (fst kv)) (map fst GatedConvNet_signature))).
  assert (Hfind : find unexpected (kw ++ [("partial_conv", v)])
                  = Some ("partial_conv", v)).
  { induction kw as [|[k u] kw IH]; [reflexivity|].
    simpl. assert (Hk : unexpected (k, u) = false).
    { unfold unexpected. apply negb_false_iff. apply existsb_exists.
      exists k. split; [|apply String.eqb_refl].
      apply Hkw. left. reflexivity. }
    rewrite Hk. apply IH. intros k' Hk'. apply Hkw. right. exact Hk'. }
  rewrite Hfind. reflexivity.
Qed.

Lemma returns_ret {A} (a : A) : returns (ret a).
Proof.
  intros st. exists a, st. reflexivity.
Qed.

Lemma returns_bind {A B} (m : M A) (k : A -> M B) :
  returns m -> (forall a, returns (k a)) -> returns (bind m k).
Proof.
  intros Hm Hk st. unfold bind.
  destruct (Hm st) as (a & st1 & ->). apply Hk.
Qed.

Lemma returns_liftR {A} (r : result A) :
  (exists a, r = Ok a) -> returns (liftR r).
Proof.
  intros [a ->] st. exists a, st. reflexivity.
Qed.

Lemma returns_comprehension {A B} (f : A -> M B) (l : list A) :
  (forall a, returns (f a)) -> returns (comprehension f l).
Proof.
  intros Hf. induction l as [|a l IH]; simpl.
  - apply returns_ret.
  - apply returns_bind; [apply Hf|]. intros b.
    apply returns_bind; [exact IH|]. intros bs. apply returns_ret.
Qed.

Lemma returns_for_each {A B} (l : list A) (body : A -> M (list B)) :
  (forall a, returns (body a)) -> returns (for_each l body).
Proof.
  intros Hf. induction l as [|a l IH]; simpl.
  - apply returns_ret.
  - apply returns_bind; [apply Hf|]. intros b.
    apply returns_bind; [exact IH|]. intros bs. apply returns_ret.
Qed.

Lemma returns_nn_Conv2d (c_in c_out : Z) (k p : nat) :
  (0 <= c_in)%Z -> (0 <= c_out)%Z -> returns (nn_Conv2d c_in c_out k p).
Proof.
  intros Hi Ho st.
  destruct (@nn_Conv2d_spec c_in c_out k p st Hi Ho) as (m & st' & H & _).
  eexists. eexists. exact H.
Qed.

Lemma returns_for_extend {A} (n : nat) (body : M (list A)) :
  returns body -> returns (for_extend n body).
Proof.
  intros Hb. induction n as [|n IH]; simpl.
  - apply returns_ret.
  - apply returns_bind; [exact Hb|]. intros xs.
    apply returns_bind; [exact IH|]. intros ys. apply returns_ret.
Qed.

(** The constructor asks for no channel: it builds a network that has
    none, which only its forward pass refuses. *)
Lemma returns_GatedConvNet__init__ (c_in c_hidden c_out num_layers : Z) :
  (0 <= c_in)%Z -> (0 <= c_hidden)%Z ->
  returns (GatedConvNet__init__ c_in c_hidden c_out num_layers).
Proof.
  intros Hc Hh. unfold GatedConvNet__init__.
  assert (Hco : (0 <= (if (c_out >? 0)%Z then c_out else 2 * c_in))%Z)
    by (destruct (Z.gtb_spec c_out 0); lia).
  apply returns_bind; [apply returns_nn_Conv2d; lia|]. intros first.
  apply returns_bind.
  { apply returns_for_extend.
    apply returns_bind.
    { unfold GatedConv__init__.
      apply returns_bind; [apply returns_nn_Conv2d; lia|]. intros c1.
      apply returns_bind; [apply returns_nn_Conv2d; lia|]. intros c2.
      apply returns_ret. }
    intros g. apply returns_bind; [|intros; apply returns_ret].
    intros st. destruct (@LayerNormChannels__init__spec c_hidden st Hh) as (n & H & _).
    eexists. eexists. exact H. }
  intros blocks.
  apply returns_bind; [apply returns_nn_Conv2d; lia|]. intros final.
  intros st. cbv zeta.
  replace ([LeafL (Conv2dL first)] ++ blocks
           ++ [LeafL ConcatELU; LeafL (Conv2dL final)])
    with (([LeafL (Conv2dL first)] ++ blocks ++ [LeafL ConcatELU])
          ++ [LeafL (Conv2dL final)])
    by (rewrite <- !app_assoc; reflexivity).
  unfold bind, liftR, ret.
  rewrite update_last_snoc. cbn [weight_zero_ rbind].
  rewrite update_last_snoc. cbn [bias_zero_ rbind].
  eexists. eexists. reflexivity.
Qed.

Lemma returns_checkerboard_mask (h w : Z) (invert : bool) :
  (0 <= h)%Z -> (0 <= w)%Z ->
  returns (liftR (create_checkerboard_mask h w invert)).
Proof.
  intros Hh Hw. apply returns_liftR.
  destruct (@checkerboard_mask_spec h w Hh Hw) as (m & H0 & H1 & _).
  destruct invert; eexists; eassumption.
Qed.

Lemma returns_channel_mask (c_in : Z) (invert : bool) :
  (0 <= c_in)%Z ->
  returns (liftR (create_channel_mask c_in invert)).
Proof.
  intros Hc. apply returns_liftR.
  destruct (@channel_mask_spec c_in Hc) as (m & H0 & H1 & _).
  destruct invert; eexists; eassumption.
Qed.


(** ** Strings and names *)

Lemma string_length_app (a b : string) :
  String.length (a ++ b) = (String.length a + String.length b)%nat.
Proof.
  induction a as [|x a IH]; simpl; [reflexivity | rewrite IH; reflexivity].
Qed.

Lemma string_app_nil_r (a : string) : (a ++ "")%string = a.
Proof.
  induction a as [|x a IH]; simpl; [reflexivity | rewrite IH; reflexivity].
Qed.

Lemma string_app_assoc (a b d : string) :
  ((a ++ b) ++ d)%string = (a ++ (b ++ d))%string.
Proof.
  induction a as [|x a IH]; simpl; [reflexivity | rewrite IH; reflexivity].
Qed.

(** Two strings that end in suffixes of one length agree piecewise. *)
Lemma string_app_inj_suffix (n m s s' : string) :
  String.length s = String.length s' ->
  (n ++ s)%string = (m ++ s')%string -> n = m /\ s = s'.
Proof.
  revert m. induction n as [|a n IH]; intros [|b m] Hl E; simpl in E.
  - split; [reflexivity | exact E].
  - exfalso. apply (f_equal String.length) in E. simpl in E.
    rewrite string_length_app in E. lia.
  - exfalso. apply (f_equal String.length) in E. simpl in E.
    rewrite string_length_app in E. lia.
  - injection E as -> E. destruct (IH m Hl E) as [-> ->]. split; reflexivity.
Qed.

Lemma all_chars_app (p : ascii -> bool) (a b : string) :
  all_chars p (a ++ b) = all_chars p a && all_chars p b.
Proof.
  induction a as [|x a IH]; simpl; [reflexivity|].
  rewrite IH, andb_assoc. reflexivity.
Qed.

Lemma ident_char_not_space (a : ascii) :
  is_ident_char a = true -> Ascii.eqb a " "%char = false.
Proof.
  intros H. destruct (Ascii.eqb_spec a " "%char) as [->|]; [|reflexivity].
  discriminate H.
Qed.

(** A string of name characters is a single word. *)
Lemma words_aux_ident (s cur : string) :
  all_chars is_ident_char s = true ->
  words_aux cur s
  = match (cur ++ s)%string with EmptyString => [] | w => [w] end.
Proof.
  revert cur. induction s as [|a s IH]; intros cur H; simpl in H |- *.
  - rewrite string_app_nil_r. destruct cur; reflexivity.
  - apply andb_prop in H. destruct H as [Ha Hs].
    rewrite (ident_char_not_space _ Ha).
    rewrite IH by exact Hs. rewrite string_app_assoc. reflexivity.
Qed.

Lemma lookup_name_None {A} (k : string) (env : list (string * A)) :
  (forall k', In k' (map fst env) -> k' <> k) -> lookup_name k env = None.
Proof.
  induction env as [|[k' v] env IH]; intros H; simpl; [reflexivity|].
  destruct (String.eqb_spec k k') as [E|_].
  - exfalso. apply (H k'); [left; reflexivity | symmetry; exact E].
  - apply IH. intros k'' Hin. apply H. right. exact Hin.
Qed.

(** [create_<name>_flow] is bound only for the six recipes. *)
Lemma recipe_name_free (n k : string) :
  ~ In n known_recipes ->
  In k ["config"; "torch"; "ImageFlow"; "Dequantization";
        "VariationalDequantization"; "CouplingLayer"; "SqueezeFlow";
        "SplitFlow"; "GatedConvNet"; "GatedLinearNet";
        "create_checkerboard_mask"; "create_channel_mask"; "get_flow_layers";
        "create_simple_flow"; "create_vardeq_flow"; "create_long_flow";
        "create_linear_flow"; "create_partial_conv_flow";
        "create_multiscale_flow"; "create_flow"] ->
  k <> ("create_" ++ n ++ "_flow")%string.
Proof.
  intros Hn Hk E.
  assert (Hrec : forall m, In m known_recipes ->
                 (m ++ "_flow")%string <> (n ++ "_flow")%string).
  { intros m Hm E'. apply string_app_inj_suffix in E'; [|reflexivity].
    destruct E' as [-> _]. contradiction. }
  assert (Hmask : forall m, (m ++ "_mask")%string <> (n ++ "_flow")%string).
  { intros m E'. apply string_app_inj_suffix in E'; [|reflexivity].
    destruct E' as [_ E']. discriminate E'. }
  simpl in Hk.
  repeat (destruct Hk as [<- | Hk]; [try discriminate E|]); try contradiction.
  - injection E as E. exact (Hmask "checkerboard"%string E).
  - injection E as E. exact (Hmask "channel"%string E).
  - injection E as E. apply (Hrec "simple"%string); [simpl; tauto | exact E].
  - injection E as E. apply (Hrec "vardeq"%string); [simpl; tauto | exact E].
  - injection E as E. apply (Hrec "long"%string); [simpl; tauto | exact E].
  - injection E as E. apply (Hrec "linear"%string); [simpl; tauto | exact E].
  - injection E as E. apply (Hrec "partial_conv"%string); [simpl; tauto | exact E].
  - injection E as E. apply (Hrec "multiscale"%string); [simpl; tauto | exact E].
  - injection E as E. apply (f_equal String.length) in E.
    rewrite string_length_app in E. simpl in E. lia.
Qed.

Section RecipeProperties.

Variable Flow : Type.
Variable FlowModel : Type.
Variable CouplingLayer : Network -> Tensor R -> Z -> M Flow.
Variable Dequantization : M Flow.
Variable VariationalDequantization : list Flow -> M Flow.
Variable SqueezeFlow : M Flow.
Variable SplitFlow : Config -> M Flow.
Variable ImageFlow : list Flow -> Config -> M FlowModel.
Variable Module_to : FlowModel -> string -> M FlowModel.
Variable eval_expr : string -> M (pyobj FlowModel).
Variable call_other : string -> Config -> M (FlowModel * AnyTensor).

Notation "'simple_flow'" :=
  (create_simple_flow CouplingLayer Dequantization VariationalDequantization ImageFlow).
Notation "'vardeq_flow'" :=
  (create_vardeq_flow CouplingLayer Dequantization VariationalDequantization ImageFlow).
Notation "'long_flow'" :=
  (create_long_flow CouplingLayer Dequantization VariationalDequantization ImageFlow).
Notation "'linear_flow'" :=
  (create_linear_flow CouplingLayer Dequantization VariationalDequantization ImageFlow).
Notation "'partial_conv_flow'" :=
  (create_partial_conv_flow CouplingLayer Dequantization VariationalDequantization
     ImageFlow).
Notation "'multiscale_flow'" :=
  (create_multiscale_flow CouplingLayer VariationalDequantization SqueezeFlow
     SplitFlow ImageFlow).
Notation "'flow'" :=
  (create_flow CouplingLayer Dequantization VariationalDequantization SqueezeFlow
     SplitFlow ImageFlow Module_to eval_expr call_other).

Notation "'unexpected_partial_conv'" :=
  (TypeError
     "GatedConvNet.__init__() got an unexpected keyword argument 'partial_conv'").

(** With [vardeq=False] the first thing built is [Dequantization()];
    the first coupling layer then calls [GatedConvNet] with
    [partial_conv]. *)
Lemma get_flow_layers_plain_raises (size c num_layers : Z) (pc : bool)
    (st : PyState) :
  (1 <= num_layers)%Z ->
  get_flow_layers CouplingLayer Dequantization VariationalDequantization
    size c false num_layers false pc st
  = match Dequantization st with
    | Ok _ => Raise unexpected_partial_conv
    | Raise e => Raise e
    end.
Proof.
  intros Hn. unfold get_flow_layers. unfold bind at 1. unfold bind at 1.
  destruct (Dequantization st) as [[d st1]|e]; [|reflexivity].
  unfold ret at 1. unfold bind at 1.
  unfold range.
  destruct (Z.to_nat num_layers) as [|n] eqn:E; [lia|].
  reflexivity.
Qed.

(** With [vardeq=True] the very first call is [GatedConvNet] with
    [partial_conv]. *)
Lemma get_flow_layers_vardeq_raises (size c num_layers : Z) (linear pc : bool)
    (st : PyState) :
  get_flow_layers CouplingLayer Dequantization VariationalDequantization
    size c true num_layers linear pc st
  = Raise unexpected_partial_conv.
Proof.
  reflexivity.
Qed.

(** C1, on the code: building the "simple" recipe for [size=28],
    [c=1] does not complete.  Unless [Dequantization()] itself raises,
    [create_simple_flow] raises the [TypeError] of the first
    [GatedConvNet(..., partial_conv=False)] call, and it never returns a
    flow. *)
Theorem create_simple_flow_raises (dev : string) (st : PyState) :
  simple_flow (mkConfig 28 1 "simple" dev) st
  = match Dequantization st with
    | Ok _ => Raise unexpected_partial_conv
    | Raise e => Raise e
    end
  /\ forall r, simple_flow (mkConfig 28 1 "simple" dev) st <> Ok r.
Proof.
  assert (H : simple_flow (mkConfig 28 1 "simple" dev) st
              = match Dequantization st with
                | Ok _ => Raise unexpected_partial_conv
                | Raise e => Raise e
                end).
  { unfold create_simple_flow. unfold bind at 1.
    rewrite get_flow_layers_plain_raises by lia.
    destruct (Dequantization st); reflexivity. }
  split; [exact H|].
  intros r. rewrite H. destruct (Dequantization st); discriminate.
Qed.

(** X18: none of the five recipes that go through [get_flow_layers]
    ever returns, whatever the configuration: each one passes
    [partial_conv] to [GatedConvNet], which has no such parameter, and
    raises the [TypeError] of that call (the "simple" recipe after
    [Dequantization()] has been built, unless that raises first). *)
Theorem plain_recipes_raise (config : Config) (st : PyState) :
  simple_flow config st
  = match Dequantization st with
    | Ok _ => Raise unexpected_partial_conv
    | Raise e => Raise e
    end
  /\ vardeq_flow config st = Raise unexpected_partial_conv
  /\ long_flow config st = Raise unexpected_partial_conv
  /\ linear_flow config st = Raise unexpected_partial_conv
  /\ partial_conv_flow config st = Raise unexpected_partial_conv.
Proof.
  split; [|repeat split; reflexivity].
  unfold create_simple_flow. unfold bind at 1.
  rewrite get_flow_layers_plain_raises by lia.
  destruct (Dequantization st); reflexivity.
Qed.



(** C2: [squeeze_twice] holds exactly when [size % 4 == 0] and
    [size >= 20], so it holds for [size = 28]; and whenever the
    multiscale recipe returns, its [sample_shape_factor] is
    [[1, 8, 0.25, 0.25]] if [squeeze_twice] holds and
    [[1, 2, 0.5, 0.5]] if not. *)
Theorem multiscale_sample_shape_factor (config : Config) (st st' : PyState)
    (model : FlowModel) (factor : AnyTensor) :
  multiscale_flow config st = Ok ((model, factor), st') ->
  (squeeze_twice config = true
   <-> (size config mod 4 = 0 /\ size config >= 20)%Z) /\
  (size config = 28%Z -> squeeze_twice config = true) /\
  factor = if squeeze_twice config
           then FloatTensor (mkTensor [4%nat] [1; 8; 1 / 4; 1 / 4]%R)
           else FloatTensor (mkTensor [4%nat] [1; 2; 1 / 2; 1 / 2]%R).
Proof.
  intros H. split; [|split].
  - unfold squeeze_twice.
    destruct (Z.eqb_spec (size config mod 4) 0);
      destruct (Z.geb_spec (size config) 20); cbn [andb];
      split; intros; try discriminate; try reflexivity; lia.
  - intros E. unfold squeeze_twice. rewrite E. reflexivity.
  - unfold create_multiscale_flow in H.
    do 6 (apply bind_Ok in H; destruct H as (? & ? & _ & H)).
    apply bind_Ok in H. destruct H as ([layers f] & st7 & Hbranch & H).
    apply bind_Ok in H. destruct H as (m & st8 & _ & H).
    apply ret_Ok in H. injection H as -> -> ->.
    destruct (squeeze_twice config).
    + repeat (apply bind_Ok in Hbranch; destruct Hbranch as (? & ? & _ & Hbranch)).
      apply ret_Ok in Hbranch. injection Hbranch as _ -> _. reflexivity.
    + repeat (apply bind_Ok in Hbranch; destruct Hbranch as (? & ? & _ & Hbranch)).
      apply ret_Ok in Hbranch. injection Hbranch as _ -> _. reflexivity.
Qed.

(** The multiscale recipe does return, for sizes and channel counts
    that are not negative, as soon as the constructors of the flow
    transforms and of the composed flow do. *)
Lemma multiscale_flow_returns (config : Config) :
  (forall n m k, returns (CouplingLayer n m k)) ->
  (forall l, returns (VariationalDequantization l)) ->
  returns SqueezeFlow ->
  (forall cfg, returns (SplitFlow cfg)) ->
  (forall l cfg, returns (ImageFlow l cfg)) ->
  (0 <= size config)%Z -> (0 <= c config)%Z ->
  returns (multiscale_flow config).
Proof.
  intros HC HV HSq HSp HI Hs Hc.
  assert (Hcoupling_cb : forall kw ci ch co i,
             GatedConvNet_call kw = GatedConvNet__init__ ci ch co 3 ->
             (0 <= ci)%Z -> (0 <= ch)%Z ->
             returns (network <~ GatedConvNet_call kw ;;
                      mask <~ liftR (create_checkerboard_mask (size config)
                                       (size config) (is_odd i)) ;;
                      CouplingLayer (ConvNet network) mask (1 * c config))).
  { intros kw ci ch co i -> H1 H2.
    apply returns_bind; [apply returns_GatedConvNet__init__; assumption|].
    intros net. apply returns_bind; [apply returns_checkerboard_mask; assumption|].
    intros mask. apply HC. }
  assert (Hcoupling_ch : forall kw ci ch co k i,
             GatedConvNet_call kw = GatedConvNet__init__ ci ch co 3 ->
             (0 <= ci)%Z -> (0 <= ch)%Z -> (0 <= k)%Z ->
             returns (network <~ GatedConvNet_call kw ;;
                      mask <~ liftR (create_channel_mask k (is_odd i)) ;;
                      CouplingLayer (ConvNet network) mask k)).
  { intros kw ci ch co k i -> H1 H2 H3.
    apply returns_bind; [apply returns_GatedConvNet__init__; assumption|].
    intros net. apply returns_bind; [apply returns_channel_mask; assumption|].
    intros mask. apply HC. }
  unfold create_multiscale_flow.
  apply returns_bind.
  { apply returns_comprehension. intros i.
    eapply Hcoupling_cb; [reflexivity | cbn [as_int]; lia | cbn [as_int]; lia]. }
  intros vardeq_layers. apply returns_bind; [apply HV|].
  intros vd. apply returns_bind.
  { apply returns_comprehension. intros i.
    eapply Hcoupling_cb; [reflexivity | cbn [as_int]; lia | cbn [as_int]; lia]. }
  intros ls. apply returns_bind; [apply HSq|].
  intros sq. apply returns_bind.
  { apply returns_for_each. intros i.
    apply returns_bind.
    { apply (@returns_GatedConvNet__init__ (4 * c config) 48 (-1) 3); lia. }
    intros net. apply returns_bind; [apply returns_channel_mask; lia|].
    intros mask. apply returns_bind; [apply HC|].
    intros l. apply returns_ret. }
  intros ls'. apply returns_bind; [apply HSp|].
  intros sp. apply returns_bind.
  { destruct (squeeze_twice config).
    - apply returns_bind; [apply HSq|]. intros sq'.
      apply returns_bind; [|intros; apply returns_ret].
      apply returns_comprehension. intros i.
      eapply Hcoupling_ch; [reflexivity | cbn [as_int]; lia | cbn [as_int]; lia | lia].
    - apply returns_bind; [|intros; apply returns_ret].
      apply returns_comprehension. intros i.
      eapply Hcoupling_ch; [reflexivity | cbn [as_int]; lia | cbn [as_int]; lia | lia]. }
  intros [layers f]. apply returns_bind; [apply HI|].
  intros m. apply returns_ret.
Qed.

(** [eval] of [create_<name>_flow], for a name made of name
    characters that is not a recipe: the lookup fails. *)
Lemma py_eval_unknown_name (n : string) (st : PyState) :
  all_chars is_ident_char n = true ->
  ~ In n known_recipes ->
  py_eval CouplingLayer Dequantization VariationalDequantization SqueezeFlow
    SplitFlow ImageFlow eval_expr ("create_" ++ n ++ "_flow") st
  = Raise (NameError
             ("name '" ++ ("create_" ++ n ++ "_flow") ++ "' is not defined")).
Proof.
  intros Hn Hk. unfold py_eval, words.
  assert (Hall : all_chars is_ident_char ("create_" ++ n ++ "_flow") = true).
  { rewrite !all_chars_app, Hn. reflexivity. }
  rewrite (@words_aux_ident _ EmptyString Hall). cbn [append].
  assert (Hid : is_identifier ("create_" ++ n ++ "_flow") = true).
  { cbn [append] in Hall |- *. cbn [all_chars] in Hall.
    apply andb_prop in Hall. destruct Hall as [_ Hrest].
    unfold is_identifier. cbn [all_chars]. rewrite Hrest. reflexivity. }
  cbn [append] in Hid. rewrite Hid.
  rewrite lookup_name_None; [reflexivity|].
  intros k Hin. apply (@recipe_name_free n k Hk). exact Hin.
Qed.

(** C9, amended: for a [model_name] written with ASCII letters, digits
    and underscores only that is none of the six recipe names,
    [create_flow] raises a [NameError] whose message contains the model
    name.  It is raised by the evaluation of the name
    [create_<model_name>_flow], the first thing [create_flow] does:
    whatever follows that evaluation -- the call of a recipe, the move
    to the device, the [print] -- is not run, and nothing is returned. *)
Theorem create_flow_unknown_name (config : Config) (st : PyState) :
  all_chars is_ident_char (model_name config) = true ->
  ~ In (model_name config) known_recipes ->
  let src := ("create_" ++ model_name config ++ "_flow")%string in
  let msg := ("name '" ++ src ++ "' is not defined")%string in
  py_eval CouplingLayer Dequantization VariationalDequantization SqueezeFlow
    SplitFlow ImageFlow eval_expr src st
  = Raise (NameError msg) /\
  (forall (A : Type) (rest : pyobj FlowModel -> M A),
     (create_flow_func <~
        py_eval CouplingLayer Dequantization VariationalDequantization
          SqueezeFlow SplitFlow ImageFlow eval_expr src ;;
      rest create_flow_func) st
     = Raise (NameError msg)) /\
  flow config st = Raise (NameError msg) /\
  (forall r, flow config st <> Ok r) /\
  exists pre post, msg = (pre ++ model_name config ++ post)%string.
Proof.
  intros Hn Hk src msg.
  pose proof (@py_eval_unknown_name (model_name config) st Hn Hk) as He.
  fold src in He. fold msg in He.
  split; [exact He|].
  split; [intros A rest; unfold bind; rewrite He; reflexivity|].
  assert (Hf : flow config st = Raise (NameError msg)).
  { unfold create_flow. unfold bind at 1. fold src. rewrite He. reflexivity. }
  split; [exact Hf|].
  split; [intros r; rewrite Hf; discriminate|].
  exists "name 'create_"%string, "_flow' is not defined"%string.
  unfold msg, src. cbn [append]. rewrite string_app_assoc. reflexivity.
Qed.

End RecipeProperties.

(** Through the dispatch, the known name ["simple"] reaches
    [create_simple_flow]; its [TypeError] is not a [NameError] and goes
    through the [except] clause unchanged. *)
Example create_flow_simple :
  create_flow kind_CouplingLayer kind_Dequantization
    kind_VariationalDequantization kind_SqueezeFlow kind_SplitFlow
    kind_ImageFlow kind_to no_eval_expr no_call_other
    (mkConfig 28 1 "simple" "cpu") initial_state
  = Raise (TypeError
      "GatedConvNet.__init__() got an unexpected keyword argument 'partial_conv'").
Proof. reflexivity. Qed.

Lemma create_flow_unknown_name_witness :
  py_eval kind_CouplingLayer kind_Dequantization kind_VariationalDequantization
    kind_SqueezeFlow kind_SplitFlow kind_ImageFlow no_eval_expr
    "create_resnet_flow" initial_state
  = Raise (NameError "name 'create_resnet_flow' is not defined") /\
  (forall (A : Type) (rest : pyobj (list FlowKind) -> M A),
     (create_flow_func <~
        py_eval kind_CouplingLayer kind_Dequantization
          kind_VariationalDequantization kind_SqueezeFlow kind_SplitFlow
          kind_ImageFlow no_eval_expr "create_resnet_flow" ;;
      rest create_flow_func) initial_state
     = Raise (NameError "name 'create_resnet_flow' is not defined")) /\
  create_flow kind_CouplingLayer kind_Dequantization
    kind_VariationalDequantization kind_SqueezeFlow kind_SplitFlow
    kind_ImageFlow kind_to no_eval_expr no_call_other
    (mkConfig 28 1 "resnet" "cpu") initial_state
  = Raise (NameError "name 'create_resnet_flow' is not defined") /\
  (forall r,
     create_flow kind_CouplingLayer kind_Dequantization
       kind_VariationalDequantization kind_SqueezeFlow kind_SplitFlow
       kind_ImageFlow kind_to no_eval_expr no_call_other
       (mkConfig 28 1 "resnet" "cpu") initial_state
     <> Ok r) /\
  exists pre post,
    "name 'create_resnet_flow' is not defined" = (pre ++ "resnet" ++ post)%string.
Proof.
  apply (@create_flow_unknown_name _ _ kind_CouplingLayer kind_Dequantization
           kind_VariationalDequantization kind_SqueezeFlow kind_SplitFlow
           kind_ImageFlow kind_to no_eval_expr no_call_other
           (mkConfig 28 1 "resnet" "cpu") initial_state).
  - reflexivity.
  - simpl. intuition discriminate.
Defined.

(** C9, as the specification words it, fails: ["a b"] is not a recipe
    name, and [create_flow] raises a [SyntaxError] for it, not a
    [NameError]. *)
Lemma create_flow_unknown_name_counterexample :
  ~ In "a b" known_recipes /\
  create_flow kind_CouplingLayer kind_Dequantization
    kind_VariationalDequantization kind_SqueezeFlow kind_SplitFlow
    kind_ImageFlow kind_to no_eval_expr no_call_other
    (mkConfig 28 1 "a b" "cpu") initial_state
  = Raise (SyntaxError "invalid syntax") /\
  forall msg,
    create_flow kind_CouplingLayer kind_Dequantization
      kind_VariationalDequantization kind_SqueezeFlow kind_SplitFlow
      kind_ImageFlow kind_to no_eval_expr no_call_other
      (mkConfig 28 1 "a b" "cpu") initial_state
    <> Raise (NameError msg).
Proof.
  split; [simpl; intuition discriminate|].
  split; [reflexivity|].
  intros msg. discriminate.
Qed.

Lemma multiscale_sample_shape_factor_witness :
  exists model factor st',
    create_multiscale_flow kind_CouplingLayer kind_VariationalDequantization
      kind_SqueezeFlow kind_SplitFlow kind_ImageFlow
      (mkConfig 28 1 "multiscale" "cpu") initial_state
    = Ok ((model, factor), st') /\
    factor = FloatTensor (mkTensor [4%nat] [1; 8; 1 / 4; 1 / 4]%R).
Proof.
  destruct (@multiscale_flow_returns _ _ kind_CouplingLayer
              kind_VariationalDequantization kind_SqueezeFlow kind_SplitFlow
              kind_ImageFlow (mkConfig 28 1 "multiscale" "cpu"))
    with (st := initial_state) as (r & st' & H);
    try (intros; apply returns_ret); try (simpl; lia).
  destruct r as [model factor].
  exists model, factor, st'. split; [exact H|].
  apply (multiscale_sample_shape_factor _ _ _ _ _ _ _ H).
Defined.

(** ** nn_layers.py: what the layers compute *)

Lemma nth_row {A} (n r k : nat) (l : list A) (d : A) :
  (k < n)%nat -> nth k (row n r l) d = nth (r * n + k) l d.
Proof.
  intros H. unfold row. rewrite nth_firstn.
  destruct (Nat.ltb_spec k n); [|lia]. apply nth_skipn.
Qed.

(** The rows of a list built row by row are the rows it was built from. *)
Lemma row_flat_map {A B} (g : A -> list B) (l : list A) (m i : nat) (a0 : A) :
  (forall a, In a l -> length (g a) = m) ->
  (i < length l)%nat ->
  row m i (flat_map g l) = g (nth i l a0).
Proof.
  revert i. induction l as [|a l IH]; intros i Hg Hi; simpl in Hi; [lia|].
  assert (Ha : length (g a) = m) by (apply Hg; left; reflexivity).
  unfold row in *. simpl flat_map.
  destruct i as [|i].
  - simpl skipn. rewrite firstn_app, Ha, Nat.sub_diag. simpl firstn at 2.
    rewrite app_nil_r. rewrite <- Ha. apply firstn_all.
  - rewrite skipn_app, Ha.
    rewrite skipn_all2 by (rewrite Ha; simpl; lia).
    replace (S i * m - m)%nat with (i * m)%nat by (simpl; lia).
    simpl app. simpl nth.
    apply IH; [intros b Hb; apply Hg; right; exact Hb | lia].
Qed.

(** X1: the two halves of the channels of [ConcatELU(x)] are
    [F.elu(x)] and [F.elu(-x)], in this order, and the result has twice
    the channels of [x]. *)
Theorem ConcatELU_halves (x : Tensor f32) (n ch : nat) (rest : list nat) :
  has_shape x (n :: ch :: rest) ->
  exists y,
    ConcatELU_forward x = Ok y /\
    has_shape y (n :: (2 * ch)%nat :: rest) /\
    chunk2_dim1 y = Ok (tmap elu x, tmap elu (tmap fopp x)).
Proof.
  intros Hx.
  destruct (ConcatELU_shape Hx) as (y & Hy & Hys).
  exists y. split; [exact Hy|]. split; [exact Hys|].
  unfold ConcatELU_forward, cat_dim1 in Hy.
  destruct Hx as [Hs Hl]. cbn [tmap shape data] in Hy. rewrite Hs in Hy.
  destruct (shape_eq_dec (n :: rest) (n :: rest)) as [_|Hne]; [|contradiction].
  injection Hy as <-.
  set (k := numel rest) in *.
  set (a := map elu (data x)).
  set (b := map elu (map fopp (data x))).
  assert (La : length a = (n * (ch * k))%nat)
    by (unfold a; rewrite length_map, Hl; reflexivity).
  assert (Lb : length b = (n * (ch * k))%nat)
    by (unfold b; rewrite !length_map, Hl; reflexivity).
  unfold chunk2_dim1. cbn [shape data]. fold k.
  destruct (Nat.eq_dec (ch + ch) 1) as [Hbad|_]; [lia|].
  assert (H1 : ((ch + ch + 1) / 2 = ch)%nat).
  { symmetry. apply Nat.div_unique with (r := 1%nat); lia. }
  rewrite H1. replace (ch + ch - ch)%nat with ch by lia.
  assert (Hrow : forall i, In i (seq 0 n) ->
             row ((ch + ch) * k) i
               (flat_map (fun i => row (ch * k) i a ++ row (ch * k) i b) (seq 0 n))
             = row (ch * k) i a ++ row (ch * k) i b).
  { intros i Hi. apply in_seq in Hi.
    rewrite row_flat_map with (a0 := 0%nat).
    - rewrite seq_nth by lia. reflexivity.
    - intros j Hj. apply in_seq in Hj.
      rewrite length_app, !length_row by nia. lia.
    - rewrite length_seq. lia. }
  f_equal. f_equal.
  - unfold tmap. cbn [shape data]. rewrite Hs. f_equal.
    rewrite flat_map_ext_in with (g := fun i => row (ch * k) i a).
    + apply flat_map_rows_id. exact La.
    + intros i Hi. rewrite (Hrow i Hi).
      rewrite firstn_app, length_row by (apply in_seq in Hi; nia).
      rewrite Nat.sub_diag. simpl firstn at 2. rewrite app_nil_r.
      apply firstn_all2. rewrite length_row by (apply in_seq in Hi; nia). lia.
  - unfold tmap. cbn [shape data]. rewrite Hs. f_equal.
    rewrite flat_map_ext_in with (g := fun i => row (ch * k) i b).
    + apply flat_map_rows_id. exact Lb.
    + intros i Hi. rewrite (Hrow i Hi).
      rewrite skipn_app, length_row by (apply in_seq in Hi; nia).
      rewrite Nat.sub_diag. simpl skipn at 2.
      rewrite skipn_all2 by (rewrite length_row by (apply in_seq in Hi; nia); lia).
      reflexivity.
Qed.

Lemma ConcatELU_halves_witness :
  exists y,
    ConcatELU_forward (mkTensor [1; 2; 1; 1]%nat [Fin 3; Fin (-4)]) = Ok y /\
    has_shape y [1; 4; 1; 1]%nat /\
    chunk2_dim1 y
    = Ok (tmap elu (mkTensor [1; 2; 1; 1]%nat [Fin 3; Fin (-4)]),
          tmap elu (tmap fopp (mkTensor [1; 2; 1; 1]%nat [Fin 3; Fin (-4)]))).
Proof.
  apply (@ConcatELU_halves (mkTensor [1; 2; 1; 1]%nat [Fin 3; Fin (-4)]) 1 2 [1; 1]%nat).
  split; reflexivity.
Defined.

Lemma layer_norm_data (m : LayerNorm) (x : Tensor f32) (pre : list nat) :
  shape x = pre ++ [normalized_shape m] ->
  layer_norm m x
  = Ok (mkTensor (shape x)
          (flat_map (fun r => layer_norm_row m (row (normalized_shape m) r (data x)))
                    (seq 0 (numel pre)))).
Proof.
  intros Hs. unfold layer_norm. rewrite Hs, rev_app_distr. simpl rev.
  simpl app. cbv iota beta. rewrite Nat.eqb_refl. cbn [negb].
  rewrite rev_involutive. reflexivity.
Qed.

(** X2: [LayerNormChannels] keeps the shape [[b, C, h, w]] and
    normalizes, at every pixel [(n, i, j)], the vector of the [C] channel
    values of that pixel: entry [(n, c, i, j)] of the result is entry
    [c] of the layer norm of [(x[n,0,i,j], ..., x[n,C-1,i,j])]. *)
Theorem LayerNormChannels_per_pixel (m : LayerNormChannels) (x : Tensor f32)
    (b C h w : nat) :
  normalized_shape (lnc_layer_norm m) = C ->
  has_shape x [b; C; h; w] ->
  exists y,
    LayerNormChannels_forward m x = Ok y /\
    has_shape y [b; C; h; w] /\
    forall n c i j, (n < b)%nat -> (c < C)%nat -> (i < h)%nat -> (j < w)%nat ->
      tget (Fin 0) y [n; c; i; j]
      = nth c (layer_norm_row (lnc_layer_norm m)
                 (map (fun k => tget (Fin 0) x [n; k; i; j]) (seq 0 C))) (Fin 0).
Proof.
  intros Hn [Hs Hl]. unfold LayerNormChannels_forward.
  unfold permute at 1. rewrite Hs.
  destruct (Nat.eq_dec _ _) as [_|Hne]; [|exfalso; apply Hne; reflexivity].
  cbn [rbind map nth length seq index_of Nat.eqb].
  set (f1 := fun idx : list nat =>
               tget (Fin 0) x [nth 0 idx 0%nat; nth 3 idx 0%nat;
                           nth 1 idx 0%nat; nth 2 idx 0%nat]).
  set (y1 := mkTensor [b; h; w; C] (tab [b; h; w; C] f1)).
  assert (Hy1 : has_shape y1 [b; h; w; C])
    by (split; [reflexivity | apply length_tab]).
  rewrite (@layer_norm_data (lnc_layer_norm m) y1 [b; h; w])
    by (rewrite Hn; reflexivity).
  cbn [rbind]. unfold permute. cbn [shape]. unfold y1 at 1. cbn [shape].
  destruct (Nat.eq_dec _ _) as [_|Hne]; [|exfalso; apply Hne; reflexivity].
  cbn [rbind map nth length seq index_of Nat.eqb app].
  eexists. split; [reflexivity|].
  split; [split; [reflexivity | apply length_tab]|].
  intros n c i j Hnb Hc Hi Hj.
  unfold tget at 1. cbn [shape data].
  rewrite nth_tab by (repeat constructor; assumption).
  cbn [nth].
  unfold tget at 1. cbn [shape data]. unfold y1 at 1. cbn [shape data].
  rewrite Hn.
  set (r := ((n * h + i) * w + j)%nat).
  assert (Hoff : offset [b; h; w; C] [n; i; j; c] 0 = (r * C + c)%nat)
    by (unfold r; simpl; lia).
  assert (Hr0 : (n * h + i < b * h)%nat) by nia.
  assert (Hr : (r < b * h * w)%nat) by (unfold r; nia).
  assert (Hnum : numel [b; h; w] = (b * h * w)%nat) by (simpl; lia).
  rewrite Hoff, Hnum.
  assert (Ld : length (data y1) = (b * h * w * C)%nat)
    by (unfold y1; cbn [data]; rewrite length_tab; simpl; lia).
  rewrite nth_flat_map_rows with (a0 := 0%nat).
  - rewrite seq_nth by exact Hr. cbn [Nat.add].
    f_equal. f_equal.
    (* the row of a pixel is its channel vector *)
    apply nth_ext with (d := (Fin 0)) (d' := (Fin 0)).
    + rewrite length_row, length_map, length_seq by (rewrite Ld; nia).
      reflexivity.
    + intros k Hk. rewrite length_row in Hk by (rewrite Ld; nia).
      rewrite nth_row by exact Hk.
      rewrite nth_map_in with (d' := 0%nat) by (rewrite length_seq; exact Hk).
      rewrite seq_nth by exact Hk. cbn [Nat.add].
      replace (r * C + k)%nat with (offset [b; h; w; C] [n; i; j; k] 0)
        by (unfold r; simpl; lia).
      unfold y1. cbn [data].
      rewrite nth_tab by (repeat constructor; assumption).
      reflexivity.
  - intros q Hq. apply in_seq in Hq.
    rewrite length_layer_norm_row. apply length_row. rewrite Ld. nia.
  - rewrite length_seq. exact Hr.
  - exact Hc.
Qed.

Lemma LayerNormChannels_per_pixel_witness :
  exists y,
    LayerNormChannels_forward
      (mkLayerNormChannels
         (mkLayerNorm 2 (1 / 100000) (mkTensor [2%nat] [Fin 1; Fin 1])
            (mkTensor [2%nat] [Fin 0; Fin 0])))
      (mkTensor [1; 2; 1; 1]%nat [Fin 3; Fin 5]) = Ok y /\
    has_shape y [1; 2; 1; 1]%nat /\
    forall n c i j, (n < 1)%nat -> (c < 2)%nat -> (i < 1)%nat -> (j < 1)%nat ->
      tget (Fin 0) y [n; c; i; j]
      = nth c (layer_norm_row
                 (mkLayerNorm 2 (1 / 100000) (mkTensor [2%nat] [Fin 1; Fin 1])
                    (mkTensor [2%nat] [Fin 0; Fin 0]))
                 (map (fun k => tget (Fin 0) (mkTensor [1; 2; 1; 1]%nat [Fin 3; Fin 5])
                                  [n; k; i; j])
                      (seq 0 2))) (Fin 0).
Proof.
  apply (@LayerNormChannels_per_pixel
           (mkLayerNormChannels
              (mkLayerNorm 2 (1 / 100000) (mkTensor [2%nat] [Fin 1; Fin 1])
                 (mkTensor [2%nat] [Fin 0; Fin 0])))
           (mkTensor [1; 2; 1; 1]%nat [Fin 3; Fin 5]) 1 2 1 1).
  - reflexivity.
  - split; reflexivity.
Defined.

(** *** Which inputs the networks accept *)

Lemma conv2d_Ok_inv (m : Conv2d) (x y : Tensor f32) :
  conv2d m x = Ok y ->
  exists b h w,
    shape x = [b; in_channels m; h; w] /\
    (kernel_size m <= h + 2 * padding m)%nat /\
    (kernel_size m <= w + 2 * padding m)%nat /\
    (1 <= in_channels m)%nat /\ (1 <= out_channels m)%nat.
Proof.
  unfold conv2d. intros H.
  destruct (shape x) as [|b [|c [|h [|w [|? ?]]]]]; try discriminate.
  destruct (Nat.eqb_spec (out_channels m) 0); [discriminate|].
  destruct (Nat.eqb_spec c (in_channels m)) as [->|]; [|discriminate].
  cbn [negb] in H.
  destruct (Nat.ltb_spec (h + 2 * padding m) (kernel_size m)); [discriminate|].
  destruct (Nat.ltb_spec (w + 2 * padding m) (kernel_size m)); [discriminate|].
  cbn [orb] in H.
  destruct (Nat.eqb_spec (in_channels m) 0); [discriminate|].
  exists b, h, w. repeat split; try assumption; lia.
Qed.

Lemma conv2d_raises_RuntimeError (m : Conv2d) (x : Tensor f32) (e : exn) :
  conv2d m x = Raise e -> exists msg, e = RuntimeError msg.
Proof.
  unfold conv2d. intros H.
  destruct (shape x) as [|b [|c [|h [|w [|? ?]]]]];
    try (injection H as <-; eexists; reflexivity).
  destruct (out_channels m =? 0)%nat; [injection H as <-; eexists; reflexivity|].
  destruct (negb _); [injection H as <-; eexists; reflexivity|].
  destruct (_ || _); [injection H as <-; eexists; reflexivity|].
  destruct (c =? 0)%nat; [injection H as <-; eexists; reflexivity | discriminate].
Qed.

Lemma linear_Ok_inv (m : Linear) (x y : Tensor f32) :
  linear m x = Ok y -> exists pre, shape x = pre ++ [in_features m].
Proof.
  unfold linear. intros H.
  destruct (rev (shape x)) as [|n rpre] eqn:E; [discriminate|].
  destruct (Nat.eqb_spec n (in_features m)) as [->|]; [|discriminate].
  exists (rev rpre). rewrite <- (rev_involutive (shape x)), E. reflexivity.
Qed.

Lemma linear_raises_RuntimeError (m : Linear) (x : Tensor f32) (e : exn) :
  linear m x = Raise e -> exists msg, e = RuntimeError msg.
Proof.
  unfold linear. intros H.
  destruct (rev (shape x)) as [|n rpre];
    [injection H as <-; eexists; reflexivity|].
  destruct (negb _); [injection H as <-; eexists; reflexivity | discriminate].
Qed.

Lemma nn_Conv2d_Ok_inv (c_in c_out : Z) (k p : nat) (st st' : PyState) (m : Conv2d) :
  nn_Conv2d c_in c_out k p st = Ok (m, st') ->
  (0 <= c_in)%Z /\ (0 <= c_out)%Z /\
  in_channels m = Z.to_nat c_in /\ out_channels m = Z.to_nat c_out /\
  kernel_size m = k /\ padding m = p.
Proof.
  unfold nn_Conv2d. intros H.
  destruct (Z.ltb_spec c_in 0); [discriminate|].
  destruct (Z.ltb_spec c_out 0); [discriminate|].
  cbn [orb] in H. unfold bind, fresh, ret in H. injection H as <- _.
  repeat split; assumption.
Qed.

Lemma nn_Linear_Ok_inv (i o : Z) (st st' : PyState) (m : Linear) :
  nn_Linear i o st = Ok (m, st') ->
  (0 <= i)%Z /\ (0 <= o)%Z /\
  in_features m = Z.to_nat i /\ out_features m = Z.to_nat o.
Proof.
  unfold nn_Linear. intros H.
  destruct (Z.ltb_spec i 0); [discriminate|].
  destruct (Z.ltb_spec o 0); [discriminate|].
  cbn [orb] in H. unfold bind, fresh, ret in H. injection H as <- _.
  repeat split; assumption.
Qed.

Lemma liftR_Ok {A} (r : result A) (st : PyState) (a : A) (st' : PyState) :
  liftR r st = Ok (a, st') -> r = Ok a /\ st' = st.
Proof.
  unfold liftR. destruct r; intros H; [|discriminate].
  injection H as -> ->. split; reflexivity.
Qed.

Lemma update_last_head {A} (f : A -> result A) (a : A) (l l' : list A) :
  l <> [] -> update_last f (a :: l) = Ok l' ->
  exists t, l' = a :: t /\ t <> [].
Proof.
  intros Hne. destruct (exists_last Hne) as (l0 & x & ->).
  change (a :: l0 ++ [x]) with ((a :: l0) ++ [x]).
  rewrite update_last_snoc. destruct (f x) as [y|e]; [|discriminate].
  cbn [rbind]. intros H. injection H as <-. exists (l0 ++ [y]).
  split; [reflexivity|]. intros E. apply app_eq_nil in E.
  destruct E as [_ E]. discriminate E.
Qed.

(** A network that was built starts with a 3x3 convolution, padding 1,
    on [c_in] channels; the sizes given to the constructor were not
    negative. *)
Lemma GatedConvNet__init__first (c_in c_hidden c_out num_layers : Z)
    (st st' : PyState) (net : GatedConvNet) :
  GatedConvNet__init__ c_in c_hidden c_out num_layers st = Ok (net, st') ->
  (0 <= c_in)%Z /\ (0 <= c_hidden)%Z /\
  exists first rest,
    gcn_nn net = LeafL (Conv2dL first) :: rest /\
    in_channels first = Z.to_nat c_in /\
    kernel_size first = 3%nat /\ padding first = 1%nat.
Proof.
  unfold GatedConvNet__init__. intros H.
  apply bind_Ok in H. destruct H as (first & st1 & Hf & H).
  apply nn_Conv2d_Ok_inv in Hf. destruct Hf as (Hc & Hh & A & _ & K & P).
  apply bind_Ok in H. destruct H as (blocks & st2 & _ & H).
  apply bind_Ok in H. destruct H as (final & st3 & _ & H).
  apply bind_Ok in H. destruct H as (l1 & st4 & H1 & H).
  apply bind_Ok in H. destruct H as (l2 & st5 & H2 & H).
  apply ret_Ok in H. injection H as -> _.
  apply liftR_Ok in H1. destruct H1 as [H1 _].
  apply liftR_Ok in H2. destruct H2 as [H2 _].
  cbn [app] in H1.
  apply update_last_head in H1;
    [|intros E; apply app_eq_nil in E; destruct E as [_ E]; discriminate E].
  destruct H1 as (t1 & -> & Ht1).
  apply update_last_head in H2; [|exact Ht1].
  destruct H2 as (t2 & -> & _).
  split; [exact Hc|]. split; [exact Hh|].
  exists first, t2. cbn [gcn_nn]. repeat split; assumption.
Qed.

Lemma GatedLinearNet__init__first (f num_layers : Z)
    (st st' : PyState) (net : GatedLinearNet) :
  GatedLinearNet__init__ f num_layers st = Ok (net, st') ->
  (0 <= f)%Z /\
  exists first rest,
    gln_nn net = LeafL (LinearL first) :: rest /\
    in_features first = Z.to_nat f.
Proof.
  unfold GatedLinearNet__init__. intros H.
  apply bind_Ok in H. destruct H as (first & st1 & Hf & H).
  apply nn_Linear_Ok_inv in Hf. destruct Hf as (Hc & _ & A & _).
  apply bind_Ok in H. destruct H as (blocks & st2 & _ & H).
  apply bind_Ok in H. destruct H as (final & st3 & _ & H).
  apply bind_Ok in H. destruct H as (l1 & st4 & H1 & H).
  apply bind_Ok in H. destruct H as (l2 & st5 & H2 & H).
  apply ret_Ok in H. injection H as -> _.
  apply liftR_Ok in H1. destruct H1 as [H1 _].
  apply liftR_Ok in H2. destruct H2 as [H2 _].
  cbn [app] in H1.
  apply update_last_head in H1;
    [|intros E; apply app_eq_nil in E; destruct E as [_ E]; discriminate E].
  destruct H1 as (t1 & -> & Ht1).
  apply update_last_head in H2; [|exact Ht1].
  destruct H2 as (t2 & -> & _).
  split; [exact Hc|].
  exists first, t2. cbn [gln_nn]. split; [reflexivity | exact A].
Qed.

(** X3: a [GatedConvNet] that was built with at least one input
    channel and one hidden channel accepts exactly the inputs of shape
    [[b, c_in, h, w]] with [h, w >= 1]: on those it returns a tensor; on
    any other input the forward pass raises, and what it raises is a
    [RuntimeError]. *)
Theorem GatedConvNet_forward_accepts (c_in c_hidden c_out num_layers : Z)
    (st st' : PyState) (net : GatedConvNet) (x : Tensor f32) :
  GatedConvNet__init__ c_in c_hidden c_out num_layers st = Ok (net, st') ->
  (1 <= c_in)%Z -> (1 <= c_hidden)%Z ->
  wf x ->
  ((exists y, GatedConvNet_forward net x = Ok y)
   <-> (exists b h w, shape x = [b; Z.to_nat c_in; h; w]
                      /\ (1 <= h)%nat /\ (1 <= w)%nat)) /\
  (forall e, GatedConvNet_forward net x = Raise e -> exists msg, e = RuntimeError msg).
Proof.
  intros Hinit Hc Hh Hwf.
  destruct (GatedConvNet__init__first _ _ _ _ _ Hinit)
    as (_ & _ & first & rest & Hnn & A & K & P).
  assert (Hacc : forall b h w,
             shape x = [b; Z.to_nat c_in; h; w] -> (1 <= h)%nat -> (1 <= w)%nat ->
             exists y, GatedConvNet_forward net x = Ok y).
  { intros b h w Hs H1 H2.
    destruct (@GatedConvNet_fresh c_in c_hidden c_out num_layers st Hc Hh)
      as (net0 & st0 & prefix & final & Hinit0 & _ & _ & _ & Hfw).
    rewrite Hinit in Hinit0. injection Hinit0 as <- _.
    destruct (Hfw x b h w) as (a & y & _ & _ & Hy & _); [|assumption|assumption|].
    { split; [exact Hs|]. rewrite <- Hs. exact Hwf. }
    exists y. exact Hy. }
  unfold GatedConvNet_forward in *. rewrite Hnn in *.
  cbn [Sequential_forward Layer_forward Leaf_forward] in *.
  split; [split|].
  - intros [y Hy].
    destruct (conv2d first x) as [z|e] eqn:E; [|discriminate Hy].
    apply conv2d_Ok_inv in E. destruct E as (b & h & w & Hs & H1 & H2 & _).
    exists b, h, w. rewrite <- A. split; [exact Hs | lia].
  - intros (b & h & w & Hs & H1 & H2). apply (Hacc b h w); assumption.
  - intros e He.
    destruct (conv2d first x) as [z|e'] eqn:E.
    + exfalso. apply conv2d_Ok_inv in E.
      destruct E as (b & h & w & Hs & H1 & H2 & _).
      rewrite A in Hs.
      destruct (Hacc b h w Hs) as [y Hy]; [lia | lia |].
      rewrite ?E in Hy, He. cbn [rbind] in Hy, He. congruence.
    + rewrite ?E in He. cbn [rbind] in He. injection He as <-.
      apply (conv2d_raises_RuntimeError _ _ E).
Qed.

Lemma GatedConvNet_forward_accepts_witness :
  exists net st',
    GatedConvNet__init__ 1 32 (-1) 3 initial_state = Ok (net, st') /\
    ((exists y, GatedConvNet_forward net (mkTensor [1; 2; 1; 1]%nat [Fin 3; Fin 5]) = Ok y)
     <-> (exists b h w, [1; 2; 1; 1]%nat = [b; 1%nat; h; w]
                        /\ (1 <= h)%nat /\ (1 <= w)%nat)) /\
    (forall e, GatedConvNet_forward net (mkTensor [1; 2; 1; 1]%nat [Fin 3; Fin 5]) = Raise e ->
               exists msg, e = RuntimeError msg).
Proof.
  destruct (@GatedConvNet_fresh 1 32 (-1) 3 initial_state)
    as (net & st' & prefix & final & Hinit & _); try lia.
  exists net, st'. split; [exact Hinit|].
  apply (@GatedConvNet_forward_accepts 1 32 (-1) 3 initial_state st' net
           (mkTensor [1; 2; 1; 1]%nat [Fin 3; Fin 5]) Hinit); try lia.
  reflexivity.
Defined.

(** X4: [GatedLinearNet.forward] unpacks four sizes: an input that is
    not four-dimensional raises [ValueError]; a four-dimensional input
    is accepted exactly when [c * h * w = in_features], and is otherwise
    refused by the first linear layer with a [RuntimeError]. *)
Theorem GatedLinearNet_forward_accepts (in_features num_layers : Z)
    (st st' : PyState) (net : GatedLinearNet) (x : Tensor f32) :
  GatedLinearNet__init__ in_features num_layers st = Ok (net, st') ->
  wf x ->
  (length (shape x) <> 4%nat ->
   exists msg, GatedLinearNet_forward net x = Raise (ValueError msg)) /\
  (forall b c h w, shape x = [b; c; h; w] ->
     if Nat.eq_dec (c * h * w) (Z.to_nat in_features)
     then exists y, GatedLinearNet_forward net x = Ok y
     else exists msg, GatedLinearNet_forward net x = Raise (RuntimeError msg)).
Proof.
  intros Hinit Hwf.
  destruct (GatedLinearNet__init__first _ _ _ Hinit)
    as (Hf & first & rest & Hnn & A).
  split.
  - intros Hlen. unfold GatedLinearNet_forward.
    remember (shape x) as s eqn:Es.
    destruct s as [|b [|c [|h [|w [|? ?]]]]]; try (eexists; reflexivity).
    exfalso. apply Hlen. reflexivity.
  - intros b c h w Hs.
    destruct (Nat.eq_dec (c * h * w) (Z.to_nat in_features)) as [E|E].
    + destruct (@GatedLinearNet_fresh in_features num_layers st Hf)
        as (net0 & st0 & prefix & final & Hinit0 & _ & _ & _ & Hfw).
      rewrite Hinit in Hinit0. injection Hinit0 as <- _.
      destruct (Hfw x b c h w) as (x1 & a & y & _ & _ & _ & Hy & _); [|exact E|].
      { split; [exact Hs|]. rewrite <- Hs. exact Hwf. }
      exists y. exact Hy.
    + unfold GatedLinearNet_forward. rewrite Hs, Hnn.
      unfold flatten1. rewrite Hs. cbn [rbind].
      cbn [Sequential_forward Layer_forward Leaf_forward].
      destruct (linear first _) as [z|e] eqn:El.
      * exfalso. apply linear_Ok_inv in El. destruct El as [pre Hpre].
        cbn [shape] in Hpre.
        destruct pre as [|p0 [|p1 pre]]; try discriminate Hpre.
        -- injection Hpre as _ Hn. apply E. rewrite <- A, <- Hn. simpl. lia.
        -- destruct pre; discriminate Hpre.
      * cbn [rbind]. destruct (linear_raises_RuntimeError _ _ El) as [msg ->].
        exists msg. reflexivity.
Qed.

Lemma GatedLinearNet_forward_accepts_witness :
  exists net st',
    GatedLinearNet__init__ 4 3 initial_state = Ok (net, st') /\
    (length [1; 1; 2; 2]%nat <> 4%nat ->
     exists msg,
       GatedLinearNet_forward net (mkTensor [1; 1; 2; 2]%nat [Fin 1; Fin 2; Fin 3; Fin 4])
       = Raise (ValueError msg)) /\
    (forall b c h w, [1; 1; 2; 2]%nat = [b; c; h; w] ->
       if Nat.eq_dec (c * h * w) 4
       then exists y,
           GatedLinearNet_forward net (mkTensor [1; 1; 2; 2]%nat [Fin 1; Fin 2; Fin 3; Fin 4]) = Ok y
       else exists msg,
           GatedLinearNet_forward net (mkTensor [1; 1; 2; 2]%nat [Fin 1; Fin 2; Fin 3; Fin 4])
           = Raise (RuntimeError msg)).
Proof.
  destruct (@GatedLinearNet_fresh 4 3 initial_state)
    as (net & st' & prefix & final & Hinit & _); try lia.
  exists net, st'. split; [exact Hinit|].
  apply (@GatedLinearNet_forward_accepts 4 3 initial_state st' net
           (mkTensor [1; 1; 2; 2]%nat [Fin 1; Fin 2; Fin 3; Fin 4]) Hinit).
  reflexivity.
Defined.

(** ** network.py: the layer builder and the dispatch *)


Lemma comprehension_length {A B} (f : A -> M B) (l : list A)
    (st st' : PyState) (bs : list B) :
  comprehension f l st = Ok (bs, st') -> length bs = length l.
Proof.
  revert st st' bs. induction l as [|a l IH]; intros st st' bs H; simpl in H.
  - apply ret_Ok in H. injection H as -> _. reflexivity.
  - apply bind_Ok in H. destruct H as (b & s1 & _ & H).
    apply bind_Ok in H. destruct H as (zs & s2 & Hz & H).
    apply ret_Ok in H. injection H as -> _.
    simpl. rewrite (IH _ _ _ Hz). reflexivity.
Qed.

Section LayerBuilder.

Variable Flow : Type.
Variable CouplingLayer : Network -> Tensor R -> Z -> M Flow.
Variable Dequantization : M Flow.
Variable VariationalDequantization : list Flow -> M Flow.


End LayerBuilder.


Section Dispatch.

Variable Flow : Type.
Variable FlowModel : Type.
Variable CouplingLayer : Network -> Tensor R -> Z -> M Flow.
Variable Dequantization : M Flow.
Variable VariationalDequantization : list Flow -> M Flow.
Variable SqueezeFlow : M Flow.
Variable SplitFlow : Config -> M Flow.
Variable ImageFlow : list Flow -> Config -> M FlowModel.
Variable Module_to : FlowModel -> string -> M FlowModel.
Variable eval_expr : string -> M (pyobj FlowModel).
Variable call_other : string -> Config -> M (FlowModel * AnyTensor).

Ltac dispatch_to f :=
  exists f; split; [reflexivity|];
  unfold create_flow; unfold bind at 1; cbn [model_name device];
  match goal with
  | |- context [py_eval ?a ?b ?c ?d ?e ?g ?h ?s ?st] =>
      change (py_eval a b c d e g h s st) with (Ok (Recipe f, st))
  end;
  unfold bind, try_except_NameError, call, print, ret;
  match goal with
  | |- context [f ?cfg ?st] => destruct (f cfg st) as [[[net fac] st1]|[]]
  end;
  try reflexivity;
  match goal with
  | |- context [Module_to ?n ?d ?s] => destruct (Module_to n d s) as [[net' st2]|]
  end;
  reflexivity.

(** X6: for each of the six recipe names [create_flow] calls the recipe
    bound to [create_<name>_flow].  A [NameError] raised inside the
    recipe is raised again as [NameError("Unknown model: <name>")]; any
    other exception of the recipe, and any exception of the move to the
    device, goes through unchanged; when the recipe and the move
    return, one line is printed after them and the recipe's
    [sample_shape_factor] is returned as it is. *)
Theorem create_flow_known_name (config : Config) (st : PyState) :
  In (model_name config) known_recipes ->
  exists f,
    lookup_name ("create_" ++ model_name config ++ "_flow")
      (namespace CouplingLayer Dequantization VariationalDequantization
         SqueezeFlow SplitFlow ImageFlow)
    = Some (Recipe f) /\
    create_flow CouplingLayer Dequantization VariationalDequantization SqueezeFlow
      SplitFlow ImageFlow Module_to eval_expr call_other config st
    = match f config st with
      | Ok ((net, sample_shape_factor), st1) =>
          match Module_to net (device config) st1 with
          | Ok (net', st2) =>
              Ok ((net', sample_shape_factor),
                  mkPyState (gen st2)
                    (stdout st2
                     ++ [("Done Creating Network! (model: "
                          ++ model_name config ++ ")")%string]))
          | Raise e => Raise e
          end
      | Raise (NameError _) =>
          Raise (NameError ("Unknown model: " ++ model_name config))
      | Raise e => Raise e
      end.
Proof.
  intros Hin. destruct config as [sz ch name dev]. cbn [model_name] in Hin.
  cbn [model_name device].
  destruct Hin as [<-|[<-|[<-|[<-|[<-|[<-|[]]]]]]].
  - dispatch_to (create_simple_flow CouplingLayer Dequantization
                   VariationalDequantization ImageFlow).
  - dispatch_to (create_vardeq_flow CouplingLayer Dequantization
                   VariationalDequantization ImageFlow).
  - dispatch_to (create_long_flow CouplingLayer Dequantization
                   VariationalDequantization ImageFlow).
  - dispatch_to (create_linear_flow CouplingLayer Dequantization
                   VariationalDequantization ImageFlow).
  - dispatch_to (create_partial_conv_flow CouplingLayer Dequantization
                   VariationalDequantization ImageFlow).
  - dispatch_to (create_multiscale_flow CouplingLayer VariationalDequantization
                   SqueezeFlow SplitFlow ImageFlow).
Qed.

End Dispatch.

Lemma create_flow_known_name_witness :
  exists f,
    lookup_name "create_multiscale_flow"
      (namespace kind_CouplingLayer kind_Dequantization
         kind_VariationalDequantization kind_SqueezeFlow kind_SplitFlow
         kind_ImageFlow)
    = Some (Recipe f) /\
    create_flow kind_CouplingLayer kind_Dequantization
      kind_VariationalDequantization kind_SqueezeFlow kind_SplitFlow
      kind_ImageFlow kind_to no_eval_expr no_call_other
      (mkConfig 28 1 "multiscale" "cpu") initial_state
    = match f (mkConfig 28 1 "multiscale" "cpu") initial_state with
      | Ok ((net, sample_shape_factor), st1) =>
          match kind_to net "cpu" st1 with
          | Ok (net', st2) =>
              Ok ((net', sample_shape_factor),
                  mkPyState (gen st2)
                    (stdout st2 ++ ["Done Creating Network! (model: multiscale)"]))
          | Raise e => Raise e
          end
      | Raise (NameError _) => Raise (NameError "Unknown model: multiscale")
      | Raise e => Raise e
      end.
Proof.
  apply (@create_flow_known_name _ _ kind_CouplingLayer kind_Dequantization
           kind_VariationalDequantization kind_SqueezeFlow kind_SplitFlow
           kind_ImageFlow kind_to no_eval_expr no_call_other
           (mkConfig 28 1 "multiscale" "cpu") initial_state).
  simpl. tauto.
Defined.

(** *** The transforms of the multiscale recipe *)

Lemma returns_with_ret {A} (P : A -> Prop) (a : A) :
  P a -> returns_with P (ret a).
Proof.
  intros H st. exists a, st. split; [reflexivity | exact H].
Qed.

Lemma returns_with_bind {A B} (Q : A -> Prop) (P : B -> Prop)
    (m : M A) (k : A -> M B) :
  returns_with Q m -> (forall a, Q a -> returns_with P (k a)) ->
  returns_with P (bind m k).
Proof.
  intros Hm Hk st. unfold bind.
  destruct (Hm st) as (a & st1 & -> & Ha). apply (Hk a Ha).
Qed.

Lemma returns_with_liftR {A} (r : result A) (a : A) :
  r = Ok a -> returns_with (eq a) (liftR r).
Proof.
  intros -> st. exists a, st. split; reflexivity.
Qed.

Lemma returns_with_True {A} (m : M A) :
  returns m -> returns_with (fun _ => True) m.
Proof.
  intros H st. destruct (H st) as (a & st' & Ha). exists a, st'. auto.
Qed.

(** One coupling layer of the recipe, with the stand-in that remembers
    its arguments. *)
Lemma traced_coupling (kw : kwargs) (ci ch co k : Z) (r : result (Tensor R))
    (mask : Tensor R) :
  GatedConvNet_call kw = GatedConvNet__init__ ci ch co 3 ->
  (0 <= ci)%Z -> (0 <= ch)%Z ->
  r = Ok mask ->
  returns_with (eq (TCoupling false mask k))
    (network <~ GatedConvNet_call kw ;;
     mask <~ liftR r ;;
     traced_CouplingLayer (ConvNet network) mask k).
Proof.
  intros -> H1 H2 Hr.
  eapply returns_with_bind.
  { apply returns_with_True. apply returns_GatedConvNet__init__; assumption. }
  intros net _. eapply returns_with_bind.
  { apply returns_with_liftR. exact Hr. }
  intros m <-. apply returns_with_ret. reflexivity.
Qed.

Lemma returns_with_ret_eq {A} (a : A) : returns_with (eq a) (ret a).
Proof.
  apply returns_with_ret. reflexivity.
Qed.

Lemma returns_with_comprehension {A B} (f : A -> M B) (l : list A) (bs : list B) :
  Forall2 (fun a b => returns_with (eq b) (f a)) l bs ->
  returns_with (eq bs) (comprehension f l).
Proof.
  induction 1 as [|a b l bs Hab _ IH]; simpl.
  - apply returns_with_ret. reflexivity.
  - eapply returns_with_bind; [exact Hab|]. intros ? <-.
    eapply returns_with_bind; [exact IH|]. intros ? <-.
    apply returns_with_ret. reflexivity.
Qed.

Lemma returns_with_for_each {A B} (body : A -> M (list B)) (l : list A)
    (xss : list (list B)) :
  Forall2 (fun a xs => returns_with (eq xs) (body a)) l xss ->
  returns_with (eq (concat xss)) (for_each l body).
Proof.
  induction 1 as [|a xs l xss Hab _ IH]; simpl.
  - apply returns_with_ret. reflexivity.
  - eapply returns_with_bind; [exact Hab|]. intros ? <-.
    eapply returns_with_bind; [exact IH|]. intros ? <-.
    apply returns_with_ret. reflexivity.
Qed.

(** X7: the transforms the multiscale recipe hands to [ImageFlow], for
    [size, c >= 0]: a variational dequantization over four checkerboard
    couplings, two checkerboard couplings, a squeeze, two channel-mask
    couplings on [4c] channels, a split, then (after a second squeeze
    when [squeeze_twice] holds) four channel-mask couplings on [8c]
    channels, or on [2c] when it does not.  In every group the masks
    alternate, starting with the mask that is not inverted. *)
Theorem multiscale_flow_transforms (config : Config) (st : PyState) :
  (0 <= size config)%Z -> (0 <= c config)%Z ->
  let n := size config in
  let ch := c config in
  let k := if squeeze_twice config then (8 * ch)%Z else (2 * ch)%Z in
  exists cb cb' cm4 cm4' cmk cmk' st',
    create_checkerboard_mask n n false = Ok cb /\
    create_checkerboard_mask n n true = Ok cb' /\
    create_channel_mask (4 * ch) false = Ok cm4 /\
    create_channel_mask (4 * ch) true = Ok cm4' /\
    create_channel_mask k false = Ok cmk /\
    create_channel_mask k true = Ok cmk' /\
    create_multiscale_flow traced_CouplingLayer traced_VariationalDequantization
      traced_SqueezeFlow traced_SplitFlow traced_ImageFlow config st
    = Ok (([TVariationalDequantization
              [TCoupling false cb ch; TCoupling false cb' ch;
               TCoupling false cb ch; TCoupling false cb' ch];
            TCoupling false cb ch; TCoupling false cb' ch;
            TSqueeze;
            TCoupling false cm4 (4 * ch); TCoupling false cm4' (4 * ch);
            TSplit]
           ++ (if squeeze_twice config then [TSqueeze] else [])
           ++ [TCoupling false cmk k; TCoupling false cmk' k;
               TCoupling false cmk k; TCoupling false cmk' k],
           if squeeze_twice config
           then FloatTensor (mkTensor [4%nat] [1; 8; 1 / 4; 1 / 4]%R)
           else FloatTensor (mkTensor [4%nat] [1; 2; 1 / 2; 1 / 2]%R)),
          st').
Proof.
  intros Hs Hc n ch k.
  assert (Hk : (0 <= k)%Z) by (unfold k; destruct (squeeze_twice config); lia).
  destruct (@checkerboard_mask_spec n n Hs Hs) as (cb & Hcb & Hcb' & _).
  destruct (@channel_mask_spec (4 * ch)) as (cm4 & Hcm4 & Hcm4' & _); [lia|].
  destruct (@channel_mask_spec k Hk) as (cmk & Hcmk & Hcmk' & _).
  exists cb, (rsub1 cb), cm4, (rsub1 cm4), cmk, (rsub1 cmk).
  set (expected := (_ ++ _, _)).
  cut (returns_with (eq expected)
         (create_multiscale_flow traced_CouplingLayer
            traced_VariationalDequantization traced_SqueezeFlow traced_SplitFlow
            traced_ImageFlow config)).
  { intros Hrun. destruct (Hrun st) as (r & st' & Hr & <-).
    exists st'. repeat (split; [assumption|]). exact Hr. }
  assert (Hcoupling : forall kw ci chn co q r mask,
             GatedConvNet_call kw = GatedConvNet__init__ ci chn co 3 ->
             (0 <= ci)%Z -> (0 <= chn)%Z -> r = Ok mask ->
             returns_with (eq (TCoupling false mask q))
               (network <~ GatedConvNet_call kw ;;
                mask <~ liftR r ;;
                traced_CouplingLayer (ConvNet network) mask q))
    by (intros; eapply traced_coupling; eassumption).
  unfold create_multiscale_flow. fold n ch.
  replace (1 * ch)%Z with ch by lia.
  change (range 4) with [0; 1; 2; 3]%Z.
  change (range 2) with [0; 1]%Z.
  change (is_odd 0) with false. change (is_odd 1) with true.
  (* variational dequantization *)
  eapply returns_with_bind.
  { apply returns_with_comprehension
      with (bs := [TCoupling false cb ch; TCoupling false (rsub1 cb) ch;
                   TCoupling false cb ch; TCoupling false (rsub1 cb) ch]).
    repeat constructor;
      (eapply Hcoupling; [reflexivity | cbn [as_int]; lia | cbn [as_int]; lia
                         | assumption]). }
  intros ? <-. eapply returns_with_bind; [apply returns_with_ret_eq|].
  intros ? <-.
  (* two checkerboard couplings *)
  eapply returns_with_bind.
  { apply returns_with_comprehension
      with (bs := [TCoupling false cb ch; TCoupling false (rsub1 cb) ch]).
    repeat constructor;
      (eapply Hcoupling; [reflexivity | cbn [as_int]; lia | cbn [as_int]; lia
                         | assumption]). }
  intros ? <-.
  (* squeeze, two channel couplings *)
  eapply returns_with_bind; [apply returns_with_ret_eq|].
  intros ? <-. eapply returns_with_bind.
  { apply returns_with_for_each
      with (xss := [[TCoupling false cm4 (4 * ch)];
                    [TCoupling false (rsub1 cm4) (4 * ch)]]).
    repeat constructor;
      (eapply returns_with_bind;
       [apply returns_with_True;
        apply (@returns_GatedConvNet__init__ (4 * ch) 48 (-1) 3); lia|];
       intros net _; eapply returns_with_bind;
       [apply returns_with_liftR; eassumption|];
       intros ? <-; eapply returns_with_bind;
       [apply returns_with_ret_eq|];
       intros ? <-; apply returns_with_ret_eq). }
  intros ? <-.
  (* split, then the last four couplings *)
  eapply returns_with_bind; [apply returns_with_ret_eq|].
  intros ? <-. unfold expected, k in *. clear expected.
  destruct (squeeze_twice config).
  - eapply returns_with_bind.
    { eapply returns_with_bind; [apply returns_with_ret_eq|].
      intros ? <-. eapply returns_with_bind.
      { apply returns_with_comprehension
          with (bs := [TCoupling false cmk (8 * ch);
                       TCoupling false (rsub1 cmk) (8 * ch);
                       TCoupling false cmk (8 * ch);
                       TCoupling false (rsub1 cmk) (8 * ch)]).
        repeat constructor;
          (eapply Hcoupling; [reflexivity | cbn [as_int]; lia | cbn [as_int]; lia
                             | assumption]). }
      intros ? <-. apply returns_with_ret_eq. }
    intros ? <-. cbv iota beta.
    eapply returns_with_bind; [apply returns_with_ret_eq|].
    intros ? <-. apply returns_with_ret. reflexivity.
  - eapply returns_with_bind.
    { eapply returns_with_bind.
      { apply returns_with_comprehension
          with (bs := [TCoupling false cmk (2 * ch);
                       TCoupling false (rsub1 cmk) (2 * ch);
                       TCoupling false cmk (2 * ch);
                       TCoupling false (rsub1 cmk) (2 * ch)]).
        repeat constructor;
          (eapply Hcoupling; [reflexivity | cbn [as_int]; lia | cbn [as_int]; lia
                             | assumption]). }
      intros ? <-. apply returns_with_ret_eq. }
    intros ? <-. cbv iota beta.
    eapply returns_with_bind; [apply returns_with_ret_eq|].
    intros ? <-. apply returns_with_ret. reflexivity.
Qed.

Lemma multiscale_flow_transforms_witness :
  exists cb cb' cm4 cm4' cmk cmk' st',
    create_checkerboard_mask 28 28 false = Ok cb /\
    create_checkerboard_mask 28 28 true = Ok cb' /\
    create_channel_mask 4 false = Ok cm4 /\
    create_channel_mask 4 true = Ok cm4' /\
    create_channel_mask 8 false = Ok cmk /\
    create_channel_mask 8 true = Ok cmk' /\
    create_multiscale_flow traced_CouplingLayer traced_VariationalDequantization
      traced_SqueezeFlow traced_SplitFlow traced_ImageFlow
      (mkConfig 28 1 "multiscale" "cpu") initial_state
    = Ok (([TVariationalDequantization
              [TCoupling false cb 1; TCoupling false cb' 1;
               TCoupling false cb 1; TCoupling false cb' 1];
            TCoupling false cb 1; TCoupling false cb' 1;
            TSqueeze;
            TCoupling false cm4 4; TCoupling false cm4' 4;
            TSplit; TSqueeze;
            TCoupling false cmk 8; TCoupling false cmk' 8;
            TCoupling false cmk 8; TCoupling false cmk' 8],
           FloatTensor (mkTensor [4%nat] [1; 8; 1 / 4; 1 / 4]%R)),
          st').
Proof.
  apply (@multiscale_flow_transforms (mkConfig 28 1 "multiscale" "cpu")
           initial_state); simpl; lia.
Defined.

Lemma bind_Raise {A B} (m : M A) (k : A -> M B) (st : PyState) (e : exn) :
  m st = Raise e -> bind m k st = Raise e.
Proof.
  intros H. unfold bind. rewrite H. reflexivity.
Qed.

Lemma bind_step {A B} (m : M A) (k : A -> M B) (st st1 : PyState) (a : A) :
  m st = Ok (a, st1) -> bind m k st = k a st1.
Proof.
  intros H. unfold bind. rewrite H. reflexivity.
Qed.

Lemma GatedConvNet__init__negative (c_in c_hidden c_out num_layers : Z)
    (st : PyState) :
  (c_in < 0)%Z ->
  GatedConvNet__init__ c_in c_hidden c_out num_layers st
  = Raise (RuntimeError "Trying to create tensor with negative dimension").
Proof.
  intros H. unfold GatedConvNet__init__. apply bind_Raise.
  unfold nn_Conv2d. destruct (Z.ltb_spec c_in 0); [reflexivity | lia].
Qed.

Section MultiscaleAccepts.

Variable Flow : Type.
Variable FlowModel : Type.
Variable CouplingLayer : Network -> Tensor R -> Z -> M Flow.
Variable VariationalDequantization : list Flow -> M Flow.
Variable SqueezeFlow : M Flow.
Variable SplitFlow : Config -> M Flow.
Variable ImageFlow : list Flow -> Config -> M FlowModel.

(** X8: when the constructors of the flow transforms and of the composed
    flow return, the multiscale recipe returns exactly for the
    configurations with [size >= 0] and [c >= 0] -- whether or not
    [size] is a multiple of 2 or 4; for a negative [c] or [size] it
    raises the [RuntimeError] of the first tensor it cannot create. *)
Theorem multiscale_flow_accepts (config : Config) (st : PyState) :
  (forall n m k, returns (CouplingLayer n m k)) ->
  (forall l, returns (VariationalDequantization l)) ->
  returns SqueezeFlow ->
  (forall cfg, returns (SplitFlow cfg)) ->
  (forall l cfg, returns (ImageFlow l cfg)) ->
  ((exists r st',
      create_multiscale_flow CouplingLayer VariationalDequantization SqueezeFlow
        SplitFlow ImageFlow config st = Ok (r, st'))
   <-> (0 <= size config)%Z /\ (0 <= c config)%Z) /\
  ((size config < 0)%Z \/ (c config < 0)%Z ->
   exists msg,
     create_multiscale_flow CouplingLayer VariationalDequantization SqueezeFlow
       SplitFlow ImageFlow config st = Raise (RuntimeError msg)).
Proof.
  intros HC HV HSq HSp HI.
  assert (Hneg : (size config < 0)%Z \/ (c config < 0)%Z ->
            exists msg,
              create_multiscale_flow CouplingLayer VariationalDequantization
                SqueezeFlow SplitFlow ImageFlow config st
              = Raise (RuntimeError msg)).
  { intros Hbad. unfold create_multiscale_flow.
    change (range 4) with [0; 1; 2; 3]%Z. cbn [comprehension].
    destruct (Z.ltb_spec (c config) 0) as [Hc|Hc].
    - eexists. do 3 apply bind_Raise.
      apply (@GatedConvNet__init__negative (2 * c config) 16 (2 * c config) 3).
      lia.
    - destruct Hbad as [Hs|Hc']; [|lia].
      destruct (@returns_GatedConvNet__init__ (2 * c config) 16 (2 * c config) 3)
        with (st := st) as (net & st1 & Hnet); try lia.
      eexists. do 2 apply bind_Raise.
      rewrite (@bind_step _ _ _ _ st st1 net) by exact Hnet.
      apply bind_Raise. unfold liftR, create_checkerboard_mask, arange.
      destruct (Z.ltb_spec (size config) 0); [reflexivity | lia]. }
  split; [split|exact Hneg].
  - intros (r & st' & Hr).
    destruct (Z.ltb_spec (size config) 0) as [Hs|Hs].
    + destruct Hneg as [msg Hm]; [left; exact Hs|]. rewrite Hm in Hr. discriminate.
    + destruct (Z.ltb_spec (c config) 0) as [Hc|Hc]; [|split; assumption].
      destruct Hneg as [msg Hm]; [right; exact Hc|]. rewrite Hm in Hr. discriminate.
  - intros [Hs Hc].
    destruct (@multiscale_flow_returns _ _ CouplingLayer VariationalDequantization
                SqueezeFlow SplitFlow ImageFlow config HC HV HSq HSp HI Hs Hc st)
      as (r & st' & Hr).
    exists r, st'. exact Hr.
Qed.

End MultiscaleAccepts.

Lemma multiscale_flow_accepts_witness :
  ((exists r st',
      create_multiscale_flow kind_CouplingLayer kind_VariationalDequantization
        kind_SqueezeFlow kind_SplitFlow kind_ImageFlow
        (mkConfig 30 3 "multiscale" "cpu") initial_state = Ok (r, st'))
   <-> (0 <= 30)%Z /\ (0 <= 3)%Z) /\
  ((30 < 0)%Z \/ (3 < 0)%Z ->
   exists msg,
     create_multiscale_flow kind_CouplingLayer kind_VariationalDequantization
       kind_SqueezeFlow kind_SplitFlow kind_ImageFlow
       (mkConfig 30 3 "multiscale" "cpu") initial_state = Raise (RuntimeError msg)).
Proof.
  apply (@multiscale_flow_accepts _ _ kind_CouplingLayer
           kind_VariationalDequantization kind_SqueezeFlow kind_SplitFlow
           kind_ImageFlow (mkConfig 30 3 "multiscale" "cpu") initial_state);
    intros; apply returns_ret.
Defined.

(** ** tools.py: the shape that is sampled *)

Lemma wrap_small (bits z : Z) :
  (1 <= bits)%Z -> (- 2 ^ (bits - 1) <= z < 2 ^ (bits - 1))%Z ->
  wrap bits z = z.
Proof.
  intros Hb Hz. unfold wrap.
  assert (H2 : (2 ^ bits = 2 * 2 ^ (bits - 1))%Z).
  { replace bits with (Z.succ (bits - 1)) at 1 by lia.
    apply Z.pow_succ_r. lia. }
  rewrite Z.mod_small by lia. lia.
Qed.

Lemma Int_part_IZR (z : Z) : Int_part (IZR z) = z.
Proof.
  symmetry. apply Int_part_spec. lra.
Qed.

Lemma Rtrunc_IZR (z : Z) : (0 <= z)%Z -> Rtrunc (IZR z) = z.
Proof.
  intros H. unfold Rtrunc.
  destruct (Rle_dec 0 (IZR z)) as [_|Hn].
  - apply Int_part_IZR.
  - exfalso. apply Hn. apply IZR_le. exact H.
Qed.

(** Truncating an exact quotient of non-negative integers is floor
    division. *)
Lemma Rtrunc_quotient (a d : Z) :
  (0 <= a)%Z -> (0 < d)%Z ->
  Rtrunc (IZR a * (1 / IZR d)) = (a / d)%Z.
Proof.
  intros Ha Hd.
  assert (Hd' : (0 < IZR d)%R) by (apply IZR_lt; exact Hd).
  pose proof (Z.div_mod a d ltac:(lia)) as Hdm.
  pose proof (Z.mod_pos_bound a d Hd) as Hm.
  assert (Hq : (0 <= a / d)%Z) by (apply Z.div_pos; lia).
  assert (HR : (IZR a = IZR d * IZR (a / d) + IZR (a mod d))%R).
  { rewrite <- mult_IZR, <- plus_IZR. f_equal. exact Hdm. }
  assert (Hm0 : (0 <= IZR (a mod d))%R) by (apply IZR_le; lia).
  assert (Hm1 : (IZR (a mod d) < IZR d)%R) by (apply IZR_lt; lia).
  assert (Hval : (IZR a * (1 / IZR d)
                  = IZR (a / d) + IZR (a mod d) / IZR d)%R).
  { rewrite HR. field. lra. }
  assert (Hf0 : (0 <= IZR (a mod d) / IZR d)%R).
  { apply Rmult_le_pos; [exact Hm0|]. left. apply Rinv_0_lt_compat. exact Hd'. }
  assert (Hf1 : (IZR (a mod d) / IZR d < 1)%R).
  { apply Rmult_lt_reg_r with (r := IZR d); [exact Hd'|].
    unfold Rdiv. rewrite Rmult_assoc, Rinv_l by lra. lra. }
  assert (Hq' : (0 <= IZR (a / d))%R) by (apply IZR_le; exact Hq).
  unfold Rtrunc.
  destruct (Rle_dec 0 (IZR a * (1 / IZR d))) as [_|Hn]; [|exfalso; apply Hn; lra].
  symmetry. apply Int_part_spec. lra.
Qed.

(** X9: the shape that [sample_save_show] asks the flow to sample, for
    [num_samples, c, h, w] not negative and below [2^24] (where float32
    holds them and the products exactly): with the
    factor [[1, 1, 1, 1]] of the plain recipes it is [[n, c, h, w]]; with
    the multiscale factors it is [[n, 8c, h // 4, w // 4]] and
    [[n, 2c, h // 2, w // 2]]. *)
Theorem sample_shape_of_factor (n c h w : Z) :
  (0 <= n < 2 ^ 24)%Z -> (0 <= c < 2 ^ 24)%Z ->
  (0 <= h < 2 ^ 24)%Z -> (0 <= w < 2 ^ 24)%Z ->
  sample_shape n [c; h; w] (torch_tensor [NInt 1; NInt 1; NInt 1; NInt 1])
  = Returns [n; c; h; w] /\
  sample_shape n [c; h; w]
    (torch_tensor [NInt 1; NInt 8; NFloat (1 / 4); NFloat (1 / 4)])
  = Returns [n; (8 * c)%Z; (h / 4)%Z; (w / 4)%Z] /\
  sample_shape n [c; h; w]
    (torch_tensor [NInt 1; NInt 2; NFloat (1 / 2); NFloat (1 / 2)])
  = Returns [n; (2 * c)%Z; (h / 2)%Z; (w / 2)%Z].
Proof.
  intros Hn Hc Hh Hw.
  assert (P31 : (2 ^ (32 - 1) = 2147483648)%Z) by reflexivity.
  assert (P63 : (2 ^ (64 - 1) = 9223372036854775808)%Z) by reflexivity.
  assert (Q31 : (2 ^ 31 = 2147483648)%Z) by reflexivity.
  assert (Q24 : (2 ^ 24 = 16777216)%Z) by reflexivity.
  assert (W : forall x, (0 <= x < 2 ^ 31)%Z -> wrap 32 (wrap 64 (x * 1)) = x).
  { intros x Hx. rewrite Z.mul_1_r.
    rewrite (@wrap_small 64 x) by lia. apply wrap_small; lia. }
  assert (S1 : forall x, (0 <= x)%Z -> Rtrunc (IZR x * 1) = x).
  { intros x Hx. rewrite Rmult_1_r. apply Rtrunc_IZR. exact Hx. }
  assert (Sk : forall x k, (0 <= x)%Z -> (0 <= k)%Z ->
               Rtrunc (IZR x * IZR k) = (k * x)%Z).
  { intros x k Hx Hk. rewrite <- mult_IZR, Z.mul_comm.
    apply Rtrunc_IZR. lia. }
  split; [|split].
  - unfold sample_shape. cbn [torch_tensor forallb is_int andb map data length
                              broadcast2 obind Nat.eqb combine fst snd].
    rewrite !W by lia. reflexivity.
  - unfold sample_shape. cbn [torch_tensor forallb is_int andb map data length
                              broadcast2 obind Nat.eqb combine fst snd].
    rewrite S1 by lia. rewrite (Sk c 8%Z) by lia.
    rewrite !(@Rtrunc_quotient _ 4) by lia. reflexivity.
  - unfold sample_shape. cbn [torch_tensor forallb is_int andb map data length
                              broadcast2 obind Nat.eqb combine fst snd].
    rewrite S1 by lia. rewrite (Sk c 2%Z) by lia.
    rewrite !(@Rtrunc_quotient _ 2) by lia. reflexivity.
Qed.

Lemma sample_shape_of_factor_witness :
  sample_shape 16 [1; 28; 28]%Z (torch_tensor [NInt 1; NInt 1; NInt 1; NInt 1])
  = Returns [16; 1; 28; 28]%Z /\
  sample_shape 16 [1; 28; 28]%Z
    (torch_tensor [NInt 1; NInt 8; NFloat (1 / 4); NFloat (1 / 4)])
  = Returns [16; 8; 7; 7]%Z /\
  sample_shape 16 [1; 28; 28]%Z
    (torch_tensor [NInt 1; NInt 2; NFloat (1 / 2); NFloat (1 / 2)])
  = Returns [16; 2; 14; 14]%Z.
Proof.
  apply (@sample_shape_of_factor 16 1 28 28); lia.
Defined.

(** ** tools.py: the grid of images *)

Lemma ceil_div_spec (a b : Z) :
  (0 < b)%Z ->
  (b * (ceil_div a b - 1) < a <= b * ceil_div a b)%Z.
Proof.
  intros Hb. unfold ceil_div.
  pose proof (Z.div_mod (- a) b ltac:(lia)) as Hdm.
  pose proof (Z.mod_pos_bound (- a) b Hb) as Hm.
  nia.
Qed.

(** X10: [imgs_to_plt] on a batch of [n >= 1] images (fewer than
    [2^26], where the float quotient rounds to the exact ceiling) with
    [row_size >= 1] puts [nrow = min(n, row_size)] images in a row and
    sizes the figure for [ncol] rows, the least number of rows that holds
    all [n] images.  A batch of no image divides by zero; an empty list
    of images has no first element to read the dtype from. *)
Theorem imgs_to_plt_grid (dt : dtype) (n : Z) (rest : list Z)
    (title : option string) (row_size : Z) :
  (1 <= n < 2 ^ 26)%Z -> (1 <= row_size)%Z ->
  let nrow := Z.min n row_size in
  let ncol := ceil_div n nrow in
  imgs_to_plt (ImgsTensor dt (n :: rest)) title row_size
  = Returns ([make_grid nrow (if is_int32 dt then 128%R else (1 / 2)%R);
              plt_figure (15 / 10 * IZR nrow) (15 / 10 * IZR ncol);
              plt_imshow; plt_axis "off"]
             ++ match title with Some t => [plt_title t] | None => [] end) /\
  (1 <= nrow <= row_size)%Z /\
  (nrow * (ncol - 1) < n <= nrow * ncol)%Z /\
  imgs_to_plt (ImgsTensor dt (0%Z :: rest)) title row_size
  = Raises (ZeroDivisionError "division by zero") /\
  imgs_to_plt (ImgsList []) title row_size
  = Raises (Builtin (IndexError "list index out of range")).
Proof.
  intros Hn Hr nrow ncol.
  assert (Hnrow : (1 <= nrow <= row_size)%Z) by (unfold nrow; lia).
  split; [|split; [exact Hnrow | split; [|split]]].
  - unfold imgs_to_plt. cbn [obind]. fold nrow.
    destruct (Z.eqb_spec nrow 0); [lia|]. reflexivity.
  - apply ceil_div_spec. lia.
  - unfold imgs_to_plt. cbn [obind].
    replace (Z.min 0 row_size) with 0%Z by lia. reflexivity.
  - reflexivity.
Qed.

Lemma imgs_to_plt_grid_witness :
  imgs_to_plt (ImgsTensor float32 [10; 1; 28; 28]%Z) None 4
  = Returns [make_grid 4 (1 / 2)%R;
             plt_figure (15 / 10 * IZR 4) (15 / 10 * IZR 3);
             plt_imshow; plt_axis "off"] /\
  (1 <= 4 <= 4)%Z /\
  (4 * (3 - 1) < 10 <= 4 * 3)%Z /\
  imgs_to_plt (ImgsTensor float32 [0; 1; 28; 28]%Z) None 4
  = Raises (ZeroDivisionError "division by zero") /\
  imgs_to_plt (ImgsList []) None 4
  = Raises (Builtin (IndexError "list index out of range")).
Proof.
  apply (@imgs_to_plt_grid float32 10 [1; 28; 28]%Z None 4); lia.
Defined.

Lemma ceil_sqrt_spec (n : Z) :
  (1 <= n)%Z ->
  exists r, ceil_sqrt n = Returns r /\
            (1 <= r <= n)%Z /\ ((r - 1) * (r - 1) < n <= r * r)%Z.
Proof.
  intros Hn. unfold ceil_sqrt.
  destruct (Z.ltb_spec n 0); [lia|].
  pose proof (Z.sqrt_spec n ltac:(lia)) as Hs.
  pose proof (Z.sqrt_nonneg n) as Hs0.
  set (s := Z.sqrt n) in *. unfold Z.succ in Hs.
  eexists. split; [reflexivity|].
  destruct (Z.eqb_spec (s * s) n) as [E|E]; split; nia.
Qed.

(** X11: [sample_save_show] for [1 <= num_samples = n < 2^26], when the flow
    returns the [n] samples it was asked for: the samples are laid out
    [r = ceil(sqrt(n))] to a row, in [q <= r] rows that hold all of
    them; the figure is saved, and the path printed, exactly when
    [save_samples] is set; it is shown exactly when [show_samples] is
    set; and it is closed at the end. *)
Theorem sample_save_show_grid (sample : list Z -> Imgs) (img_shape : list Z)
    (factor : AnyTensor) (config : SampleConfig) (shape rest : list Z)
    (dt : dtype) :
  (1 <= num_samples config < 2 ^ 26)%Z ->
  sample_shape (num_samples config) img_shape factor = Returns shape ->
  sample shape = ImgsTensor dt (num_samples config :: rest) ->
  exists r q,
    sample_save_show sample img_shape factor config
    = Returns ([flow_sample shape;
                make_grid r (if is_int32 dt then 128%R else (1 / 2)%R);
                plt_figure (15 / 10 * IZR r) (15 / 10 * IZR q);
                plt_imshow; plt_axis "off"]
               ++ (if save_samples config
                   then [plt_savefig (results_filepath config);
                         print_line ("Figure saved to " ++ results_filepath config)]
                   else [])
               ++ (if show_samples config then [plt_show] else [])
               ++ [plt_close]) /\
    ((r - 1) * (r - 1) < num_samples config <= r * r)%Z /\
    (1 <= q <= r)%Z /\
    (r * (q - 1) < num_samples config <= r * q)%Z.
Proof.
  intros Hn Hshape Hsample.
  destruct (@ceil_sqrt_spec (num_samples config) ltac:(lia)) as (r & Hr & Hr1 & Hr2).
  pose proof (@ceil_div_spec (num_samples config) r ltac:(lia)) as Hq.
  exists r, (ceil_div (num_samples config) r).
  split; [|split; [exact Hr2 | split; [|exact Hq]]].
  - unfold sample_save_show. rewrite Hshape. cbn [obind].
    rewrite Hr. cbn [obind]. rewrite Hsample.
    unfold imgs_to_plt. cbn [obind].
    replace (Z.min (num_samples config) r) with r by lia.
    destruct (Z.eqb_spec r 0); [lia|]. cbn [obind app]. reflexivity.
  - nia.
Qed.

Lemma sample_save_show_grid_witness :
  exists r q,
    sample_save_show (ImgsTensor int32) [1; 28; 28]%Z
      (torch_tensor [NInt 1; NInt 1; NInt 1; NInt 1])
      (mkSampleConfig 10 true false "samples.png")
    = Returns ([flow_sample [10; 1; 28; 28]%Z;
                make_grid r 128%R;
                plt_figure (15 / 10 * IZR r) (15 / 10 * IZR q);
                plt_imshow; plt_axis "off"]
               ++ [plt_savefig "samples.png";
                   print_line "Figure saved to samples.png"]
               ++ []
               ++ [plt_close]) /\
    ((r - 1) * (r - 1) < 10 <= r * r)%Z /\
    (1 <= q <= r)%Z /\
    (r * (q - 1) < 10 <= r * q)%Z.
Proof.
  apply (@sample_save_show_grid (ImgsTensor int32) [1; 28; 28]%Z
           (torch_tensor [NInt 1; NInt 1; NInt 1; NInt 1])
           (mkSampleConfig 10 true false "samples.png")
           [10; 1; 28; 28]%Z [1; 28; 28]%Z int32).
  - simpl. lia.
  - reflexivity.
  - reflexivity.
Defined.

(** ** tools.py: the environment *)

Lemma str_int_nonempty (z : Z) : str_int z <> "".
Proof.
  unfold str_int. destruct (Z.to_int z) as [d | d]; cbn.
  - destruct d; discriminate.
  - discriminate.
Qed.

Lemma lookup_setenv_same (k v : string) (env : environ) :
  lookup_name k (setenv k v env) = Some v.
Proof.
  induction env as [| [k' v'] env IH]; cbn.
  - now rewrite String.eqb_refl.
  - destruct (String.eqb k k') eqn:E; cbn.
    + now rewrite String.eqb_refl.
    + now rewrite E.
Qed.

Lemma lookup_setenv_other (k k0 v : string) (env : environ) :
  k0 <> k -> lookup_name k0 (setenv k v env) = lookup_name k0 env.
Proof.
  intros Hne. induction env as [| [k' v'] env IH]; cbn.
  - destruct (String.eqb_spec k0 k); [contradiction | reflexivity].
  - destruct (String.eqb_spec k k') as [-> | Hk]; cbn.
    + destruct (String.eqb_spec k0 k'); [contradiction | reflexivity].
    + destruct (String.eqb_spec k0 k'); [reflexivity | exact IH].
Qed.

(** X12: [make_cuda_visible] raises [KeyError] when
    [CUDA_VISIBLE_DEVICES] is unset.  When it is set, the call returns;
    afterwards the variable is set and not empty (its old value, or
    [str(gpu_num)] if that was empty), every other variable is as it
    was, the line written ends with the value, and a second call, with
    any [gpu_num], leaves the environment as it is and reports the
    shell. *)
Theorem make_cuda_visible_sets (gpu_num : Z) (env : environ) (v : string) :
  lookup_name "CUDA_VISIBLE_DEVICES" env = Some v ->
  let v' := if String.eqb v "" then str_int gpu_num else v in
  exists env',
    make_cuda_visible gpu_num env
    = Returns (env', ((if String.eqb v ""
                       then "Running from pycharm... "
                       else "Running from shell... ")
                      ++ "GPU #" ++ v' ++ newline)%string) /\
    lookup_name "CUDA_VISIBLE_DEVICES" env' = Some v' /\
    v' <> "" /\
    (forall k, k <> "CUDA_VISIBLE_DEVICES" ->
               lookup_name k env' = lookup_name k env) /\
    (forall gpu_num',
       make_cuda_visible gpu_num' env'
       = Returns (env', ("Running from shell... GPU #" ++ v' ++ newline)%string)) /\
    make_cuda_visible gpu_num
      (filter (fun kv => negb (String.eqb (fst kv) "CUDA_VISIBLE_DEVICES")) env)
    = Raises (KeyError "CUDA_VISIBLE_DEVICES").
Proof.
  intros Hv v'.
  assert (Hunset : forall e : environ,
    lookup_name "CUDA_VISIBLE_DEVICES"
      (filter (fun kv => negb (String.eqb (fst kv) "CUDA_VISIBLE_DEVICES")) e)
    = None).
  { induction e as [| [k' w] e IH]; [reflexivity|].
    cbn [filter fst]. destruct (String.eqb_spec k' "CUDA_VISIBLE_DEVICES") as [-> | Hk]; cbn [negb].
    - exact IH.
    - cbn [lookup_name].
      destruct (String.eqb_spec "CUDA_VISIBLE_DEVICES" k'); [congruence | exact IH]. }
  assert (Hne : v' <> "").
  { unfold v'. destruct (String.eqb_spec v ""); [apply str_int_nonempty | assumption]. }
  assert (Hshell : forall e g, lookup_name "CUDA_VISIBLE_DEVICES" e = Some v' ->
    make_cuda_visible g e
    = Returns (e, ("Running from shell... GPU #" ++ v' ++ newline)%string)).
  { intros e g He. unfold make_cuda_visible. rewrite He.
    destruct (String.eqb_spec v' ""); [contradiction|]. now rewrite He. }
  unfold make_cuda_visible at 1. rewrite Hv. subst v'.
  destruct (String.eqb_spec v "") as [-> | Hnv].
  - exists (setenv "CUDA_VISIBLE_DEVICES" (str_int gpu_num) env).
    rewrite lookup_setenv_same.
    repeat split; auto.
    + intros k Hk. now apply lookup_setenv_other.
    + intros g. apply Hshell, lookup_setenv_same.
    + unfold make_cuda_visible. now rewrite Hunset.
  - exists env. rewrite Hv.
    repeat split; auto.
    unfold make_cuda_visible. now rewrite Hunset.
Qed.

Lemma make_cuda_visible_sets_witness :
  exists env',
    make_cuda_visible 3 [("PATH", "/usr/bin"); ("CUDA_VISIBLE_DEVICES", "")]
    = Returns (env', ("Running from pycharm... " ++ "GPU #" ++ str_int 3 ++ newline)%string) /\
    lookup_name "CUDA_VISIBLE_DEVICES" env' = Some (str_int 3) /\
    str_int 3 <> "" /\
    (forall k, k <> "CUDA_VISIBLE_DEVICES" ->
               lookup_name k env'
               = lookup_name k [("PATH", "/usr/bin"); ("CUDA_VISIBLE_DEVICES", "")]) /\
    (forall gpu_num',
       make_cuda_visible gpu_num' env'
       = Returns (env', ("Running from shell... GPU #" ++ str_int 3 ++ newline)%string)) /\
    make_cuda_visible 3
      (filter (fun kv => negb (String.eqb (fst kv) "CUDA_VISIBLE_DEVICES"))
         [("PATH", "/usr/bin"); ("CUDA_VISIBLE_DEVICES", "")])
    = Raises (KeyError "CUDA_VISIBLE_DEVICES").
Proof.
  apply (@make_cuda_visible_sets 3
           [("PATH", "/usr/bin"); ("CUDA_VISIBLE_DEVICES", "")] "").
  reflexivity.
Defined.

(* ================================================================== *)
(** ** The parameters of the networks *)

(** The exact count, before it is held in 64 bits. *)
Lemma py_sum_fold_right (l : list Z) : py_sum l = fold_right Z.add 0%Z l.
Proof.
  unfold py_sum. rewrite <- fold_left_rev_right.
  rewrite <- (rev_involutive l) at 2. generalize (rev l) as r.
  induction r as [|a r IH]; [reflexivity|].
  cbn [fold_right rev]. rewrite fold_right_app. cbn [fold_right].
  rewrite IH. clear IH. generalize (rev r) as q.
  induction q as [|b q IH]; cbn [fold_right]; lia.
Qed.

Lemma py_sum_app (a b : list Z) : py_sum (a ++ b) = (py_sum a + py_sum b)%Z.
Proof.
  rewrite !py_sum_fold_right, fold_right_app.
  induction a as [|x a IH]; cbn [fold_right]; lia.
Qed.

Lemma count_app (a b : list (Tensor f32)) :
  py_sum (map (fun p => np_prod (shape p)) (a ++ b))
  = (py_sum (map (fun p => np_prod (shape p)) a)
     + py_sum (map (fun p => np_prod (shape p)) b))%Z.
Proof. rewrite map_app. apply py_sum_app. Qed.

Lemma for_extend_total {A} (T : list A -> Z) (k : Z) (n : nat) (body : M (list A)) :
  T [] = 0%Z ->
  (forall a b, T (a ++ b) = (T a + T b)%Z) ->
  (forall st, exists xs st', body st = Ok (xs, st') /\ T xs = k) ->
  forall st, exists xs st',
    for_extend n body st = Ok (xs, st') /\ T xs = (Z.of_nat n * k)%Z.
Proof.
  intros Hnil Happ Hbody. induction n as [|n IH]; intros st.
  - exists [], st. split; [reflexivity | rewrite Hnil; lia].
  - cbn [for_extend]. unfold bind.
    destruct (Hbody st) as (xs & st1 & -> & Hxs).
    destruct (IH st1) as (ys & st2 & -> & Hys).
    exists (xs ++ ys), st2. split; [reflexivity|].
    rewrite Happ, Hxs, Hys. lia.
Qed.

Lemma nn_Conv2d_params (c_in c_out : Z) (k p : nat) (st : PyState) :
  (0 <= c_in)%Z -> (0 <= c_out)%Z ->
  exists m st',
    nn_Conv2d c_in c_out k p st = Ok (m, st') /\
    py_sum (map (fun p => np_prod (shape p)) (Leaf_parameters (Conv2dL m)))
    = (c_out * c_in * Z.of_nat k * Z.of_nat k + c_out)%Z.
Proof.
  intros Hi Ho. unfold nn_Conv2d.
  destruct (Z.ltb_spec c_in 0); [lia|].
  destruct (Z.ltb_spec c_out 0); [lia|].
  cbn [orb]. unfold bind, fresh, ret.
  eexists. eexists. split; [reflexivity|].
  cbn [Leaf_parameters conv_weight conv_bias map shape].
  unfold py_sum, np_prod. cbn [fold_left numel fold_right]. nia.
Qed.

Lemma nn_Linear_params (i o : Z) (st : PyState) :
  (0 <= i)%Z -> (0 <= o)%Z ->
  exists m st',
    nn_Linear i o st = Ok (m, st') /\
    py_sum (map (fun p => np_prod (shape p)) (Leaf_parameters (LinearL m)))
    = (o * i + o)%Z.
Proof.
  intros Hi Ho. unfold nn_Linear.
  destruct (Z.ltb_spec i 0); [lia|].
  destruct (Z.ltb_spec o 0); [lia|].
  cbn [orb]. unfold bind, fresh, ret.
  eexists. eexists. split; [reflexivity|].
  cbn [Leaf_parameters lin_weight lin_bias map shape].
  unfold py_sum, np_prod. cbn [fold_left numel fold_right]. nia.
Qed.

Lemma nn_LayerNorm_params (n : Z) (st : PyState) :
  (0 <= n)%Z ->
  exists m,
    nn_LayerNorm n st = Ok (m, st) /\
    py_sum (map (fun p => np_prod (shape p)) (Leaf_parameters (LayerNormL m)))
    = (2 * n)%Z.
Proof.
  intros Hn. unfold nn_LayerNorm, ones, zeros, bind, liftR, ret.
  rewrite !full1_ok by exact Hn.
  eexists. split; [reflexivity|].
  cbn [Leaf_parameters ln_weight ln_bias map shape tmap].
  unfold py_sum, np_prod. cbn [fold_left numel fold_right]. nia.
Qed.

Lemma count_cons_leaf (l : Leaf) (rest : list Leaf) :
  py_sum (map (fun p => np_prod (shape p)) (flat_map Leaf_parameters (l :: rest)))
  = (py_sum (map (fun p => np_prod (shape p)) (Leaf_parameters l))
     + py_sum (map (fun p => np_prod (shape p)) (flat_map Leaf_parameters rest)))%Z.
Proof. cbn [flat_map]. apply count_app. Qed.

Lemma count_cons_layer (l : Layer) (rest : list Layer) :
  py_sum (map (fun p => np_prod (shape p)) (flat_map Layer_parameters (l :: rest)))
  = (py_sum (map (fun p => np_prod (shape p)) (Layer_parameters l))
     + py_sum (map (fun p => np_prod (shape p)) (flat_map Layer_parameters rest)))%Z.
Proof. cbn [flat_map]. apply count_app. Qed.

Lemma count_app_layers (a b : list Layer) :
  py_sum (map (fun p => np_prod (shape p)) (flat_map Layer_parameters (a ++ b)))
  = (py_sum (map (fun p => np_prod (shape p)) (flat_map Layer_parameters a))
     + py_sum (map (fun p => np_prod (shape p)) (flat_map Layer_parameters b)))%Z.
Proof. rewrite flat_map_app. apply count_app. Qed.

Lemma GatedConv__init__params (c_in c_hidden : Z) (st : PyState) :
  (0 <= c_in)%Z -> (0 <= c_hidden)%Z ->
  exists g st',
    GatedConv__init__ c_in c_hidden st = Ok (g, st') /\
    py_sum (map (fun p => np_prod (shape p)) (Layer_parameters (GatedConvL g)))
    = (9 * c_hidden * c_in + c_hidden + 4 * c_in * c_hidden + 2 * c_in)%Z.
Proof.
  intros Hc Hh. unfold GatedConv__init__, bind.
  destruct (@nn_Conv2d_params c_in c_hidden 3 1 st) as (m1 & st1 & -> & C1);
    try lia.
  destruct (@nn_Conv2d_params (2 * c_hidden) (2 * c_in) 1 0 st1)
    as (m2 & st2 & -> & C2); try lia.
  eexists. eexists. split; [reflexivity|].
  cbn [Layer_parameters gc_net].
  rewrite !count_cons_leaf, C1, C2.
  cbn [flat_map Leaf_parameters map app]. unfold py_sum at 1 2. cbn [fold_left].
  lia.
Qed.

Lemma GatedLinear__init__params (f : Z) (st : PyState) :
  (0 <= f)%Z ->
  exists g st',
    GatedLinear__init__ f st = Ok (g, st') /\
    py_sum (map (fun p => np_prod (shape p)) (Layer_parameters (GatedLinearL g)))
    = (f * f + f + 4 * f * f + 2 * f)%Z.
Proof.
  intros Hf. unfold GatedLinear__init__, bind.
  destruct (@nn_Linear_params f f st) as (m1 & st1 & -> & C1); try lia.
  destruct (@nn_Linear_params (2 * f) (2 * f) st1) as (m2 & st2 & -> & C2);
    try lia.
  eexists. eexists. split; [reflexivity|].
  cbn [Layer_parameters gl_net].
  rewrite !count_cons_leaf, C1, C2.
  cbn [flat_map Leaf_parameters map app]. unfold py_sum at 1 2. cbn [fold_left].
  lia.
Qed.

Lemma count_zero_weight (l l' : Layer) :
  weight_zero_ l = Ok l' ->
  py_sum (map (fun p => np_prod (shape p)) (Layer_parameters l'))
  = py_sum (map (fun p => np_prod (shape p)) (Layer_parameters l)).
Proof.
  destruct l as [[m|m|m|]| | |]; cbn [weight_zero_]; intros H;
    try discriminate H; injection H as <-; reflexivity.
Qed.

Lemma count_zero_bias (l l' : Layer) :
  bias_zero_ l = Ok l' ->
  py_sum (map (fun p => np_prod (shape p)) (Layer_parameters l'))
  = py_sum (map (fun p => np_prod (shape p)) (Layer_parameters l)).
Proof.
  destruct l as [[m|m|m|]| | |]; cbn [bias_zero_]; intros H;
    try discriminate H; injection H as <-; reflexivity.
Qed.

(** The number of parameters of a convolutional network, layer by layer:
    the initial 3x3 convolution, [num_layers] blocks of a gated
    convolution and a layer norm, and the final 3x3 convolution. *)
Lemma GatedConvNet__init__params (c_in c_hidden c_out num_layers : Z) (st : PyState) :
  (0 <= c_in)%Z -> (0 <= c_hidden)%Z ->
  exists net st',
    GatedConvNet__init__ c_in c_hidden c_out num_layers st = Ok (net, st') /\
    py_sum (map (fun p => np_prod (shape p)) (GatedConvNet_parameters net))
    = (let co := if (c_out >? 0)%Z then c_out else (2 * c_in)%Z in
       (9 * c_in * c_hidden + c_hidden)
       + Z.max 0 num_layers * (13 * c_hidden * c_hidden + 5 * c_hidden)
       + (18 * c_hidden * co + co))%Z.
Proof.
  intros Hc Hh. unfold GatedConvNet__init__.
  set (co := if (c_out >? 0)%Z then c_out else (2 * c_in)%Z).
  assert (Hco : (0 <= co)%Z).
  { unfold co. destruct (Z.gtb_spec c_out 0); lia. }
  unfold bind at 1.
  destruct (@nn_Conv2d_params c_in c_hidden 3 1 st)
    as (first & st1 & -> & C1); try lia.
  unfold bind at 1.
  match goal with
  | |- context [for_extend ?n ?body st1] =>
      destruct (@for_extend_total _
                  (fun ls => py_sum (map (fun p => np_prod (shape p))
                                       (flat_map Layer_parameters ls)))
                  (13 * c_hidden * c_hidden + 5 * c_hidden)%Z n body)
        with (st := st1) as (blocks & st2 & -> & Hblocks)
  end.
  { reflexivity. }
  { intros a b. apply count_app_layers. }
  { intros s. unfold bind.
    destruct (@GatedConv__init__params c_hidden c_hidden s) as (g & s1 & -> & Hg);
      try lia.
    unfold LayerNormChannels__init__, bind.
    destruct (@nn_LayerNorm_params c_hidden s1 Hh) as (n & -> & Hn).
    eexists. eexists. split; [reflexivity|].
    rewrite !count_cons_layer, Hg.
    cbn [Layer_parameters lnc_layer_norm]. rewrite Hn.
    cbn [flat_map map]. unfold py_sum at 1. cbn [fold_left]. lia. }
  unfold bind at 1.
  destruct (@nn_Conv2d_params (2 * c_hidden) co 3 1 st2)
    as (final & st3 & -> & C3); try lia.
  replace ([LeafL (Conv2dL first)] ++ blocks
           ++ [LeafL ConcatELU; LeafL (Conv2dL final)])
    with (([LeafL (Conv2dL first)] ++ blocks ++ [LeafL ConcatELU])
          ++ [LeafL (Conv2dL final)])
    by (rewrite <- !app_assoc; reflexivity).
  unfold bind, liftR, ret.
  rewrite update_last_snoc. cbn [weight_zero_ rbind].
  rewrite update_last_snoc. cbn [bias_zero_ rbind].
  eexists. eexists. split; [reflexivity|].
  unfold GatedConvNet_parameters. cbn [gcn_nn].
  rewrite !count_app_layers, Hblocks.
  cbn [flat_map Layer_parameters Leaf_parameters conv_weight conv_bias app] in C1, C3 |- *.
  cbn [map] in C1, C3 |- *.
  unfold zero_, tmap. cbn [shape].
  rewrite C1, C3. unfold py_sum at 1. cbn [fold_left].
  unfold py_sum. cbn [fold_left]. lia.
Qed.

(** The number of parameters of a fully-connected network. *)
Lemma GatedLinearNet__init__params (f num_layers : Z) (st : PyState) :
  (0 <= f)%Z ->
  exists net st',
    GatedLinearNet__init__ f num_layers st = Ok (net, st') /\
    py_sum (map (fun p => np_prod (shape p)) (GatedLinearNet_parameters net))
    = ((f * f + f)
       + Z.max 0 num_layers * (5 * f * f + 5 * f)
       + (4 * f * f + 2 * f))%Z.
Proof.
  intros Hf. unfold GatedLinearNet__init__.
  unfold bind at 1.
  destruct (@nn_Linear_params f f st) as (first & st1 & -> & C1); try lia.
  unfold bind at 1.
  match goal with
  | |- context [for_extend ?n ?body st1] =>
      destruct (@for_extend_total _
                  (fun ls => py_sum (map (fun p => np_prod (shape p))
                                       (flat_map Layer_parameters ls)))
                  (5 * f * f + 5 * f)%Z n body)
        with (st := st1) as (blocks & st2 & -> & Hblocks)
  end.
  { reflexivity. }
  { intros a b. apply count_app_layers. }
  { intros s. unfold bind.
    destruct (@GatedLinear__init__params f s Hf) as (g & s1 & -> & Hg).
    destruct (@nn_LayerNorm_params f s1 Hf) as (n & -> & Hn).
    eexists. eexists. split; [reflexivity|].
    rewrite !count_cons_layer, Hg.
    cbn [Layer_parameters]. rewrite Hn.
    cbn [flat_map map]. unfold py_sum at 1. cbn [fold_left]. lia. }
  unfold bind at 1.
  destruct (@nn_Linear_params (2 * f) (2 * f) st2)
    as (final & st3 & -> & C3); try lia.
  replace ([LeafL (LinearL first)] ++ blocks
           ++ [LeafL ConcatELU; LeafL (LinearL final)])
    with (([LeafL (LinearL first)] ++ blocks ++ [LeafL ConcatELU])
          ++ [LeafL (LinearL final)])
    by (rewrite <- !app_assoc; reflexivity).
  unfold bind, liftR, ret.
  rewrite update_last_snoc. cbn [weight_zero_ rbind].
  rewrite update_last_snoc. cbn [bias_zero_ rbind].
  eexists. eexists. split; [reflexivity|].
  unfold GatedLinearNet_parameters. cbn [gln_nn].
  rewrite !count_app_layers, Hblocks.
  cbn [flat_map Layer_parameters Leaf_parameters lin_weight lin_bias app] in C1, C3 |- *.
  cbn [map] in C1, C3 |- *.
  unfold zero_, tmap. cbn [shape].
  rewrite C1, C3. unfold py_sum at 1. cbn [fold_left].
  unfold py_sum. cbn [fold_left]. lia.
Qed.

(** X13: [print_num_params] on a [GatedConvNet(c_in, c_hidden, c_out,
    num_layers)] that was built prints
    [(9 c_in c_hidden + c_hidden) + L (13 c_hidden^2 + 5 c_hidden)
     + (18 c_hidden c' + c')] with thousands separators, where
    [L = max(0, num_layers)] and [c'] is [c_out] if positive and
    [2 c_in] otherwise (the count being below [2^63]). *)
Theorem print_num_params_GatedConvNet (c_in c_hidden c_out num_layers : Z)
    (st st' st2 : PyState) (net : GatedConvNet) :
  GatedConvNet__init__ c_in c_hidden c_out num_layers st = Ok (net, st') ->
  let co := if (c_out >? 0)%Z then c_out else (2 * c_in)%Z in
  let N := ((9 * c_in * c_hidden + c_hidden)
            + Z.max 0 num_layers * (13 * c_hidden * c_hidden + 5 * c_hidden)
            + (18 * c_hidden * co + co))%Z in
  (N < 2 ^ 63)%Z ->
  num_params (GatedConvNet_parameters net) = N /\
  print_num_params (GatedConvNet_parameters net) st2
  = Ok (tt, mkPyState (gen st2)
              (stdout st2 ++ [("Number of parameters: " ++ format_commas N)%string])).
Proof.
  intros Hinit co N HN.
  destruct (@GatedConvNet__init__first _ _ _ _ _ _ _ Hinit) as (Hc & Hh & _).
  destruct (@GatedConvNet__init__params c_in c_hidden c_out num_layers st Hc Hh)
    as (net0 & st0 & Hinit0 & Hcount).
  rewrite Hinit in Hinit0. injection Hinit0 as <- _.
  assert (Hco : (0 <= co)%Z).
  { unfold co. destruct (Z.gtb_spec c_out 0); lia. }
  assert (Hnum : num_params (GatedConvNet_parameters net) = N).
  { unfold num_params. rewrite Hcount. fold co. fold N.
    apply wrap_small; [lia|].
    change (64 - 1)%Z with 63%Z. split; [|exact HN].
    unfold N. nia. }
  split; [exact Hnum|].
  unfold print_num_params. rewrite Hnum. reflexivity.
Qed.

Lemma print_num_params_GatedConvNet_witness :
  exists net st',
    GatedConvNet__init__ 1 32 (-1) 3 initial_state = Ok (net, st') /\
    num_params (GatedConvNet_parameters net) = 41890%Z /\
    print_num_params (GatedConvNet_parameters net) st'
    = Ok (tt, mkPyState (gen st')
                (stdout st' ++ ["Number of parameters: 41,890"])).
Proof.
  destruct (@GatedConvNet__init__params 1 32 (-1) 3 initial_state)
    as (net & st' & Hinit & _); try lia.
  exists net, st'. split; [exact Hinit|].
  apply (@print_num_params_GatedConvNet 1 32 (-1) 3 initial_state st' st' net Hinit).
  reflexivity.
Defined.

(** X14: [print_num_params] on a [GatedLinearNet(in_features = f,
    num_layers)] that was built prints
    [(f^2 + f) + L (5 f^2 + 5 f) + (4 f^2 + 2 f)] with thousands
    separators, where [L = max(0, num_layers)] (the count being below
    [2^63]). *)
Theorem print_num_params_GatedLinearNet (f num_layers : Z)
    (st st' st2 : PyState) (net : GatedLinearNet) :
  GatedLinearNet__init__ f num_layers st = Ok (net, st') ->
  let N := ((f * f + f)
            + Z.max 0 num_layers * (5 * f * f + 5 * f)
            + (4 * f * f + 2 * f))%Z in
  (N < 2 ^ 63)%Z ->
  num_params (GatedLinearNet_parameters net) = N /\
  print_num_params (GatedLinearNet_parameters net) st2
  = Ok (tt, mkPyState (gen st2)
              (stdout st2 ++ [("Number of parameters: " ++ format_commas N)%string])).
Proof.
  intros Hinit N HN.
  destruct (@GatedLinearNet__init__first _ _ _ _ _ Hinit) as (Hf & _).
  destruct (@GatedLinearNet__init__params f num_layers st Hf)
    as (net0 & st0 & Hinit0 & Hcount).
  rewrite Hinit in Hinit0. injection Hinit0 as <- _.
  assert (Hnum : num_params (GatedLinearNet_parameters net) = N).
  { unfold num_params. rewrite Hcount. fold N.
    apply wrap_small; [lia|].
    change (64 - 1)%Z with 63%Z. split; [|exact HN].
    unfold N. nia. }
  split; [exact Hnum|].
  unfold print_num_params. rewrite Hnum. reflexivity.
Qed.

Lemma print_num_params_GatedLinearNet_witness :
  exists net st',
    GatedLinearNet__init__ 784 3 initial_state = Ok (net, st') /\
    num_params (GatedLinearNet_parameters net) = 12307232%Z /\
    print_num_params (GatedLinearNet_parameters net) st'
    = Ok (tt, mkPyState (gen st')
                (stdout st' ++ ["Number of parameters: 12,307,232"])).
Proof.
  destruct (@GatedLinearNet__init__params 784 3 initial_state)
    as (net & st' & Hinit & _); try lia.
  exists net, st'. split; [exact Hinit|].
  apply (@print_num_params_GatedLinearNet 784 3 initial_state st' st' net Hinit).
  reflexivity.
Defined.

(* ================================================================== *)
(** ** The gated blocks *)











(* ================================================================== *)
(** ** tools.py: the masks on display *)

(** X17: [visualize_masks] builds both masks and expands them, and then
    stops at its first call of [show_imgs]: in a namespace that binds no
    [show_imgs] -- [tools.py] neither defines nor imports one -- it
    raises [NameError], and nothing is shown. *)
Theorem visualize_masks_NameError
    (globals : list (string * (Tensor R -> string -> M unit))) (st : PyState) :
  lookup_name "show_imgs" globals = None ->
  (exists cb cm,
     (m <- create_checkerboard_mask 8 8 false ;; expand 0%R m [-1; 2; -1; -1]%Z)
     = Ok cb /\ shape cb = [1; 2; 8; 8]%nat /\
     (m <- create_channel_mask 2 false ;; expand 0%R m [-1; -1; 8; 8]%Z)
     = Ok cm /\ shape cm = [1; 2; 8; 8]%nat) /\
  visualize_masks globals st
  = Raise (NameError "name 'show_imgs' is not defined").
Proof.
  intros Hg.
  destruct (@checkerboard_mask_spec 8 8) as (m1 & E1 & _ & S1 & _); try lia.
  destruct (@channel_mask_spec 2) as (m2 & E2 & _ & S2 & _); try lia.
  assert (X1 : exists cb, expand 0%R m1 [-1; 2; -1; -1]%Z = Ok cb
                          /\ shape cb = [1; 2; 8; 8]%nat).
  { unfold expand. rewrite S1. eexists. split; reflexivity. }
  assert (X2 : exists cm, expand 0%R m2 [-1; -1; 8; 8]%Z = Ok cm
                          /\ shape cm = [1; 2; 8; 8]%nat).
  { unfold expand. rewrite S2. eexists. split; reflexivity. }
  destruct X1 as (cb & X1 & Scb). destruct X2 as (cm & X2 & Scm).
  split.
  - exists cb, cm. rewrite E1, E2. cbn [rbind]. auto.
  - unfold visualize_masks, bind, liftR.
    rewrite E1, X1, E2, X2, Hg. reflexivity.
Qed.

Lemma visualize_masks_NameError_witness :
  (exists cb cm,
     (m <- create_checkerboard_mask 8 8 false ;; expand 0%R m [-1; 2; -1; -1]%Z)
     = Ok cb /\ shape cb = [1; 2; 8; 8]%nat /\
     (m <- create_channel_mask 2 false ;; expand 0%R m [-1; -1; 8; 8]%Z)
     = Ok cm /\ shape cm = [1; 2; 8; 8]%nat) /\
  visualize_masks [] initial_state
  = Raise (NameError "name 'show_imgs' is not defined").
Proof.
  apply (@visualize_masks_NameError [] initial_state). reflexivity.
Defined.
